(** * pyripherals: the I2C controller (peripherals/I2CController.py)

    A shallow embedding of class [I2CController]: the command buffer kept in
    the dict [self.i2c], the calls made on the Opal Kelly front panel object
    [self.fpga.xem], and the Python exceptions the methods can raise.

    - Python ints are unbounded: they are [Z], with [Z.land], [Z.lor],
      [Z.shiftl] and [Z.shiftr] for [&], [|], [<<] and [>>] (all four agree
      with Python on negative numbers, which both read in two's complement).
    - A method is a function [World -> outcome A * World]: the world holds the
      heap of [i2c] dicts (controllers hold a reference, so that two
      controllers can hold the same dict) and the trace of everything done
      outside the process: calls on the FPGA, [time.sleep], [print].
    - What the FPGA answers is a function of the trace so far. *)

From Stdlib Require Import ZArith Lia String Ascii.
From stdpp Require Import base option list gmap strings.

Local Open Scope Z_scope.

(** ** Values *)

(** What a cell of a Python list holds here: [None] or an int. *)
Inductive val : Type :=
| VNone
| VInt (z : Z).

(** What a method returns: [None], [True], a list, or the pair (bytearray,
    error code) that [fpga.read_pipe_out] gives. *)
Inductive pyret : Type :=
| RNone
| RTrue
| RList (l : list val)
| RPipe (buf : list Z) (e : Z).

(** The exceptions met in this file.  [DanglingRef] is not a Python
    exception: it is the model's answer when a controller's reference names
    no dict of the heap, which Python rules out (a reference keeps its object
    alive). *)
Inductive exn : Type :=
| KeyError (msg : string)
| IndexError
| TypeError
| ValueError
| DanglingRef.

Inductive outcome (A : Type) : Type :=
| Ok (a : A)
| Raise (e : exn).
Arguments Ok {A} a.
Arguments Raise {A} e.

(** ** The world *)

(** Everything a method does outside the interpreter, in the order done.
    [Sleep ms] is [time.sleep(ms / 1000)]. *)
Inductive Event : Type :=
| ActivateTriggerIn (addr bit : Z)
| SetWireInValue (addr value mask : Z)
| UpdateWireIns
| UpdateTriggerOuts
| IsTriggered (addr mask : Z)
| UpdateWireOuts
| GetWireOutValue (addr : Z)
| ReadPipeOut (addr len : Z)
| Sleep (ms : Z)
| Print (s : string).

(** The dict [{'m_pBuf': ..., 'm_nDataStart': ...}].  Every dict the file
    makes or updates has exactly these two keys, a list under the first and an
    int under the second, so it is a record.  The list is held by value: it is
    taken to be reachable through this dict only, which is so for every list
    the file makes ([i2c_configure] binds a fresh one); two dicts handed the
    same list object by the caller, or the buffer passed as [data], are outside
    the model. *)
Record I2CDict : Type := mkI2C {
  m_pBuf : list val;
  m_nDataStart : Z
}.

Record World : Type := mkWorld {
  heap : gmap nat I2CDict;
  trace : list Event
}.

(** An endpoint (class [Endpoint] of the package, not in this file): the
    fields the controller reads. *)
Record Endpoint : Type := mkEndpoint {
  address : Z;
  bit_index_low : Z
}.

(** The FPGA object: what its calls return, given the trace up to the call. *)
Record FPGA : Type := mkFPGA {
  xem_ActivateTriggerIn : list Event -> Z -> Z -> Z;
  xem_IsTriggered : list Event -> Z -> Z -> bool;
  xem_GetWireOutValue : list Event -> Z -> Z;
  fpga_read_pipe_out : list Event -> Z -> Z -> list Z * Z
}.

(** An instance: [self.i2c] is a reference into the heap. *)
Record I2CController : Type := mkController {
  i2c : nat;
  fpga : FPGA;
  addr_pins : Z;
  endpoints : gmap string Endpoint
}.

(** ** The monad of methods *)

Definition M (A : Type) : Type := World -> outcome A * World.

Definition ret {A} (a : A) : M A := fun w => (Ok a, w).

Definition raise {A} (e : exn) : M A := fun w => (Raise e, w).

Definition bind {A B} (m : M A) (k : A -> M B) : M B :=
  fun w =>
    match m w with
    | (Ok a, w') => k a w'
    | (Raise e, w') => (Raise e, w')
    end.

Declare Scope py_scope.
Delimit Scope py_scope with py.
Notation "'let*' x := c1 'in' c2" := (bind c1 (fun x => c2))
  (at level 10, x name, c1 at level 100, c2 at level 200) : py_scope.
Notation "c1 >> c2" := (bind c1 (fun _ => c2))
  (at level 100, c2 at level 200, right associativity) : py_scope.
Local Open Scope py_scope.

Definition lift {A} (o : outcome A) : M A := fun w => (o, w).

Definition emit (e : Event) : M unit :=
  fun w => (Ok tt, mkWorld (heap w) (trace w ++ [e])).

Definition get_trace : M (list Event) := fun w => (Ok (trace w), w).

(** [self.i2c] read and written through the reference. *)
Definition get_i2c (c : I2CController) : M I2CDict :=
  fun w =>
    match heap w !! i2c c with
    | Some d => (Ok d, w)
    | None => (Raise DanglingRef, w)
    end.

Definition put_i2c (c : I2CController) (d : I2CDict) : M unit :=
  fun w => (Ok tt, mkWorld (<[i2c c := d]> (heap w)) (trace w)).

(** [for x in l: body], without early exit. *)
Fixpoint for_ {A} (l : list A) (body : A -> M unit) : M unit :=
  match l with
  | [] => ret tt
  | x :: l' => body x >> for_ l' body
  end.

(** [for x in l: body], where the body may [return]: [Some r] is a return
    of [r] from the enclosing method, [None] goes on with the loop. *)
Fixpoint for_return {A R} (l : list A) (body : A -> M (option R)) : M (option R) :=
  match l with
  | [] => ret None
  | x :: l' =>
      let* r := body x in
      match r with
      | Some v => ret (Some v)
      | None => for_return l' body
      end
  end.

(** [range(n)]. *)
Definition range (n : Z) : list Z := Z.of_nat <$> seq 0 (Z.to_nat n).

(** ** Python's list and int operations *)

(** The position [l[i]] names, counting from the end when [i] is negative. *)
Definition list_index {A} (l : list A) (i : Z) : option nat :=
  let n := Z.of_nat (length l) in
  if decide (0 <= i < n) then Some (Z.to_nat i)
  else if decide (- n <= i < 0) then Some (Z.to_nat (n + i))
  else None.

Definition list_getitem {A} (l : list A) (i : Z) : outcome A :=
  match list_index l i with
  | Some k => match l !! k with Some x => Ok x | None => Raise IndexError end
  | None => Raise IndexError
  end.

Definition list_setitem {A} (l : list A) (i : Z) (x : A) : outcome (list A) :=
  match list_index l i with
  | Some k => Ok (<[k := x]> l)
  | None => Raise IndexError
  end.

(** [a << k] on ints: a negative shift count is a ValueError. *)
Definition int_lshift (a k : Z) : outcome Z :=
  if decide (k < 0) then Raise ValueError else Ok (Z.shiftl a k).

Definition int_rshift (a k : Z) : outcome Z :=
  if decide (k < 0) then Raise ValueError else Ok (Z.shiftr a k).

(** [v << k] and [v | m] on a list cell: [None] has neither. *)
Definition val_lshift (v : val) (k : Z) : outcome Z :=
  match v with
  | VInt z => int_lshift z k
  | VNone => Raise TypeError
  end.

Definition val_or (v : val) (m : Z) : outcome val :=
  match v with
  | VInt z => Ok (VInt (Z.lor z m))
  | VNone => Raise TypeError
  end.

(** [str.lower()].  On ASCII only: no other character lowers to a letter of
    'pipe' or 'wire', the two strings the result is compared with. *)
Definition ascii_lower (a : ascii) : ascii :=
  let n := nat_of_ascii a in
  if ((65 <=? n)%nat && (n <=? 90)%nat)%bool then ascii_of_nat (n + 32) else a.

Fixpoint lower (s : string) : string :=
  match s with
  | EmptyString => EmptyString
  | String a s' => String (ascii_lower a) (lower s')
  end.

(** ** The controller's own operations *)

(** [self.endpoints[name]]. *)
Definition endpoint (c : I2CController) (name : string) : M Endpoint :=
  match endpoints c !! name with
  | Some ep => ret ep
  | None => raise (KeyError name)
  end.

(** [self.fpga.xem.ActivateTriggerIn(self.endpoints[name].address,
    self.endpoints[name].bit_index_low)]. *)
Definition pulse (c : I2CController) (name : string) : M Z :=
  let* ep := endpoint c name in
  let* t := get_trace in
  emit (ActivateTriggerIn (address ep) (bit_index_low ep)) >>
  ret (xem_ActivateTriggerIn (fpga c) t (address ep) (bit_index_low ep)).

(** [self.i2c['m_pBuf'][i] = v]. *)
Definition buf_setitem (c : I2CController) (i : Z) (v : val) : M unit :=
  let* d := get_i2c c in
  let* l := lift (list_setitem (m_pBuf d) i v) in
  put_i2c c (mkI2C l (m_nDataStart d)).

(** [self.i2c['m_pBuf'][i]]. *)
Definition buf_getitem (c : I2CController) (i : Z) : M val :=
  let* d := get_i2c c in
  lift (list_getitem (m_pBuf d) i).

Definition I2C_MAX_TIMEOUT_MS : Z := 50.

(** [i2c_configure(self, preamble_length, starts, stops, preamble)]. *)
Definition i2c_configure (c : I2CController)
    (preamble_length starts stops : Z) (preamble : list val) : M unit :=
  (if decide (preamble_length > 7)
   then emit (Print "Preamble data is too long")
   else ret tt) >>
  (let* d := get_i2c c in
   put_i2c c (mkI2C (replicate (Z.to_nat (4 + preamble_length)) VNone)
                    (m_nDataStart d))) >>
  buf_setitem c 0 (VInt preamble_length) >>
  buf_setitem c 1 (VInt starts) >>
  buf_setitem c 2 (VInt stops) >>
  buf_setitem c 3 (VInt 0) >>
  for_ (range preamble_length) (fun i =>
    let* x := lift (list_getitem preamble i) in
    buf_setitem c (4 + i) x) >>
  let* d := get_i2c c in
  put_i2c c (mkI2C (m_pBuf d) (4 + preamble_length)).

(** [self.i2c['m_pBuf'].append(v)]. *)
Definition buf_append (c : I2CController) (v : val) : M unit :=
  let* d := get_i2c c in
  put_i2c c (mkI2C (m_pBuf d ++ [v]) (m_nDataStart d)).

(** The body both methods run for each byte they send: byte [i] of the
    buffer goes to the IN wire, the wires are updated, MEMWRITE is pulsed. *)
Definition write_buf_byte (c : I2CController) (i : Z) : M unit :=
  let* ep_mask := endpoint c "IN" in
  let* mask := lift (int_lshift 255 (bit_index_low ep_mask)) in
  let* b := buf_getitem c i in
  let* ep_value := endpoint c "IN" in
  let* value := lift (val_lshift b (bit_index_low ep_value)) in
  let* ep := endpoint c "IN" in
  emit (SetWireInValue (address ep) value mask) >>
  emit UpdateWireIns >>
  pulse c "MEMWRITE" >>
  ret tt.

(** [self.fpga.xem.IsTriggered(self.endpoints[name].address,
    (1 << self.endpoints[name].bit_index_low))]. *)
Definition is_triggered (c : I2CController) (name : string) : M bool :=
  let* ep := endpoint c name in
  let* m := lift (int_lshift 1 (bit_index_low ep)) in
  let* t := get_trace in
  emit (IsTriggered (address ep) m) >>
  ret (xem_IsTriggered (fpga c) t (address ep) m).

(** [i2c_transmit(self, data, data_length)]: [True] when DONE was seen,
    [None] after the timeout message. *)
Definition i2c_transmit (c : I2CController)
    (data : list val) (data_length : Z) : M pyret :=
  buf_setitem c 3 (VInt data_length) >>
  for_ (range data_length) (fun i =>
    let* x := lift (list_getitem data i) in
    buf_append c x) >>
  pulse c "MEMSTART" >>
  (let* d := get_i2c c in
   for_ (range (data_length + m_nDataStart d)) (write_buf_byte c)) >>
  pulse c "START" >>
  let* r := for_return (range I2C_MAX_TIMEOUT_MS) (fun _ =>
    emit UpdateTriggerOuts >>
    let* done := is_triggered c "DONE" in
    if done then ret (Some RTrue)
    else emit (Sleep 1) >> ret None) in
  match r with
  | Some v => ret v
  | None => emit (Print "Timeout error in transmit") >> ret RNone
  end.

(** [try: m  except KeyError: raise KeyError(msg)]. *)
Definition reraise_KeyError {A} (m : M A) (msg : string) : M A :=
  fun w =>
    match m w with
    | (Raise (KeyError _), w') => (Raise (KeyError msg), w')
    | r => r
    end.

Definition missing_endpoints_msg : string :=
  "i2c_receive requires the I2C endpoints FIFO_RESET and PIPE_OUT. One or both are missing.".

(** [for x in l: body] where the body updates a local variable [s]. *)
Fixpoint for_local {A S} (l : list A) (s : S) (body : A -> S -> M S) : M S :=
  match l with
  | [] => ret s
  | x :: l' => let* s' := body x s in for_local l' s' body
  end.

(** The wire readout of [i2c_receive]: [data = [None]*data_length], then one
    OUT register read per byte. *)
Definition read_wire (c : I2CController) (data_length : Z) : M (list val) :=
  for_local (range data_length) (replicate (Z.to_nat data_length) VNone)
    (fun i data =>
      emit UpdateWireOuts >>
      let* ep := endpoint c "OUT" in
      let* t := get_trace in
      emit (GetWireOutValue (address ep)) >>
      let data_tmp := xem_GetWireOutValue (fpga c) t (address ep) in
      let* ep_mask := endpoint c "OUT" in
      let* mask := lift (int_lshift 255 (bit_index_low ep_mask)) in
      let* ep_shift := endpoint c "OUT" in
      let* byte := lift (int_rshift (Z.land data_tmp mask) (bit_index_low ep_shift)) in
      let* data' := lift (list_setitem data i (VInt byte)) in
      pulse c "MEMREAD" >>
      ret data').

(** [self.fpga.read_pipe_out(self.endpoints['PIPE_OUT'].address, data_length)]. *)
Definition read_pipe (c : I2CController) (data_length : Z) : M pyret :=
  let* ep := endpoint c "PIPE_OUT" in
  let* t := get_trace in
  emit (ReadPipeOut (address ep) data_length) >>
  let r := fpga_read_pipe_out (fpga c) t (address ep) data_length in
  ret (RPipe (fst r) (snd r)).

(** [i2c_receive(self, data_length, data_transfer='wire', reset_pipe=True,
    readout=True)].  [int(I2C_MAX_TIMEOUT_MS / 10)] is [int(5.0)]. *)
Definition i2c_receive (c : I2CController) (data_length : Z)
    (data_transfer : string) (reset_pipe readout : bool) : M pyret :=
  (if bool_decide (lower data_transfer = "pipe") && reset_pipe
   then
     reraise_KeyError
       (endpoint c "FIFO_RESET" >> endpoint c "PIPE_OUT" >> ret tt)
       missing_endpoints_msg >>
     pulse c "FIFO_RESET" >>
     ret tt
   else ret tt) >>
  (let* b0 := buf_getitem c 0 in
   let* b := lift (val_or b0 128) in
   buf_setitem c 0 b) >>
  buf_setitem c 3 (VInt data_length) >>
  pulse c "MEMSTART" >>
  (let* d := get_i2c c in
   for_ (range (m_nDataStart d)) (write_buf_byte c)) >>
  pulse c "START" >>
  let* r := for_return (range (I2C_MAX_TIMEOUT_MS / 10)) (fun _ =>
    emit UpdateTriggerOuts >>
    let* done := is_triggered c "DONE" in
    if done then
      if negb readout then ret (Some RNone)
      else if bool_decide (lower data_transfer = "wire") then
        pulse c "MEMSTART" >>
        let* data := read_wire c data_length in
        ret (Some (RList data))
      else if bool_decide (lower data_transfer = "pipe") then
        let* r := read_pipe c data_length in
        ret (Some r)
      else emit (Sleep 10) >> ret None
    else emit (Sleep 10) >> ret None) in
  match r with
  | Some v => ret v
  | None => emit (Print "Timeout Exception in Rx") >> ret RNone
  end.

#[global] Instance val_eq_dec : EqDecision val.
Proof. solve_decision. Defined.

(** [(regAddr == [None]) or (regAddr == None)]: [regAddr] is [None] or a
    list. *)
Definition no_register (regAddr : option (list val)) : bool :=
  bool_decide (regAddr = Some [VNone]) || bool_decide (regAddr = None).

(** [len(l)]. *)
Definition len {A} (l : list A) : Z := Z.of_nat (length l).

(** [i2c_write_long(self, devAddr, regAddr, data_length, data)]. *)
Definition i2c_write_long (c : I2CController) (devAddr : Z)
    (regAddr : option (list val)) (data_length : Z) (data : list val) : M pyret :=
  let preamble :=
    if no_register regAddr then [VInt (Z.land devAddr 254)]
    else [VInt (Z.land devAddr 254)] ++ default [] regAddr in
  i2c_configure c (len preamble) 0 (Z.shiftl 1 (len preamble)) preamble >>
  i2c_transmit c data data_length.

(** [i2c_read_long(self, devAddr, regAddr, data_length, data_transfer='wire',
    reset_pipe=True, readout=True)]. *)
Definition i2c_read_long (c : I2CController) (devAddr : Z)
    (regAddr : option (list val)) (data_length : Z)
    (data_transfer : string) (reset_pipe readout : bool) : M pyret :=
  (if no_register regAddr then
     let preamble := [VInt (Z.lor devAddr 1)] in
     i2c_configure c 1 0 0 preamble
   else
     let preamble :=
       [VInt (Z.land devAddr 254)] ++ default [] regAddr ++ [VInt (Z.lor devAddr 1)] in
     let start_positions := Z.shiftl 1 (len (default [] regAddr)) in
     i2c_configure c (len preamble) start_positions 0 preamble) >>
  if readout then
    let* data := i2c_receive c data_length data_transfer reset_pipe readout in
    ret data
  else
    i2c_receive c data_length data_transfer reset_pipe readout >>
    ret RNone.

(** [reset_device(self)]: the value of the trigger call is returned. *)
Definition reset_device (c : I2CController) : M Z := pulse c "RESET".

(** The dict written as the default of [__init__]'s parameter [i2c] is made
    once, when the class body runs: it lives at [default_i2c] from then on. *)
Definition default_i2c : nat := 0%nat.

Definition class_defined : World :=
  mkWorld {[ default_i2c := mkI2C [] 7 ]} [].

(** [__init__(self, fpga, addr_pins, endpoints, i2c={...})]: [None] for [i2c]
    is the call that leaves the parameter out. *)
Definition __init__ (fpga : FPGA) (addr_pins : Z)
    (endpoints : gmap string Endpoint) (i2c : option nat) : I2CController :=
  mkController (default default_i2c i2c) fpga addr_pins endpoints.

(** [create_chips(cls, fpga, addr_pins, endpoints)]. *)
Definition create_chips (fpga : FPGA) (addr_pins : list Z)
    (endpoints : gmap string Endpoint) : list I2CController :=
  (fun addr => __init__ fpga addr endpoints None) <$> addr_pins.

(** ** Definitions the statements use *)

(** The tail of [i2c_transmit], from the wait loop on. *)
Definition transmit_wait (c : I2CController) : M pyret :=
  let* r := for_return (range I2C_MAX_TIMEOUT_MS) (fun _ =>
    emit UpdateTriggerOuts >>
    let* done := is_triggered c "DONE" in
    if done then ret (Some RTrue)
    else emit (Sleep 1) >> ret None) in
  match r with
  | Some v => ret v
  | None => emit (Print "Timeout error in transmit") >> ret RNone
  end.

(** The endpoints a transaction goes through. *)
Record Wiring : Type := mkWiring {
  w_MEMSTART : Endpoint;
  w_MEMWRITE : Endpoint;
  w_IN : Endpoint;
  w_START : Endpoint;
  w_DONE : Endpoint;
  w_OUT : Endpoint;
  w_MEMREAD : Endpoint
}.

(** The controller has the endpoints of a transmission, and the two bit
    offsets it shifts by are not negative. *)
Definition wired_tx (c : I2CController) (W : Wiring) : Prop :=
  endpoints c !! "MEMSTART" = Some (w_MEMSTART W) /\
  endpoints c !! "MEMWRITE" = Some (w_MEMWRITE W) /\
  endpoints c !! "IN" = Some (w_IN W) /\
  endpoints c !! "START" = Some (w_START W) /\
  endpoints c !! "DONE" = Some (w_DONE W) /\
  0 <= bit_index_low (w_IN W) /\
  0 <= bit_index_low (w_DONE W).

(** The same with the two endpoints of the wire readout. *)
Definition wired_rx (c : I2CController) (W : Wiring) : Prop :=
  wired_tx c W /\
  endpoints c !! "OUT" = Some (w_OUT W) /\
  endpoints c !! "MEMREAD" = Some (w_MEMREAD W) /\
  0 <= bit_index_low (w_OUT W).

(** A configured buffer: [bs] are its bytes, the four control bytes are
    there, and the data start is its end. *)
Definition configured (d : I2CDict) (bs : list Z) : Prop :=
  m_pBuf d = VInt <$> bs /\ m_nDataStart d = len bs /\ 4 <= len bs.

Definition pulse_event (ep : Endpoint) : Event :=
  ActivateTriggerIn (address ep) (bit_index_low ep).

(** The three calls that send one byte. *)
Definition byte_events (W : Wiring) (b : Z) : list Event :=
  [SetWireInValue (address (w_IN W))
     (Z.shiftl b (bit_index_low (w_IN W)))
     (Z.shiftl 255 (bit_index_low (w_IN W)));
   UpdateWireIns;
   pulse_event (w_MEMWRITE W)].

(** MEMSTART, the bytes [bs] one after the other, START. *)
Definition send_events (W : Wiring) (bs : list Z) : list Event :=
  pulse_event (w_MEMSTART W) :: concat (byte_events W <$> bs) ++ [pulse_event (w_START W)].

(** One look at DONE. *)
Definition poll_events (W : Wiring) : list Event :=
  [UpdateTriggerOuts;
   IsTriggered (address (w_DONE W)) (Z.shiftl 1 (bit_index_low (w_DONE W)))].

(** [n] looks at DONE that found it unset, each followed by a sleep. *)
Definition polls_missed (W : Wiring) (ms : Z) (n : nat) : list Event :=
  concat (replicate n (poll_events W ++ [Sleep ms])).

(** What the FPGA answers to look number [j] (from 0) at DONE, the looks
    before it having found it unset; [t0] is the trace when the wait began. *)
Definition done_seen (f : FPGA) (W : Wiring) (ms : Z) (t0 : list Event) (j : nat) : bool :=
  xem_IsTriggered f (t0 ++ polls_missed W ms j ++ [UpdateTriggerOuts])
    (address (w_DONE W)) (Z.shiftl 1 (bit_index_low (w_DONE W))).

(** The body of both wait loops: on DONE go on with [found], otherwise
    sleep [ms] milliseconds and look again. *)
Definition poll_body {R} (c : I2CController) (found : M (option R)) (ms : Z) : M (option R) :=
  emit UpdateTriggerOuts >>
  let* done := is_triggered c "DONE" in
  if done then found
  else emit (Sleep ms) >> ret None.

(** What [i2c_receive] does once DONE is seen. *)
Definition receive_found (c : I2CController) (data_length : Z)
    (data_transfer : string) (readout : bool) : M (option pyret) :=
  if negb readout then ret (Some RNone)
  else if bool_decide (lower data_transfer = "wire") then
    pulse c "MEMSTART" >>
    let* data := read_wire c data_length in
    ret (Some (RList data))
  else if bool_decide (lower data_transfer = "pipe") then
    let* r := read_pipe c data_length in
    ret (Some r)
  else emit (Sleep 10) >> ret None.

(** The tail of [i2c_receive], from the wait loop on. *)
Definition receive_wait (c : I2CController) (data_length : Z)
    (data_transfer : string) (readout : bool) : M pyret :=
  let* r := for_return (range (I2C_MAX_TIMEOUT_MS / 10)) (fun _ =>
    poll_body c (receive_found c data_length data_transfer readout) 10) in
  match r with
  | Some v => ret v
  | None => emit (Print "Timeout Exception in Rx") >> ret RNone
  end.

(** The three calls that read one byte. *)
Definition read_events (W : Wiring) : list Event :=
  [UpdateWireOuts; GetWireOutValue (address (w_OUT W)); pulse_event (w_MEMREAD W)].

Definition reads (W : Wiring) (n : nat) : list Event :=
  concat (replicate n (read_events W)).

(** The value of the OUT register at read number [i] (from 0); [t0] is the
    trace when the readout loop began. *)
Definition out_value (f : FPGA) (W : Wiring) (t0 : list Event) (i : nat) : Z :=
  xem_GetWireOutValue f (t0 ++ reads W i ++ [UpdateWireOuts]) (address (w_OUT W)).

(** The byte taken from it: mask, then shift. *)
Definition out_byte (f : FPGA) (W : Wiring) (t0 : list Event) (i : nat) : Z :=
  Z.shiftr (Z.land (out_value f W t0 i) (Z.shiftl 255 (bit_index_low (w_OUT W))))
           (bit_index_low (w_OUT W)).

Definition wire_data (f : FPGA) (W : Wiring) (t0 : list Event) (n : nat) : list Z :=
  out_byte f W t0 <$> seq 0 n.

(** The first step of [i2c_receive]: in pipe mode with [reset_pipe] the
    FIFO_RESET pulse, given that both pipe endpoints are there ([None] when
    one is missing); otherwise nothing. *)
Definition fifo_reset_events (c : I2CController) (data_transfer : string)
    (reset_pipe : bool) : option (list Event) :=
  if bool_decide (lower data_transfer = "pipe") && reset_pipe then
    match endpoints c !! "FIFO_RESET", endpoints c !! "PIPE_OUT" with
    | Some fr, Some _ => Some [pulse_event fr]
    | _, _ => None
    end
  else Some [].

(** What [i2c_configure] prints. *)
Definition too_long_events (preamble_length : Z) : list Event :=
  if decide (preamble_length > 7) then [Print "Preamble data is too long"] else [].

(** The buffer [i2c_configure] builds. *)
Definition command_buffer (preamble_length starts stops : Z) (preamble : list val) : list val :=
  VInt preamble_length :: VInt starts :: VInt stops :: VInt 0 :: preamble.

(** Bit 7 of byte 0 of a buffer: the read flag. *)
Definition flagged (d : I2CDict) : bool :=
  match m_pBuf d with
  | VInt z :: _ => Z.testbit z 7
  | _ => false
  end.

(** The read flag of the dict at reference [l]. *)
Definition read_flag (w : World) (l : nat) : bool :=
  match heap w !! l with
  | Some d => flagged d
  | None => false
  end.

(** A property of the world that a computation keeps, however it ends. *)
Definition preserves {A} (P : World -> Prop) (m : M A) : Prop :=
  forall w r w', P w -> m w = (r, w') -> P w'.

(** The step of [i2c_receive] that sets the read flag. *)
Definition set_read_flag (c : I2CController) : M unit :=
  let* b0 := buf_getitem c 0 in
  let* b := lift (val_or b0 128) in
  buf_setitem c 0 b.

(** The trace goes on from [t0]. *)
Definition trace_from (t0 : list Event) (w : World) : Prop :=
  exists t', trace w = t0 ++ t'.

(** ** A bench: one chip, its endpoints, and three FPGAs to answer it *)

(** The endpoints of the wire path; FIFO_RESET and PIPE_OUT are not there. *)
Definition bench_wiring : Wiring :=
  mkWiring (mkEndpoint 64 0) (mkEndpoint 64 1) (mkEndpoint 1 8)
           (mkEndpoint 64 2) (mkEndpoint 96 0) (mkEndpoint 32 8) (mkEndpoint 64 3).

Definition bench_endpoints : gmap string Endpoint :=
  list_to_map
    [("MEMSTART", w_MEMSTART bench_wiring); ("MEMWRITE", w_MEMWRITE bench_wiring);
     ("IN", w_IN bench_wiring); ("START", w_START bench_wiring);
     ("DONE", w_DONE bench_wiring); ("OUT", w_OUT bench_wiring);
     ("MEMREAD", w_MEMREAD bench_wiring); ("RESET", mkEndpoint 64 4)].

(** How many times the trace has [ev]. *)
Fixpoint count_event (is_ev : Event -> bool) (t : list Event) : nat :=
  match t with
  | [] => 0
  | e :: t' => (if is_ev e then 1 else 0) + count_event is_ev t'
  end.

Definition is_UpdateTriggerOuts (e : Event) : bool :=
  match e with UpdateTriggerOuts => true | _ => false end.

Definition is_GetWireOutValue (e : Event) : bool :=
  match e with GetWireOutValue _ => true | _ => false end.

(** An FPGA whose DONE is first seen at look [k] (from 0), and whose OUT
    register shows, at read [i], the byte [0x11 * (i + 1)] at bits 8..15
    between other bits that are set. *)
Definition fpga_done_at (k : nat) : FPGA :=
  mkFPGA
    (fun _ _ _ => 0)
    (fun t _ _ => bool_decide (k < count_event is_UpdateTriggerOuts t)%nat)
    (fun t _ => 7798784 + 17 * (1 + Z.of_nat (count_event is_GetWireOutValue t)) * 256 + 171)
    (fun _ _ _ => ([], 0)).

(** An FPGA whose DONE is never seen. *)
Definition fpga_never_done : FPGA :=
  mkFPGA (fun _ _ _ => 0) (fun _ _ _ => false) (fun _ _ => 0) (fun _ _ _ => ([], 0)).

Definition bench_chip (f : FPGA) : I2CController := __init__ f 0 bench_endpoints None.

(** The default dict after [i2c_configure(2, 0, 4, [0xA0, 0x10])]. *)
Definition bench_dict : I2CDict := mkI2C (VInt <$> [2; 0; 4; 0; 160; 16]) 6.

Definition bench_world : World := mkWorld {[ default_i2c := bench_dict ]} [].

(** ** More definitions the statements use *)

(** [i2c_configure] after its length check. *)
Definition configure_build (c : I2CController)
    (preamble_length starts stops : Z) (preamble : list val) : M unit :=
  (let* d := get_i2c c in
   put_i2c c (mkI2C (replicate (Z.to_nat (4 + preamble_length)) VNone)
                    (m_nDataStart d))) >>
  buf_setitem c 0 (VInt preamble_length) >>
  buf_setitem c 1 (VInt starts) >>
  buf_setitem c 2 (VInt stops) >>
  buf_setitem c 3 (VInt 0) >>
  for_ (range preamble_length) (fun i =>
    let* x := lift (list_getitem preamble i) in
    buf_setitem c (4 + i) x) >>
  let* d := get_i2c c in
  put_i2c c (mkI2C (m_pBuf d) (4 + preamble_length)).

Definition is_UpdateWireOuts (e : Event) : bool :=
  match e with UpdateWireOuts => true | _ => false end.

(** The endpoints with the two of the pipe path added. *)
Definition pipe_endpoints : gmap string Endpoint :=
  <["FIFO_RESET" := mkEndpoint 64 5]> (<["PIPE_OUT" := mkEndpoint 160 0]> bench_endpoints).

(** An FPGA like [fpga_done_at] whose pipe gives [length] bytes 1, 2, ... and
    the error code [length]. *)
Definition fpga_with_pipe (k : nat) : FPGA :=
  mkFPGA
    (fun _ _ _ => 0)
    (fun t _ _ => bool_decide (k < count_event is_UpdateTriggerOuts t)%nat)
    (fun _ _ => 0)
    (fun _ _ n => (Z.of_nat <$> seq 1 (Z.to_nat n), n)).

(** What [i2c_transmit] and [i2c_receive] leave of a dict [d] in [d']: the
    data start, every cell there was (the buffer does not shrink), and the
    content of all of them but cells 0 and 3. *)
Definition keeps_preamble (d d' : I2CDict) : Prop :=
  m_nDataStart d' = m_nDataStart d /\
  (length (m_pBuf d) <= length (m_pBuf d'))%nat /\
  forall i : nat, i <> 0%nat -> i <> 3%nat -> (i < length (m_pBuf d))%nat ->
    m_pBuf d' !! i = m_pBuf d !! i.

(** The dict at [l] is such a [d']. *)
Definition kept_at (l : nat) (d : I2CDict) (w : World) : Prop :=
  exists d', heap w !! l = Some d' /\ keeps_preamble d d'.

(** A chip with the pipe endpoints, and one without MEMSTART. *)
Definition pipe_chip (f : FPGA) : I2CController := __init__ f 0 pipe_endpoints None.

Definition no_memstart_chip (f : FPGA) : I2CController :=
  __init__ f 0 (delete "MEMSTART" bench_endpoints) None.

(** The default dict after [i2c_configure(2, 0, 4, [0xA0, 0x10])] and
    [i2c_transmit([0x42], 1)]. *)
Definition sent_dict : I2CDict := mkI2C (VInt <$> [2; 0; 4; 1; 160; 16; 66]) 6.

Definition sent_world : World := mkWorld {[ default_i2c := sent_dict ]} [].

(** The first look, among [budget] looks from number [j] on, that sees
    DONE. *)
Fixpoint first_done_from (f : FPGA) (W : Wiring) (ms : Z) (t0 : list Event)
    (j budget : nat) : option nat :=
  match budget with
  | O => None
  | S b =>
      if done_seen f W ms t0 j then Some j
      else first_done_from f W ms t0 (S j) b
  end.

Definition first_done (f : FPGA) (W : Wiring) (ms : Z) (t0 : list Event)
    (budget : nat) : option nat :=
  first_done_from f W ms t0 0 budget.

(** * Proofs *)

(** ** Running the monad *)

Lemma bind_ok {A B} (m : M A) (k : A -> M B) w a w1 r :
  m w = (Ok a, w1) -> k a w1 = r -> bind m k w = r.
Proof. intros Hm Hk. unfold bind. by rewrite Hm. Qed.

Lemma bind_raise {A B} (m : M A) (k : A -> M B) w e w1 :
  m w = (Raise e, w1) -> bind m k w = (Raise e, w1).
Proof. intros Hm. unfold bind. by rewrite Hm. Qed.

Lemma world_at c d w :
  heap w !! i2c c = Some d -> w = mkWorld (<[i2c c := d]> (heap w)) (trace w).
Proof. intros H. destruct w as [h t]; simpl in *. by rewrite insert_id. Qed.

Lemma get_i2c_at c d h t :
  get_i2c c (mkWorld (<[i2c c := d]> h) t) = (Ok d, mkWorld (<[i2c c := d]> h) t).
Proof. unfold get_i2c; simpl. by rewrite lookup_insert_eq. Qed.

Lemma put_i2c_at c d d' h t :
  put_i2c c d' (mkWorld (<[i2c c := d]> h) t) = (Ok tt, mkWorld (<[i2c c := d']> h) t).
Proof. unfold put_i2c; simpl. by rewrite insert_insert_eq. Qed.

(** ** Lists *)

Lemma list_index_nonneg {A} (l : list A) (i : Z) :
  0 <= i < len l -> list_index l i = Some (Z.to_nat i).
Proof. intros H. unfold list_index, len in *. by rewrite decide_True. Qed.

Lemma list_setitem_ok {A} (l : list A) (i : Z) (x : A) :
  0 <= i < len l -> list_setitem l i x = Ok (<[Z.to_nat i := x]> l).
Proof. intros H. unfold list_setitem. by rewrite list_index_nonneg. Qed.

Lemma list_getitem_ok {A} (l : list A) (i : Z) (x : A) :
  0 <= i -> l !! Z.to_nat i = Some x -> list_getitem l i = Ok x.
Proof.
  intros Hi Hx. unfold list_getitem.
  rewrite list_index_nonneg, Hx; [done |].
  apply lookup_lt_Some in Hx. unfold len. lia.
Qed.

Lemma buf_setitem_at c d h t i v :
  0 <= i < len (m_pBuf d) ->
  buf_setitem c i v (mkWorld (<[i2c c := d]> h) t) =
  (Ok tt, mkWorld (<[i2c c := mkI2C (<[Z.to_nat i := v]> (m_pBuf d)) (m_nDataStart d)]> h) t).
Proof.
  intros Hi. unfold buf_setitem.
  eapply bind_ok; [apply get_i2c_at |].
  eapply bind_ok; [unfold lift; by rewrite list_setitem_ok |].
  apply put_i2c_at.
Qed.

(** The copy loop of [i2c_configure], from position [length done] on. *)
Lemma configure_copy c h t ds hdr (rest : list val) : forall done,
  length hdr = 4%nat ->
  for_ (Z.of_nat <$> seq (length done) (length rest))
    (fun i => let* x := lift (list_getitem (done ++ rest) i) in buf_setitem c (4 + i) x)
    (mkWorld (<[i2c c := mkI2C (hdr ++ done ++ replicate (length rest) VNone) ds]> h) t) =
  (Ok tt, mkWorld (<[i2c c := mkI2C (hdr ++ done ++ rest) ds]> h) t).
Proof.
  induction rest as [| x rest IH]; intros done Hhdr; simpl.
  - done.
  - eapply bind_ok.
    + eapply bind_ok.
      * unfold lift. rewrite (list_getitem_ok _ _ x); [done | lia |].
        rewrite Nat2Z.id. by rewrite lookup_app_r, Nat.sub_diag.
      * apply buf_setitem_at. simpl. unfold len.
        rewrite !length_app; simpl. lia.
    + simpl.
      replace (Z.to_nat (4 + Z.of_nat (length done))) with (length hdr + (length done + 0))%nat by lia.
      rewrite insert_app_r, insert_app_r. simpl.
      specialize (IH (done ++ [x])).
      rewrite length_app in IH; simpl in IH.
      replace (length done + 1)%nat with (S (length done)) in IH by lia.
      rewrite <- !(assoc_L (++) done [x]) in IH. simpl in IH.
      by apply IH.
Qed.

(** [i2c_configure] on a preamble of [preamble_length] entries, whatever the
    length: the message is printed past 7, and the buffer is built all the
    same. *)
Lemma i2c_configure_at c w d preamble_length starts stops preamble :
  heap w !! i2c c = Some d ->
  len preamble = preamble_length ->
  i2c_configure c preamble_length starts stops preamble w =
  (Ok tt,
   mkWorld (<[i2c c := mkI2C (command_buffer preamble_length starts stops preamble)
                             (4 + preamble_length)]> (heap w))
           (trace w ++ too_long_events preamble_length)).
Proof.
  intros Hd Hlen.
  rewrite (world_at c d w Hd) at 1.
  unfold i2c_configure.
  eapply bind_ok.
  { instantiate (1 := mkWorld (<[i2c c := d]> (heap w)) (trace w ++ too_long_events preamble_length)).
    instantiate (1 := tt). unfold too_long_events.
    case_decide; [done |]. unfold ret. by rewrite app_nil_r. }
  eapply bind_ok; [eapply bind_ok; [apply get_i2c_at | apply put_i2c_at] |].
  assert (Hn : Z.to_nat (4 + preamble_length) = (4 + length preamble)%nat)
    by (unfold len in Hlen; lia).
  rewrite Hn. simpl replicate.
  do 4 (eapply bind_ok; [apply buf_setitem_at; simpl; unfold len; simpl; lia |]; simpl).
  eapply bind_ok.
  - unfold range. replace (Z.to_nat preamble_length) with (length preamble)
      by (unfold len in Hlen; lia).
    apply (configure_copy c (heap w) _ _
             [VInt preamble_length; VInt starts; VInt stops; VInt 0] preamble []).
    done.
  - eapply bind_ok; [apply get_i2c_at |]. simpl. apply put_i2c_at.
Qed.

(** C1.  For [0 <= preamble_length <= 7] and a preamble of [preamble_length]
    entries, [i2c_configure] returns normally and leaves in [self.i2c] the
    buffer [[preamble_length, starts, stops, 0] + preamble], of length
    [4 + preamble_length], with [m_nDataStart = 4 + preamble_length]; every
    other dict of the heap and the trace (hence the hardware) are as before. *)
Theorem i2c_configure_builds_buffer c w d preamble_length starts stops preamble :
  heap w !! i2c c = Some d ->
  0 <= preamble_length <= 7 ->
  len preamble = preamble_length ->
  let buf := VInt preamble_length :: VInt starts :: VInt stops :: VInt 0 :: preamble in
  i2c_configure c preamble_length starts stops preamble w =
    (Ok tt, mkWorld (<[i2c c := mkI2C buf (4 + preamble_length)]> (heap w)) (trace w))
  /\ len buf = 4 + preamble_length
  /\ (forall i, (i < length preamble)%nat -> buf !! (4 + i)%nat = preamble !! i).
Proof.
  intros Hd Hpl Hlen buf. split; [| split].
  - rewrite (i2c_configure_at c w d _ _ _ _ Hd Hlen).
    unfold too_long_events. rewrite decide_False by lia. by rewrite app_nil_r.
  - subst buf. unfold len in *. simpl length. lia.
  - intros i _. done.
Qed.

(** C2 (what the code does instead).  For [preamble_length > 7] and a
    preamble of that many entries, [i2c_configure] prints its message and
    goes on: it raises nothing, and leaves the over-long buffer and its data
    start in [self.i2c]. *)
Theorem i2c_configure_too_long_goes_on c w d preamble_length starts stops preamble :
  heap w !! i2c c = Some d ->
  preamble_length > 7 ->
  len preamble = preamble_length ->
  i2c_configure c preamble_length starts stops preamble w =
    (Ok tt,
     mkWorld (<[i2c c := mkI2C (command_buffer preamble_length starts stops preamble)
                               (4 + preamble_length)]> (heap w))
             (trace w ++ [Print "Preamble data is too long"])).
Proof.
  intros Hd Hpl Hlen.
  rewrite (i2c_configure_at c w d _ _ _ _ Hd Hlen).
  unfold too_long_events. by rewrite decide_True.
Qed.

(** What [i2c_configure] leaves is a configured buffer, when its arguments
    are bytes. *)
Lemma i2c_configure_configured preamble_length starts stops (preamble : list Z) :
  len preamble = preamble_length ->
  0 <= preamble_length ->
  configured
    (mkI2C (command_buffer preamble_length starts stops (VInt <$> preamble))
           (4 + preamble_length))
    (preamble_length :: starts :: stops :: 0 :: preamble).
Proof.
  intros Hlen Hpl. split; [done |].
  unfold len in *. simpl. split; lia.
Qed.

Lemma emit_at e h t : emit e (mkWorld h t) = (Ok tt, mkWorld h (t ++ [e])).
Proof. done. Qed.

Lemma endpoint_ok c name ep w :
  endpoints c !! name = Some ep -> endpoint c name w = (Ok ep, w).
Proof. intros H. unfold endpoint. by rewrite H. Qed.

Lemma pulse_at c name ep h t :
  endpoints c !! name = Some ep ->
  pulse c name (mkWorld h t) =
  (Ok (xem_ActivateTriggerIn (fpga c) t (address ep) (bit_index_low ep)),
   mkWorld h (t ++ [pulse_event ep])).
Proof.
  intros H. unfold pulse.
  eapply bind_ok; [by apply endpoint_ok |]. done.
Qed.

Lemma int_lshift_ok a k : 0 <= k -> int_lshift a k = Ok (Z.shiftl a k).
Proof. intros H. unfold int_lshift. by rewrite decide_False by lia. Qed.

Lemma int_rshift_ok a k : 0 <= k -> int_rshift a k = Ok (Z.shiftr a k).
Proof. intros H. unfold int_rshift. by rewrite decide_False by lia. Qed.

Lemma buf_getitem_at c d h t i x :
  0 <= i -> m_pBuf d !! Z.to_nat i = Some x ->
  buf_getitem c i (mkWorld (<[i2c c := d]> h) t) = (Ok x, mkWorld (<[i2c c := d]> h) t).
Proof.
  intros Hi Hx. unfold buf_getitem.
  eapply bind_ok; [apply get_i2c_at |].
  unfold lift. by rewrite (list_getitem_ok _ _ x).
Qed.

Lemma buf_append_at c d h t v :
  buf_append c v (mkWorld (<[i2c c := d]> h) t) =
  (Ok tt, mkWorld (<[i2c c := mkI2C (m_pBuf d ++ [v]) (m_nDataStart d)]> h) t).
Proof.
  unfold buf_append. eapply bind_ok; [apply get_i2c_at |]. apply put_i2c_at.
Qed.

(** One byte of the buffer sent. *)
Lemma write_buf_byte_at c W d h t i b :
  endpoints c !! "IN" = Some (w_IN W) ->
  endpoints c !! "MEMWRITE" = Some (w_MEMWRITE W) ->
  0 <= bit_index_low (w_IN W) ->
  m_pBuf d !! i = Some (VInt b) ->
  write_buf_byte c (Z.of_nat i) (mkWorld (<[i2c c := d]> h) t) =
  (Ok tt, mkWorld (<[i2c c := d]> h) (t ++ byte_events W b)).
Proof.
  intros Hin Hmw Hk Hb. unfold write_buf_byte.
  eapply bind_ok; [by apply endpoint_ok |].
  eapply bind_ok; [unfold lift; by rewrite int_lshift_ok |].
  eapply bind_ok; [apply (buf_getitem_at _ _ _ _ _ (VInt b)); [lia | by rewrite Nat2Z.id] |].
  eapply bind_ok; [by apply endpoint_ok |].
  eapply bind_ok; [unfold lift; simpl; by rewrite int_lshift_ok |].
  eapply bind_ok; [by apply endpoint_ok |].
  eapply bind_ok; [apply emit_at |].
  eapply bind_ok; [apply emit_at |].
  eapply bind_ok; [by apply pulse_at |].
  unfold ret, byte_events. by rewrite <- !(assoc_L (++)).
Qed.

(** The sending loop, over the bytes [bs] that the buffer holds from
    position [k] on. *)
Lemma stream_bytes c W d h :
  endpoints c !! "IN" = Some (w_IN W) ->
  endpoints c !! "MEMWRITE" = Some (w_MEMWRITE W) ->
  0 <= bit_index_low (w_IN W) ->
  forall bs k t,
  (forall i b, bs !! i = Some b -> m_pBuf d !! (k + i)%nat = Some (VInt b)) ->
  for_ (Z.of_nat <$> seq k (length bs)) (write_buf_byte c)
    (mkWorld (<[i2c c := d]> h) t) =
  (Ok tt, mkWorld (<[i2c c := d]> h) (t ++ concat (byte_events W <$> bs))).
Proof.
  intros Hin Hmw Hk. induction bs as [| b bs IH]; intros k t Hbs.
  - simpl. by rewrite app_nil_r.
  - simpl. eapply bind_ok.
    + apply (write_buf_byte_at c W d h t k b); try done.
      specialize (Hbs 0%nat b eq_refl). by rewrite Nat.add_0_r in Hbs.
    + rewrite IH.
      * by rewrite <- (assoc_L (++)).
      * intros i b' Hi. specialize (Hbs (S i) b' Hi).
        by replace (S k + i)%nat with (k + S i)%nat by lia.
Qed.

(** The loop of [i2c_transmit] that appends the data. *)
Lemma append_data c h t ds (extra rest : list val) : forall done buf,
  for_ (Z.of_nat <$> seq (length done) (length rest))
    (fun i => let* x := lift (list_getitem (done ++ rest ++ extra) i) in buf_append c x)
    (mkWorld (<[i2c c := mkI2C (buf ++ done) ds]> h) t) =
  (Ok tt, mkWorld (<[i2c c := mkI2C (buf ++ done ++ rest) ds]> h) t).
Proof.
  induction rest as [| x rest IH]; intros done buf; simpl.
  - by rewrite app_nil_r.
  - eapply bind_ok.
    + eapply bind_ok.
      * unfold lift. rewrite (list_getitem_ok _ _ x); [done | lia |].
        rewrite Nat2Z.id. by rewrite lookup_app_r, Nat.sub_diag.
      * apply buf_append_at.
    + simpl. specialize (IH (done ++ [x]) buf).
      rewrite length_app in IH; simpl in IH.
      replace (length done + 1)%nat with (S (length done)) in IH by lia.
      rewrite <- !(assoc_L (++)) in IH. simpl in IH.
      rewrite <- !(assoc_L (++)). by apply IH.
Qed.

(** [i2c_transmit] up to its wait loop: the payload length is written, the
    data appended, and the whole buffer sent. *)
Lemma i2c_transmit_sent c W w d bs data dl :
  heap w !! i2c c = Some d ->
  configured d bs ->
  0 <= dl <= len data ->
  wired_tx c W ->
  let bs' := <[3%nat := dl]> bs ++ take (Z.to_nat dl) data in
  i2c_transmit c (VInt <$> data) dl w =
  transmit_wait c
    (mkWorld (<[i2c c := mkI2C (VInt <$> bs') (m_nDataStart d)]> (heap w))
             (trace w ++ send_events W bs')).
Proof.
  intros Hd (Hbuf & Hds & H4) Hdl (Hms & Hmw & Hin & Hst & Hdone & Hkin & Hkdone) bs'.
  rewrite (world_at c d w Hd) at 1.
  unfold i2c_transmit. fold (transmit_wait c).
  eapply bind_ok.
  { apply buf_setitem_at. rewrite Hbuf. unfold len in *. rewrite length_fmap. lia. }
  simpl. rewrite Hbuf, <- list_fmap_insert.
  eapply bind_ok.
  { unfold range.
    pose proof (append_data c (heap w) (trace w) (m_nDataStart d)
      (VInt <$> drop (Z.to_nat dl) data) (VInt <$> take (Z.to_nat dl) data) []
      (VInt <$> <[3%nat := dl]> bs)) as Ha.
    rewrite length_fmap, length_take in Ha. simpl in Ha.
    replace (Z.to_nat dl `min` length data)%nat with (Z.to_nat dl) in Ha
      by (unfold len in Hdl; lia).
    rewrite <- fmap_app, take_drop in Ha. rewrite app_nil_r in Ha. apply Ha. }
  rewrite <- fmap_app. fold bs'.
  eapply bind_ok; [by apply pulse_at |].
  eapply bind_ok.
  { eapply bind_ok; [apply get_i2c_at |]. simpl.
    unfold range.
    replace (Z.to_nat (dl + m_nDataStart d)) with (length bs').
    - apply (stream_bytes c W _ _ Hin Hmw Hkin bs' 0%nat).
      intros i b Hi. simpl. by rewrite list_lookup_fmap, Hi.
    - subst bs'. rewrite length_app, length_insert, length_take.
      unfold len in *. lia. }
  eapply bind_ok; [by apply pulse_at |].
  unfold send_events. simpl. by rewrite <- !(assoc_L (++)).
Qed.

(** ** The wait loops *)

Lemma polls_missed_S W ms n :
  polls_missed W ms (S n) = polls_missed W ms n ++ poll_events W ++ [Sleep ms].
Proof.
  unfold polls_missed. rewrite replicate_S_end, concat_app. simpl. done.
Qed.

Section Poll.
Context {R : Type} (c : I2CController) (W : Wiring) (found : M (option R)) (ms : Z).
Context (h : gmap nat I2CDict) (t0 : list Event).
Hypothesis Hdone : endpoints c !! "DONE" = Some (w_DONE W).
Hypothesis Hbit : 0 <= bit_index_low (w_DONE W).

Lemma is_triggered_at j :
  is_triggered c "DONE" (mkWorld h ((t0 ++ polls_missed W ms j) ++ [UpdateTriggerOuts])) =
  (Ok (done_seen (fpga c) W ms t0 j), mkWorld h (t0 ++ polls_missed W ms j ++ poll_events W)).
Proof.
  unfold is_triggered.
  eapply bind_ok; [by apply endpoint_ok |].
  eapply bind_ok; [unfold lift; by rewrite int_lshift_ok |].
  unfold bind, get_trace, emit, ret, done_seen, poll_events; simpl.
  by rewrite <- !(assoc_L (++)).
Qed.

Lemma poll_miss j :
  done_seen (fpga c) W ms t0 j = false ->
  poll_body c found ms (mkWorld h (t0 ++ polls_missed W ms j)) =
  (Ok None, mkWorld h (t0 ++ polls_missed W ms (S j))).
Proof.
  intros Hj. unfold poll_body.
  eapply bind_ok; [apply emit_at |].
  eapply bind_ok; [apply is_triggered_at |].
  rewrite Hj, polls_missed_S. unfold bind, emit, ret; simpl.
  by rewrite <- !(assoc_L (++)).
Qed.

Lemma poll_hit j :
  done_seen (fpga c) W ms t0 j = true ->
  poll_body c found ms (mkWorld h (t0 ++ polls_missed W ms j)) =
  found (mkWorld h (t0 ++ polls_missed W ms j ++ poll_events W)).
Proof.
  intros Hj. unfold poll_body.
  eapply bind_ok; [apply emit_at |].
  eapply bind_ok; [apply is_triggered_at |].
  by rewrite Hj.
Qed.

(** DONE never seen: the loop runs through, one look per turn. *)
Lemma poll_loop_missed {A} (l : list A) : forall j0,
  (forall j, (j0 <= j < j0 + length l)%nat -> done_seen (fpga c) W ms t0 j = false) ->
  for_return l (fun _ => poll_body c found ms) (mkWorld h (t0 ++ polls_missed W ms j0)) =
  (Ok None, mkWorld h (t0 ++ polls_missed W ms (j0 + length l))).
Proof.
  induction l as [| x l IH]; intros j0 Hmiss; simpl.
  - by rewrite Nat.add_0_r.
  - eapply bind_ok; [apply poll_miss, Hmiss; simpl; lia |].
    rewrite IH.
    + by replace (S j0 + length l)%nat with (j0 + S (length l))%nat by lia.
    + intros j Hj. apply Hmiss. simpl. lia.
Qed.

(** DONE seen at look [n]: the loop ends there with what [found] gives. *)
Lemma poll_loop_found {A} (l : list A) n v w' :
  (n < length l)%nat ->
  (forall j, (j < n)%nat -> done_seen (fpga c) W ms t0 j = false) ->
  done_seen (fpga c) W ms t0 n = true ->
  found (mkWorld h (t0 ++ polls_missed W ms n ++ poll_events W)) = (Ok (Some v), w') ->
  for_return l (fun _ => poll_body c found ms) (mkWorld h (t0 ++ [])) =
  (Ok (Some v), w').
Proof.
  intros Hn Hmiss Hhit Hfound.
  change [] with (polls_missed W ms 0).
  assert (Hgen : forall k j0, (j0 + k = n)%nat -> forall l : list A, (k < length l)%nat ->
    for_return l (fun _ => poll_body c found ms) (mkWorld h (t0 ++ polls_missed W ms j0)) =
    (Ok (Some v), w')).
  { induction k as [| k IH]; intros j0 Hk l' Hl'; destruct l' as [| x l']; simpl in *; try lia.
    - assert (j0 = n) as -> by lia.
      unfold bind. by rewrite poll_hit, Hfound.
    - eapply bind_ok; [apply poll_miss, Hmiss; lia |].
      apply IH; lia. }
  by apply (Hgen n 0%nat).
Qed.
End Poll.

Lemma length_range n : length (range n) = Z.to_nat n.
Proof. unfold range. by rewrite length_fmap, length_seq. Qed.

(** [transmit_wait] when DONE is seen at look [n] of the 50. *)
Lemma transmit_wait_done c W h t0 n :
  endpoints c !! "DONE" = Some (w_DONE W) ->
  0 <= bit_index_low (w_DONE W) ->
  (n < 50)%nat ->
  (forall j, (j < n)%nat -> done_seen (fpga c) W 1 t0 j = false) ->
  done_seen (fpga c) W 1 t0 n = true ->
  transmit_wait c (mkWorld h t0) =
  (Ok RTrue, mkWorld h (t0 ++ polls_missed W 1 n ++ poll_events W)).
Proof.
  intros Hdone Hbit Hn Hmiss Hhit. unfold transmit_wait.
  eapply bind_ok.
  - rewrite <- (app_nil_r t0) at 1.
    apply (poll_loop_found c W (ret (Some RTrue)) 1 h t0 Hdone Hbit _ n); try done.
  - done.
Qed.

(** [transmit_wait] when DONE is seen at none of the 50 looks. *)
Lemma transmit_wait_timeout c W h t0 :
  endpoints c !! "DONE" = Some (w_DONE W) ->
  0 <= bit_index_low (w_DONE W) ->
  (forall j, (j < 50)%nat -> done_seen (fpga c) W 1 t0 j = false) ->
  transmit_wait c (mkWorld h t0) =
  (Ok RNone,
   mkWorld h (t0 ++ polls_missed W 1 50 ++ [Print "Timeout error in transmit"])).
Proof.
  intros Hdone Hbit Hmiss. unfold transmit_wait.
  eapply bind_ok.
  - rewrite <- (app_nil_r t0) at 1. change [] with (polls_missed W 1 0).
    apply (poll_loop_missed c W (ret (Some RTrue)) 1 h t0 Hdone Hbit).
    intros j Hj. apply Hmiss. rewrite length_range in Hj.
    unfold I2C_MAX_TIMEOUT_MS in Hj. lia.
  - rewrite length_range. simpl.
    unfold bind, emit, ret; simpl. by rewrite <- !(assoc_L (++)).
Qed.

(** C5.  On a configured buffer [bs], with at least [data_length] data bytes
    and the endpoints present, [i2c_transmit] writes [data_length] to byte 3,
    appends the first [data_length] data bytes, pulses MEMSTART, sends the
    [data_length + m_nDataStart] bytes of the buffer in order (each one: masked
    write to IN, update, MEMWRITE pulse), pulses START, and returns [True] at
    the first of its 50 looks at DONE that finds it set. *)
Theorem i2c_transmit_streams_buffer c W w d bs data data_length n :
  heap w !! i2c c = Some d ->
  configured d bs ->
  0 <= data_length <= len data ->
  wired_tx c W ->
  let bs' := <[3%nat := data_length]> bs ++ take (Z.to_nat data_length) data in
  let t1 := trace w ++ send_events W bs' in
  (n < 50)%nat ->
  (forall j, (j < n)%nat -> done_seen (fpga c) W 1 t1 j = false) ->
  done_seen (fpga c) W 1 t1 n = true ->
  i2c_transmit c (VInt <$> data) data_length w =
    (Ok RTrue,
     mkWorld (<[i2c c := mkI2C (VInt <$> bs') (m_nDataStart d)]> (heap w))
             (t1 ++ polls_missed W 1 n ++ poll_events W))
  /\ len bs' = data_length + m_nDataStart d.
Proof.
  intros Hd Hconf Hdl Hwired bs' t1 Hn Hmiss Hhit. split.
  - rewrite (i2c_transmit_sent c W w d bs data data_length Hd Hconf Hdl Hwired).
    destruct Hwired as (_ & _ & _ & _ & Hdone & _ & Hbit).
    by apply transmit_wait_done.
  - destruct Hconf as (_ & Hds & _). subst bs'.
    unfold len in *. rewrite length_app, length_insert, length_take. lia.
Qed.

(** ** The receive path *)

Lemma i2c_receive_tail c data_length data_transfer reset_pipe readout :
  i2c_receive c data_length data_transfer reset_pipe readout =
  ((if bool_decide (lower data_transfer = "pipe") && reset_pipe
    then
      reraise_KeyError
        (endpoint c "FIFO_RESET" >> endpoint c "PIPE_OUT" >> ret tt)
        missing_endpoints_msg >>
      pulse c "FIFO_RESET" >>
      ret tt
    else ret tt) >>
   (let* b0 := buf_getitem c 0 in
    let* b := lift (val_or b0 128) in
    buf_setitem c 0 b) >>
   buf_setitem c 3 (VInt data_length) >>
   pulse c "MEMSTART" >>
   (let* d := get_i2c c in
    for_ (range (m_nDataStart d)) (write_buf_byte c)) >>
   pulse c "START" >>
   receive_wait c data_length data_transfer readout).
Proof. reflexivity. Qed.

Lemma reraise_ok {A} (m : M A) msg w a w1 :
  m w = (Ok a, w1) -> reraise_KeyError m msg w = (Ok a, w1).
Proof. intros H. unfold reraise_KeyError. by rewrite H. Qed.

(** [i2c_receive] up to its wait loop: the FIFO is reset if asked for, the
    read flag and the payload length are written and the buffer sent. *)
Lemma i2c_receive_sent c W w d b0 b1 b2 b3 pre data_length data_transfer reset_pipe readout ev :
  heap w !! i2c c = Some d ->
  configured d (b0 :: b1 :: b2 :: b3 :: pre) ->
  wired_tx c W ->
  fifo_reset_events c data_transfer reset_pipe = Some ev ->
  let bs' := Z.lor b0 128 :: b1 :: b2 :: data_length :: pre in
  i2c_receive c data_length data_transfer reset_pipe readout w =
  receive_wait c data_length data_transfer readout
    (mkWorld (<[i2c c := mkI2C (VInt <$> bs') (m_nDataStart d)]> (heap w))
             (trace w ++ ev ++ send_events W bs')).
Proof.
  intros Hd (Hbuf & Hds & H4) (Hms & Hmw & Hin & Hst & Hdone & Hkin & Hkdone) Hpre bs'.
  rewrite (world_at c d w Hd) at 1.
  rewrite i2c_receive_tail.
  eapply bind_ok.
  { instantiate (1 := mkWorld (<[i2c c := d]> (heap w)) (trace w ++ ev)).
    instantiate (1 := tt).
    unfold fifo_reset_events in Hpre.
    destruct (bool_decide (lower data_transfer = "pipe") && reset_pipe).
    - destruct (endpoints c !! "FIFO_RESET") as [fr |] eqn:Hfr; [| done].
      destruct (endpoints c !! "PIPE_OUT") as [po |] eqn:Hpo; [| done].
      injection Hpre as <-.
      eapply bind_ok.
      + apply reraise_ok.
        eapply bind_ok; [by apply endpoint_ok |].
        eapply bind_ok; [by apply endpoint_ok | reflexivity].
      + eapply bind_ok; [by apply pulse_at | reflexivity].
    - injection Hpre as <-. unfold ret. by rewrite app_nil_r. }
  eapply bind_ok.
  { eapply bind_ok; [apply (buf_getitem_at _ _ _ _ _ (VInt b0)); [lia | by rewrite Hbuf] |].
    eapply bind_ok; [reflexivity |].
    apply buf_setitem_at. rewrite Hbuf. unfold len; simpl. lia. }
  eapply bind_ok.
  { apply buf_setitem_at. rewrite Hbuf. unfold len; simpl. lia. }
  rewrite Hbuf. simpl.
  eapply bind_ok; [by apply pulse_at |].
  eapply bind_ok.
  { eapply bind_ok; [apply get_i2c_at |]. simpl.
    unfold range.
    replace (Z.to_nat (m_nDataStart d)) with (length bs').
    - apply (stream_bytes c W _ _ Hin Hmw Hkin bs' 0%nat).
      intros i b Hi.
      apply (f_equal (fmap VInt)) in Hi. rewrite <- list_lookup_fmap in Hi.
      exact Hi.
    - rewrite Hds. unfold len. simpl. lia. }
  eapply bind_ok; [by apply pulse_at |].
  unfold send_events. simpl. by rewrite <- !(assoc_L (++)).
Qed.

Lemma reads_S W n : reads W (S n) = reads W n ++ read_events W.
Proof.
  unfold reads. rewrite replicate_S_end, concat_app. simpl. done.
Qed.

Lemma wire_data_S f W t0 n :
  wire_data f W t0 (S n) = wire_data f W t0 n ++ [out_byte f W t0 n].
Proof. unfold wire_data. by rewrite seq_S, fmap_app. Qed.

Lemma length_wire_data f W t0 n : length (wire_data f W t0 n) = n.
Proof. unfold wire_data. by rewrite length_fmap, length_seq. Qed.

(** The readout loop, from read number [i] on. *)
Lemma read_wire_loop c W h t0 :
  endpoints c !! "OUT" = Some (w_OUT W) ->
  endpoints c !! "MEMREAD" = Some (w_MEMREAD W) ->
  0 <= bit_index_low (w_OUT W) ->
  forall m i body,
  body = (fun (i : Z) (data : list val) =>
      emit UpdateWireOuts >>
      let* ep := endpoint c "OUT" in
      let* t := get_trace in
      emit (GetWireOutValue (address ep)) >>
      let data_tmp := xem_GetWireOutValue (fpga c) t (address ep) in
      let* ep_mask := endpoint c "OUT" in
      let* mask := lift (int_lshift 255 (bit_index_low ep_mask)) in
      let* ep_shift := endpoint c "OUT" in
      let* byte := lift (int_rshift (Z.land data_tmp mask) (bit_index_low ep_shift)) in
      let* data' := lift (list_setitem data i (VInt byte)) in
      pulse c "MEMREAD" >>
      ret data') ->
  for_local (Z.of_nat <$> seq i m)
    ((VInt <$> wire_data (fpga c) W t0 i) ++ replicate m VNone) body
    (mkWorld h (t0 ++ reads W i)) =
  (Ok (VInt <$> wire_data (fpga c) W t0 (i + m)), mkWorld h (t0 ++ reads W (i + m))).
Proof.
  intros Hout Hmr Hk. induction m as [| m IH]; intros i body Hbody; simpl.
  - by rewrite Nat.add_0_r, app_nil_r.
  - eapply bind_ok.
    + rewrite Hbody.
      eapply bind_ok; [apply emit_at |].
      eapply bind_ok; [by apply endpoint_ok |].
      eapply bind_ok; [reflexivity |].
      eapply bind_ok; [apply emit_at |].
      eapply bind_ok; [by apply endpoint_ok |].
      eapply bind_ok; [unfold lift; by rewrite int_lshift_ok |].
      eapply bind_ok; [by apply endpoint_ok |].
      eapply bind_ok; [unfold lift; by rewrite int_rshift_ok |].
      eapply bind_ok.
      { unfold lift. rewrite list_setitem_ok; [reflexivity |].
        unfold len. rewrite length_app, length_fmap, length_wire_data. simpl. lia. }
      eapply bind_ok; [by apply pulse_at |].
      reflexivity.
    + simpl trace.
      rewrite Nat2Z.id.
      pose proof (length_wire_data (fpga c) W t0 i) as Hlen.
      replace i with (length (VInt <$> wire_data (fpga c) W t0 i) + 0)%nat at 2
        by (rewrite length_fmap; lia).
      rewrite insert_app_r. simpl.
      specialize (IH (S i) body Hbody).
      rewrite wire_data_S in IH at 1.
      rewrite fmap_app, <- (assoc_L (++)), reads_S in IH.
      rewrite <- !(assoc_L (++)).
      replace (i + S m)%nat with (S i + m)%nat by lia.
      exact IH.
Qed.

Lemma read_wire_at c W h t0 data_length :
  endpoints c !! "OUT" = Some (w_OUT W) ->
  endpoints c !! "MEMREAD" = Some (w_MEMREAD W) ->
  0 <= bit_index_low (w_OUT W) ->
  read_wire c data_length (mkWorld h t0) =
  (Ok (VInt <$> wire_data (fpga c) W t0 (Z.to_nat data_length)),
   mkWorld h (t0 ++ reads W (Z.to_nat data_length))).
Proof.
  intros Hout Hmr Hk. unfold read_wire, range.
  pose proof (read_wire_loop c W h t0 Hout Hmr Hk (Z.to_nat data_length) 0%nat _ eq_refl) as H.
  simpl in H. rewrite app_nil_r in H. apply H.
Qed.

(** The bytes read are bytes. *)
Lemma out_byte_range f W t0 i :
  0 <= bit_index_low (w_OUT W) -> 0 <= out_byte f W t0 i < 256.
Proof.
  intros Hk. unfold out_byte.
  set (v := out_value f W t0 i). set (k := bit_index_low (w_OUT W)) in *.
  assert (Z.shiftr (Z.land v (Z.shiftl 255 k)) k = Z.land (Z.shiftr v k) 255) as ->.
  { rewrite Z.shiftr_land, Z.shiftr_shiftl_l by lia. by rewrite Z.sub_diag. }
  change 255 with (Z.ones 8). rewrite Z.land_ones by lia.
  apply Z.mod_pos_bound. lia.
Qed.

(** ** Taking results apart *)

Lemma bind_Ok_inv {A B} (m : M A) (k : A -> M B) w b w' :
  bind m k w = (Ok b, w') ->
  exists a w1, m w = (Ok a, w1) /\ k a w1 = (Ok b, w').
Proof.
  unfold bind. destruct (m w) as [[a | e] w1]; [eauto | done].
Qed.

Ltac bind_inv H :=
  let a := fresh "a" in
  let w := fresh "w" in
  let Ha := fresh "Hstep" in
  apply bind_Ok_inv in H as (a & w & Ha & H).

(** A loop that returned is a turn of its body that returned. *)
Lemma for_return_Some_inv {A R} (l : list A) (body : A -> M (option R)) w v w' :
  for_return l body w = (Ok (Some v), w') ->
  exists x w1, body x w1 = (Ok (Some v), w').
Proof.
  revert w. induction l as [| x l IH]; intros w H; simpl in H.
  - done.
  - bind_inv H. destruct a as [v' |].
    + injection H as -> ->. eauto.
    + eauto.
Qed.

(** With [readout=False], [i2c_receive] returns [None] whenever it returns. *)
Lemma i2c_receive_no_readout c data_length data_transfer reset_pipe w r w' :
  i2c_receive c data_length data_transfer reset_pipe false w = (Ok r, w') -> r = RNone.
Proof.
  intros H. rewrite i2c_receive_tail in H.
  do 6 bind_inv H.
  unfold receive_wait in H. bind_inv H.
  destruct a5 as [v |].
  - injection H as -> ->.
    apply for_return_Some_inv in Hstep5 as (_ & w7 & Hbody).
    unfold poll_body in Hbody. do 2 bind_inv Hbody.
    destruct a6; [| unfold bind in Hbody; simpl in Hbody; done].
    unfold receive_found in Hbody. simpl in Hbody. by injection Hbody as <- _.
  - unfold bind in H. simpl in H. by injection H as <- _.
Qed.

(** [l[i] = x] keeps the length. *)
Lemma list_setitem_length {A} (l l' : list A) i x :
  list_setitem l i x = Ok l' -> length l' = length l.
Proof.
  unfold list_setitem. destruct (list_index l i); [| done].
  intros [= <-]. apply length_insert.
Qed.

(** The wire readout gives as many entries as were asked for. *)
Lemma read_wire_length c data_length w data w' :
  read_wire c data_length w = (Ok data, w') -> length data = Z.to_nat data_length.
Proof.
  unfold read_wire. intros H.
  rewrite <- (length_replicate (Z.to_nat data_length) VNone).
  revert H. generalize (replicate (Z.to_nat data_length) VNone).
  generalize (range data_length).
  intros l. revert w.
  induction l as [| i l IH]; intros w s H; simpl in H.
  - by injection H as <- _.
  - bind_inv H. apply IH in H. rewrite H.
    do 10 bind_inv Hstep.
    injection Hstep as <- _.
    unfold lift in Hstep8. injection Hstep8 as Hset _.
    by apply list_setitem_length in Hset.
Qed.

(** Never a short read: a list returned by [i2c_receive] has [data_length]
    entries. *)
Lemma i2c_receive_list_length c data_length data_transfer reset_pipe readout w l w' :
  i2c_receive c data_length data_transfer reset_pipe readout w = (Ok (RList l), w') ->
  length l = Z.to_nat data_length.
Proof.
  intros H. rewrite i2c_receive_tail in H.
  do 6 bind_inv H.
  unfold receive_wait in H. bind_inv H.
  destruct a5 as [v |].
  - injection H as -> ->.
    apply for_return_Some_inv in Hstep5 as (_ & w7 & Hbody).
    unfold poll_body in Hbody. do 2 bind_inv Hbody.
    destruct a6; [| unfold bind in Hbody; simpl in Hbody; done].
    unfold receive_found in Hbody.
    destruct (negb readout); [done |].
    destruct (bool_decide (lower data_transfer = "wire")).
    + do 2 bind_inv Hbody. unfold ret in Hbody. simplify_eq.
      by apply read_wire_length in Hstep8.
    + destruct (bool_decide (lower data_transfer = "pipe")).
      * bind_inv Hbody. unfold ret in Hbody. simplify_eq.
        unfold read_pipe in Hstep7. do 3 bind_inv Hstep7. done.
      * unfold bind in Hbody. simpl in Hbody. done.
  - unfold bind in H. simpl in H. done.
Qed.

(** [receive_wait] in wire mode with readout, DONE seen at look [n] of the 5:
    the read pointer is reset and [data_length] bytes are read. *)
Lemma receive_wait_wire c W h t0 data_length data_transfer n :
  wired_rx c W ->
  lower data_transfer = "wire" ->
  (n < 5)%nat ->
  (forall j, (j < n)%nat -> done_seen (fpga c) W 10 t0 j = false) ->
  done_seen (fpga c) W 10 t0 n = true ->
  let t2 := t0 ++ polls_missed W 10 n ++ poll_events W ++ [pulse_event (w_MEMSTART W)] in
  receive_wait c data_length data_transfer true (mkWorld h t0) =
  (Ok (RList (VInt <$> wire_data (fpga c) W t2 (Z.to_nat data_length))),
   mkWorld h (t2 ++ reads W (Z.to_nat data_length))).
Proof.
  intros ((Hms & _ & _ & _ & Hdone & _ & Hbit) & Hout & Hmr & Hk) Hwire Hn Hmiss Hhit t2.
  unfold receive_wait.
  eapply bind_ok.
  - rewrite <- (app_nil_r t0) at 1.
    apply (poll_loop_found c W _ 10 h t0 Hdone Hbit _ n); try done.
    unfold receive_found. simpl negb. cbv iota.
    rewrite bool_decide_eq_true_2 by done.
    eapply bind_ok; [by apply pulse_at |].
    eapply bind_ok; [by apply (read_wire_at c W) |].
    reflexivity.
  - subst t2. simpl. unfold ret. by rewrite <- !(assoc_L (++)).
Qed.

(** [receive_wait] when DONE is seen at none of the 5 looks. *)
Lemma receive_wait_timeout c W h t0 data_length data_transfer readout :
  endpoints c !! "DONE" = Some (w_DONE W) ->
  0 <= bit_index_low (w_DONE W) ->
  (forall j, (j < 5)%nat -> done_seen (fpga c) W 10 t0 j = false) ->
  receive_wait c data_length data_transfer readout (mkWorld h t0) =
  (Ok RNone,
   mkWorld h (t0 ++ polls_missed W 10 5 ++ [Print "Timeout Exception in Rx"])).
Proof.
  intros Hdone Hbit Hmiss. unfold receive_wait.
  eapply bind_ok.
  - rewrite <- (app_nil_r t0) at 1. change [] with (polls_missed W 10 0).
    apply (poll_loop_missed c W _ 10 h t0 Hdone Hbit).
    intros j Hj. apply Hmiss. rewrite length_range in Hj.
    change (Z.to_nat (I2C_MAX_TIMEOUT_MS / 10)) with 5%nat in Hj. lia.
  - rewrite length_range.
    change (Z.to_nat (I2C_MAX_TIMEOUT_MS / 10)) with 5%nat.
    unfold bind, emit, ret; simpl. by rewrite <- !(assoc_L (++)).
Qed.

(** C6.  On a configured buffer, in wire mode with readout and the endpoints
    present, [i2c_receive] sets bit 7 of byte 0 and writes [data_length] to
    byte 3, pulses MEMSTART, sends the [m_nDataStart] bytes of the buffer and
    nothing more, pulses START, and at the first of its 5 looks at DONE that
    finds it set resets the read pointer and returns [data_length] bytes, each
    the OUT register masked and shifted, each in 0..255.  Whatever the mode
    and the world, a list it returns has [data_length] entries. *)
Theorem i2c_receive_wire_reads c W w d b0 b1 b2 b3 pre data_length data_transfer reset_pipe n :
  heap w !! i2c c = Some d ->
  configured d (b0 :: b1 :: b2 :: b3 :: pre) ->
  wired_rx c W ->
  lower data_transfer = "wire" ->
  0 <= data_length ->
  let bs' := Z.lor b0 128 :: b1 :: b2 :: data_length :: pre in
  let t1 := trace w ++ send_events W bs' in
  (n < 5)%nat ->
  (forall j, (j < n)%nat -> done_seen (fpga c) W 10 t1 j = false) ->
  done_seen (fpga c) W 10 t1 n = true ->
  let t2 := t1 ++ polls_missed W 10 n ++ poll_events W ++ [pulse_event (w_MEMSTART W)] in
  let data := wire_data (fpga c) W t2 (Z.to_nat data_length) in
  i2c_receive c data_length data_transfer reset_pipe true w =
    (Ok (RList (VInt <$> data)),
     mkWorld (<[i2c c := mkI2C (VInt <$> bs') (m_nDataStart d)]> (heap w))
             (t2 ++ reads W (Z.to_nat data_length)))
  /\ len data = data_length
  /\ Forall (fun b => 0 <= b < 256) data
  /\ (forall i, (i < Z.to_nat data_length)%nat -> data !! i = Some (out_byte (fpga c) W t2 i))
  /\ len bs' = m_nDataStart d
  /\ Z.testbit (Z.lor b0 128) 7 = true
  /\ (forall mode rp ro w0 l w',
        i2c_receive c data_length mode rp ro w0 = (Ok (RList l), w') ->
        len l = data_length).
Proof.
  intros Hd Hconf Hwired Hwire Hdl bs' t1 Hn Hmiss Hhit t2 data.
  split; [| split; [| split; [| split; [| split; [| split]]]]].
  - rewrite (i2c_receive_sent c W w d b0 b1 b2 b3 pre data_length data_transfer
               reset_pipe true [] Hd Hconf (proj1 Hwired)).
    + by apply receive_wait_wire.
    + unfold fifo_reset_events. by rewrite Hwire.
  - subst data. unfold len. rewrite length_wire_data. lia.
  - subst data. unfold wire_data. apply Forall_fmap, Forall_forall.
    intros i _. apply out_byte_range. apply Hwired.
  - intros i Hi. subst data. unfold wire_data.
    rewrite list_lookup_fmap, lookup_seq_lt by done. done.
  - destruct Hconf as (_ & Hds & _). rewrite Hds. unfold len. simpl. lia.
  - rewrite Z.lor_spec. change (Z.testbit 128 7) with true. apply orb_true_r.
  - intros mode rp ro w0 l w' Hrx.
    apply i2c_receive_list_length in Hrx. unfold len. lia.
Qed.


(** ** The long-form read and write *)

Lemma no_register_bytes (l : list val) : l <> [VNone] -> no_register (Some l) = false.
Proof.
  intros Hl. unfold no_register.
  rewrite bool_decide_eq_false_2 by congruence. done.
Qed.

(** C3.  [i2c_write_long] on a register address list [l] (any list but the
    [[None]] that stands for no register) configures the buffer with the
    preamble [[devAddr & 0xfe] + l], start mask 0 and stop mask
    [1 << len(preamble)], and then is [i2c_transmit].  On register bytes
    [regs], with the endpoints present and DONE seen at look [n], the buffer
    sent is the four control bytes, [devAddr & 0xfe], [regs], and the first
    [data_length] data bytes. *)
Theorem i2c_write_long_preamble c W w d devAddr regs data data_length n :
  heap w !! i2c c = Some d ->
  wired_tx c W ->
  0 <= data_length <= len data ->
  let pl := 1 + len regs in
  let bs := pl :: 0 :: Z.shiftl 1 pl :: data_length :: Z.land devAddr 254 :: regs
            ++ take (Z.to_nat data_length) data in
  let t1 := trace w ++ too_long_events pl ++ send_events W bs in
  (n < 50)%nat ->
  (forall j, (j < n)%nat -> done_seen (fpga c) W 1 t1 j = false) ->
  done_seen (fpga c) W 1 t1 n = true ->
  (forall (l : list val) data' w',
     l <> [VNone] ->
     let preamble := VInt (Z.land devAddr 254) :: l in
     i2c_write_long c devAddr (Some l) data_length data' w' =
     (i2c_configure c (len preamble) 0 (Z.shiftl 1 (len preamble)) preamble >>
      i2c_transmit c data' data_length) w')
  /\
  i2c_write_long c devAddr (Some (VInt <$> regs)) data_length (VInt <$> data) w =
    (Ok RTrue,
     mkWorld (<[i2c c := mkI2C (VInt <$> bs) (4 + pl)]> (heap w))
             (t1 ++ polls_missed W 1 n ++ poll_events W)).
Proof.
  intros Hd Hwired Hdl pl bs t1 Hn Hmiss Hhit.
  assert (Hdeleg : forall (l : list val) data' w',
     l <> [VNone] ->
     i2c_write_long c devAddr (Some l) data_length data' w' =
     (i2c_configure c (len (VInt (Z.land devAddr 254) :: l)) 0
        (Z.shiftl 1 (len (VInt (Z.land devAddr 254) :: l))) (VInt (Z.land devAddr 254) :: l) >>
      i2c_transmit c data' data_length) w').
  { intros l data' w' Hl. unfold i2c_write_long. by rewrite no_register_bytes. }
  split; [exact Hdeleg |].
  rewrite Hdeleg by (destruct regs; done).
  assert (Hlen : len (VInt (Z.land devAddr 254) :: (VInt <$> regs)) = pl).
  { subst pl. unfold len. simpl. rewrite length_fmap. lia. }
  rewrite Hlen.
  eapply bind_ok; [by apply (i2c_configure_at c w d) |].
  set (d1 := mkI2C (command_buffer pl 0 (Z.shiftl 1 pl) (VInt (Z.land devAddr 254) :: (VInt <$> regs)))
                   (4 + pl)).
  set (w1 := mkWorld (<[i2c c := d1]> (heap w)) (trace w ++ too_long_events pl)).
  assert (Hd1 : heap w1 !! i2c c = Some d1) by apply lookup_insert_eq.
  assert (Hconf : configured d1 (pl :: 0 :: Z.shiftl 1 pl :: 0 :: Z.land devAddr 254 :: regs)).
  { split; [done |]. unfold len in *. simpl. split; lia. }
  rewrite (i2c_transmit_sent c W w1 d1 _ data data_length Hd1 Hconf Hdl Hwired).
  simpl. rewrite insert_insert_eq.
  destruct Hwired as (_ & _ & _ & _ & Hdone & _ & Hbit).
  rewrite <- (assoc_L (++) (trace w)).
  by apply transmit_wait_done.
Qed.

(** C4.  [i2c_read_long] first configures the buffer, in one of two shapes,
    and then is [i2c_receive] on the buffer so configured, whose result it
    returns.  Without a register address ([None] or [[None]]) the buffer is
    [[1, 0, 0, 0, devAddr | 1]]: preamble of the one byte [devAddr | 1], start
    mask 0, stop mask 0, data start 5.  With a register address list [l] it is
    [[n, 1 << len(l), 0, 0, devAddr & 0xfe] + l + [devAddr | 1]] with
    [n = 2 + len(l)]: preamble [[devAddr & 0xfe] + l + [devAddr | 1]], start
    mask [1 << len(l)], stop mask 0, data start [4 + n]. *)
Theorem i2c_read_long_shapes c w d devAddr data_length data_transfer reset_pipe readout :
  heap w !! i2c c = Some d ->
  (forall regAddr,
     regAddr = None \/ regAddr = Some [VNone] ->
     i2c_read_long c devAddr regAddr data_length data_transfer reset_pipe readout w =
     i2c_receive c data_length data_transfer reset_pipe readout
       (mkWorld
          (<[i2c c := mkI2C [VInt 1; VInt 0; VInt 0; VInt 0; VInt (Z.lor devAddr 1)] 5]>
             (heap w))
          (trace w)))
  /\
  (forall l : list val,
     l <> [VNone] ->
     let n := 2 + len l in
     i2c_read_long c devAddr (Some l) data_length data_transfer reset_pipe readout w =
     i2c_receive c data_length data_transfer reset_pipe readout
       (mkWorld
          (<[i2c c :=
             mkI2C (VInt n :: VInt (Z.shiftl 1 (len l)) :: VInt 0 :: VInt 0
                    :: VInt (Z.land devAddr 254) :: l ++ [VInt (Z.lor devAddr 1)])
                   (4 + n)]> (heap w))
          (trace w ++ too_long_events n))).
Proof.
  intros Hd.
  assert (Hret : forall (cfg : M unit) w1,
    cfg w = (Ok tt, w1) ->
    (cfg >>
     if readout then
       let* data := i2c_receive c data_length data_transfer reset_pipe readout in
       ret data
     else
       i2c_receive c data_length data_transfer reset_pipe readout >> ret RNone) w =
    i2c_receive c data_length data_transfer reset_pipe readout w1).
  { intros cfg w1 Hcfg. unfold bind, ret. rewrite Hcfg.
    destruct readout.
    - by destruct (i2c_receive c data_length data_transfer reset_pipe true w1) as [[r | e] w2].
    - destruct (i2c_receive c data_length data_transfer reset_pipe false w1)
        as [[r | e] w2] eqn:Hrx; [| done].
      by apply i2c_receive_no_readout in Hrx as ->. }
  split.
  - intros regAddr Hreg. unfold i2c_read_long.
    assert (no_register regAddr = true) as -> by (by destruct Hreg as [-> | ->]).
    apply Hret.
    rewrite (i2c_configure_at c w d 1 0 0 [VInt (Z.lor devAddr 1)] Hd eq_refl).
    unfold too_long_events. rewrite decide_False by lia. by rewrite app_nil_r.
  - intros l Hl n. unfold i2c_read_long.
    rewrite no_register_bytes by done. simpl default.
    assert (Hlen : len ([VInt (Z.land devAddr 254)] ++ l ++ [VInt (Z.lor devAddr 1)]) = n).
    { subst n. unfold len. simpl. rewrite length_app. simpl. lia. }
    apply Hret. rewrite Hlen.
    by rewrite (i2c_configure_at c w d n _ 0 _ Hd Hlen).
Qed.

(** C8 (as the code has it).  In pipe mode with [reset_pipe] set, a missing
    FIFO_RESET or PIPE_OUT endpoint makes [i2c_receive] raise its KeyError at
    once: the buffer and the trace are untouched. *)
Theorem i2c_receive_missing_endpoint c data_length data_transfer readout w :
  lower data_transfer = "pipe" ->
  endpoints c !! "FIFO_RESET" = None \/ endpoints c !! "PIPE_OUT" = None ->
  i2c_receive c data_length data_transfer true readout w =
    (Raise (KeyError missing_endpoints_msg), w).
Proof.
  intros Hpipe Hmissing. rewrite i2c_receive_tail.
  apply bind_raise. rewrite bool_decide_eq_true_2 by done. simpl.
  apply bind_raise. unfold reraise_KeyError, bind, endpoint.
  destruct (endpoints c !! "FIFO_RESET") as [fr |]; [| done].
  destruct Hmissing as [? | ->]; done.
Qed.

(** C9 (what the code does instead).  Any two chips made by [create_chips]
    hold the same dict, the default of [__init__]: configuring one writes the
    buffer and the data start that the other reads. *)
Theorem create_chips_share_buffer f pins eps a b w d preamble_length starts stops preamble :
  a ∈ create_chips f pins eps ->
  b ∈ create_chips f pins eps ->
  heap w !! i2c a = Some d ->
  len preamble = preamble_length ->
  i2c a = i2c b /\
  exists w',
    i2c_configure a preamble_length starts stops preamble w = (Ok tt, w') /\
    heap w' !! i2c b =
      Some (mkI2C (command_buffer preamble_length starts stops preamble)
                  (4 + preamble_length)).
Proof.
  intros Ha Hb Hd Hlen.
  unfold create_chips in Ha, Hb.
  apply list_elem_of_fmap in Ha as (pa & -> & _).
  apply list_elem_of_fmap in Hb as (pb & -> & _).
  split; [done |].
  eexists. split; [by apply (i2c_configure_at _ w d) |].
  simpl. apply lookup_insert_eq.
Qed.

Lemma lor_128_flag z : Z.testbit (Z.lor z 128) 7 = true.
Proof. rewrite Z.lor_spec. change (Z.testbit 128 7) with true. apply orb_true_r. Qed.

(** [l[0] = z | 0x80] leaves the flag set; [l[3] = v] leaves it as it is. *)
Lemma setitem_0_flagged (l l' : list val) z ds :
  list_setitem l 0 (VInt (Z.lor z 128)) = Ok l' -> flagged (mkI2C l' ds) = true.
Proof.
  unfold list_setitem, list_index. destruct l as [| x l]; simpl length.
  - repeat case_decide; try done; lia.
  - rewrite decide_True by lia. intros [= <-]. apply lor_128_flag.
Qed.

Lemma setitem_3_flagged (l l' : list val) v ds ds' :
  list_setitem l 3 v = Ok l' ->
  flagged (mkI2C l ds) = true -> flagged (mkI2C l' ds') = true.
Proof.
  unfold list_setitem, list_index.
  repeat case_decide; try done; try lia.
  intros [= <-]. unfold flagged; simpl. by destruct l as [| [] ?].
Qed.

(** ** What the methods keep *)

Section Preserves.
Variable P : World -> Prop.
Hypothesis P_emit : forall w e, P w -> P (mkWorld (heap w) (trace w ++ [e])).
Hypothesis P_put : forall w l d d',
  P w -> heap w !! l = Some d -> (flagged d = true -> flagged d' = true) ->
  P (mkWorld (<[l := d']> (heap w)) (trace w)).

Lemma pres_bind {A B} (m : M A) (k : A -> M B) :
  preserves P m -> (forall a, preserves P (k a)) -> preserves P (bind m k).
Proof.
  intros Hm Hk w r w' HP H. unfold bind in H.
  destruct (m w) as [[a | e] w1] eqn:Hmw.
  - eapply Hk; [| exact H]. eapply Hm; eauto.
  - injection H as <- <-. eapply Hm; eauto.
Qed.

Lemma pres_ret {A} (a : A) : preserves P (ret a).
Proof. intros w r w' HP H. by injection H as <- <-. Qed.

Lemma pres_raise {A} e : preserves P (raise (A := A) e).
Proof. intros w r w' HP H. by injection H as <- <-. Qed.

Lemma pres_lift {A} (o : outcome A) : preserves P (lift o).
Proof. intros w r w' HP H. by injection H as <- <-. Qed.

Lemma pres_get_trace : preserves P get_trace.
Proof. intros w r w' HP H. by injection H as <- <-. Qed.

Lemma pres_get_i2c c : preserves P (get_i2c c).
Proof.
  intros w r w' HP H. unfold get_i2c in H.
  destruct (heap w !! i2c c); by injection H as <- <-.
Qed.

Lemma pres_endpoint c name : preserves P (endpoint c name).
Proof.
  intros w r w' HP H. unfold endpoint in H.
  destruct (endpoints c !! name); by injection H as <- <-.
Qed.

Lemma pres_emit e : preserves P (emit e).
Proof. intros w r w' HP H. injection H as <- <-. by apply P_emit. Qed.

Lemma pres_for {A} (l : list A) body :
  (forall x, preserves P (body x)) -> preserves P (for_ l body).
Proof.
  intros Hbody. induction l as [| x l IH]; simpl.
  - apply pres_ret.
  - apply pres_bind; [apply Hbody | intros _; apply IH].
Qed.

Lemma pres_for_return {A R} (l : list A) (body : A -> M (option R)) :
  (forall x, preserves P (body x)) -> preserves P (for_return l body).
Proof.
  intros Hbody. induction l as [| x l IH]; simpl.
  - apply pres_ret.
  - apply pres_bind; [apply Hbody |]. intros [v |]; [apply pres_ret | apply IH].
Qed.

Lemma pres_for_local {A S} (l : list A) (body : A -> S -> M S) : forall s,
  (forall x s, preserves P (body x s)) -> preserves P (for_local l s body).
Proof.
  induction l as [| x l IH]; intros s Hbody; simpl.
  - apply pres_ret.
  - apply pres_bind; [apply Hbody |]. intros s'. by apply IH.
Qed.

Lemma pres_reraise {A} (m : M A) msg :
  preserves P m -> preserves P (reraise_KeyError m msg).
Proof.
  intros Hm w r w' HP H. unfold reraise_KeyError in H.
  destruct (m w) as [[a | []] w1] eqn:Hmw; injection H as <- <-; eapply Hm; eauto.
Qed.

Lemma pres_pulse c name : preserves P (pulse c name).
Proof.
  unfold pulse. apply pres_bind; [apply pres_endpoint | intros ep].
  apply pres_bind; [apply pres_get_trace | intros t].
  apply pres_bind; [apply pres_emit | intros _; apply pres_ret].
Qed.

Lemma pres_is_triggered c name : preserves P (is_triggered c name).
Proof.
  unfold is_triggered. apply pres_bind; [apply pres_endpoint | intros ep].
  apply pres_bind; [apply pres_lift | intros m].
  apply pres_bind; [apply pres_get_trace | intros t].
  apply pres_bind; [apply pres_emit | intros _; apply pres_ret].
Qed.

(** A write to the buffer that keeps a set flag set. *)
Lemma pres_put_flag c d d' :
  (flagged d = true -> flagged d' = true) ->
  forall w r w', P w -> heap w !! i2c c = Some d -> put_i2c c d' w = (r, w') -> P w'.
Proof.
  intros Hflag w r w' HP Hd H. injection H as <- <-. by eapply P_put.
Qed.

Lemma pres_buf_append c v : preserves P (buf_append c v).
Proof.
  intros w r w' HP H. unfold buf_append, bind, get_i2c in H.
  destruct (heap w !! i2c c) as [d |] eqn:Hd; [| by injection H as <- <-].
  eapply (pres_put_flag c d); [| done | done | exact H].
  unfold flagged; simpl. by destruct (m_pBuf d) as [| [] ?].
Qed.

Lemma pres_buf_setitem_3 c v : preserves P (buf_setitem c 3 v).
Proof.
  intros w r w' HP H. unfold buf_setitem, bind, get_i2c, lift in H.
  destruct (heap w !! i2c c) as [d |] eqn:Hd; [| by injection H as <- <-].
  destruct (list_setitem (m_pBuf d) 3 v) as [l' | e] eqn:Hset; [| by injection H as <- <-].
  eapply (pres_put_flag c d); [| done | done | exact H].
  destruct d as [l ds]. by apply (setitem_3_flagged l l' v).
Qed.

Lemma pres_set_read_flag c : preserves P (set_read_flag c).
Proof.
  intros w r w' HP H. unfold set_read_flag, buf_getitem, buf_setitem, bind, get_i2c, lift in H.
  destruct (heap w !! i2c c) as [d |] eqn:Hd; [| by injection H as <- <-].
  destruct (list_getitem (m_pBuf d) 0) as [b0 | e]; [| by injection H as <- <-].
  destruct b0 as [| z]; simpl in H; [by injection H as <- <- |].
  rewrite Hd in H.
  destruct (list_setitem (m_pBuf d) 0 (VInt (Z.lor z 128))) as [l' | e] eqn:Hset;
    [| by injection H as <- <-].
  eapply (pres_put_flag c d); [| done | done | exact H].
  intros _. by apply (setitem_0_flagged (m_pBuf d) l' z).
Qed.

Lemma pres_write_buf_byte c i : preserves P (write_buf_byte c i).
Proof.
  unfold write_buf_byte, buf_getitem.
  repeat first
    [ apply pres_ret | apply pres_lift | apply pres_endpoint | apply pres_emit
    | apply pres_pulse | apply pres_get_i2c
    | apply pres_bind; [| intros ?] ].
Qed.

Lemma pres_poll_body {R} c (found : M (option R)) ms :
  preserves P found -> preserves P (poll_body c found ms).
Proof.
  intros Hfound. unfold poll_body.
  apply pres_bind; [apply pres_emit | intros _].
  apply pres_bind; [apply pres_is_triggered | intros [|]]; [done |].
  apply pres_bind; [apply pres_emit | intros _; apply pres_ret].
Qed.

Lemma pres_transmit_wait c : preserves P (transmit_wait c).
Proof.
  unfold transmit_wait.
  apply pres_bind.
  - apply pres_for_return. intros _. apply (pres_poll_body c (ret (Some RTrue)) 1), pres_ret.
  - intros [v |]; [apply pres_ret |].
    apply pres_bind; [apply pres_emit | intros _; apply pres_ret].
Qed.

Lemma pres_i2c_transmit c data data_length : preserves P (i2c_transmit c data data_length).
Proof.
  unfold i2c_transmit. fold (transmit_wait c).
  apply pres_bind; [apply pres_buf_setitem_3 | intros _].
  apply pres_bind.
  { apply pres_for. intros i.
    apply pres_bind; [apply pres_lift | intros x; apply pres_buf_append]. }
  intros _. apply pres_bind; [apply pres_pulse | intros _].
  apply pres_bind.
  { apply pres_bind; [apply pres_get_i2c | intros d].
    apply pres_for, pres_write_buf_byte. }
  intros _. apply pres_bind; [apply pres_pulse | intros _].
  apply pres_transmit_wait.
Qed.

Lemma pres_read_wire c data_length : preserves P (read_wire c data_length).
Proof.
  unfold read_wire. apply pres_for_local. intros i data.
  repeat first
    [ apply pres_ret | apply pres_lift | apply pres_endpoint | apply pres_emit
    | apply pres_pulse | apply pres_get_trace
    | apply pres_bind; [| intros ?] ].
Qed.

Lemma pres_receive_wait c data_length data_transfer readout :
  preserves P (receive_wait c data_length data_transfer readout).
Proof.
  unfold receive_wait.
  apply pres_bind.
  - apply pres_for_return. intros _. apply pres_poll_body.
    unfold receive_found, read_pipe.
    repeat first
      [ apply pres_ret | apply pres_endpoint | apply pres_emit | apply pres_pulse
      | apply pres_get_trace | apply pres_read_wire
      | apply pres_bind; [| intros ?]
      | match goal with |- preserves _ (if ?b then _ else _) => destruct b end ].
  - intros [v |]; [apply pres_ret |].
    apply pres_bind; [apply pres_emit | intros _; apply pres_ret].
Qed.

(** [i2c_receive] after its first step. *)
Lemma pres_receive_rest c data_length data_transfer readout :
  preserves P
    (buf_setitem c 3 (VInt data_length) >>
     pulse c "MEMSTART" >>
     (let* d := get_i2c c in
      for_ (range (m_nDataStart d)) (write_buf_byte c)) >>
     pulse c "START" >>
     receive_wait c data_length data_transfer readout).
Proof.
  apply pres_bind; [apply pres_buf_setitem_3 | intros _].
  apply pres_bind; [apply pres_pulse | intros _].
  apply pres_bind.
  { apply pres_bind; [apply pres_get_i2c | intros d].
    apply pres_for, pres_write_buf_byte. }
  intros _. apply pres_bind; [apply pres_pulse | intros _].
  apply pres_receive_wait.
Qed.

Lemma pres_i2c_receive c data_length data_transfer reset_pipe readout :
  preserves P (i2c_receive c data_length data_transfer reset_pipe readout).
Proof.
  rewrite i2c_receive_tail.
  apply pres_bind.
  { destruct (bool_decide (lower data_transfer = "pipe") && reset_pipe); [| apply pres_ret].
    apply pres_bind.
    - apply pres_reraise.
      apply pres_bind; [apply pres_endpoint | intros _].
      apply pres_bind; [apply pres_endpoint | intros _; apply pres_ret].
    - intros _. apply pres_bind; [apply pres_pulse | intros _; apply pres_ret]. }
  intros _. apply pres_bind; [apply pres_set_read_flag | intros _].
  apply pres_receive_rest.
Qed.

Lemma pres_reset_device c : preserves P (reset_device c).
Proof. apply pres_pulse. Qed.
End Preserves.

(** The two properties kept: a set read flag, and the trace so far. *)
Lemma read_flag_emit l w e :
  read_flag w l = true -> read_flag (mkWorld (heap w) (trace w ++ [e])) l = true.
Proof. done. Qed.

Lemma read_flag_put l w l' d d' :
  read_flag w l = true -> heap w !! l' = Some d -> (flagged d = true -> flagged d' = true) ->
  read_flag (mkWorld (<[l' := d']> (heap w)) (trace w)) l = true.
Proof.
  unfold read_flag. simpl. intros Hw Hd Hflag.
  destruct (decide (l' = l)) as [-> |].
  - rewrite lookup_insert_eq. rewrite Hd in Hw. by apply Hflag.
  - by rewrite lookup_insert_ne.
Qed.

Lemma trace_from_emit t0 w e :
  trace_from t0 w -> trace_from t0 (mkWorld (heap w) (trace w ++ [e])).
Proof.
  intros [t' Ht]. exists (t' ++ [e]). simpl. by rewrite Ht, <- (assoc_L (++)).
Qed.

Lemma trace_from_put t0 w (l : nat) (d d' : I2CDict) :
  trace_from t0 w -> heap w !! l = Some d -> (flagged d = true -> flagged d' = true) ->
  trace_from t0 (mkWorld (<[l := d']> (heap w)) (trace w)).
Proof. by intros [t' Ht] _ _; exists t'. Qed.

(** When the flag-setting step goes through, the flag is set. *)
Lemma set_read_flag_sets c w w' :
  set_read_flag c w = (Ok tt, w') -> read_flag w' (i2c c) = true.
Proof.
  intros H. unfold set_read_flag, buf_getitem, buf_setitem, bind, get_i2c, lift in H.
  destruct (heap w !! i2c c) as [d |] eqn:Hd; [| done].
  destruct (list_getitem (m_pBuf d) 0) as [b0 | e]; [| done].
  destruct b0 as [| z]; simpl in H; [done |].
  rewrite Hd in H.
  destruct (list_setitem (m_pBuf d) 0 (VInt (Z.lor z 128))) as [l' | e] eqn:Hset; [| done].
  injection H as <-. unfold read_flag; simpl. rewrite lookup_insert_eq.
  by apply (setitem_0_flagged (m_pBuf d) l' z).
Qed.

(** Whenever [i2c_receive] returns, the read flag is set. *)
Lemma i2c_receive_sets_flag c data_length data_transfer reset_pipe readout w r w' :
  i2c_receive c data_length data_transfer reset_pipe readout w = (Ok r, w') ->
  read_flag w' (i2c c) = true.
Proof.
  intros H. rewrite i2c_receive_tail in H.
  bind_inv H. bind_inv H. destruct a0.
  apply set_read_flag_sets in Hstep0.
  exact (pres_receive_rest (fun w => read_flag w (i2c c) = true)
           (read_flag_emit (i2c c)) (read_flag_put (i2c c))
           c data_length data_transfer readout w1 (Ok r) w' Hstep0 H).
Qed.

(** C10.  Whenever [i2c_receive] returns (data read, or timed out), bit 7 of
    byte 0 of the controller's buffer is set.  A set flag stays set through
    every [i2c_transmit], [i2c_receive] and [reset_device], of any controller
    and however they end: only [i2c_configure] makes a new byte 0.  So an
    [i2c_transmit] on a flagged buffer sends, as its first byte after the
    MEMSTART pulse, a control byte with bit 7 set. *)
Theorem read_flag_stays_until_configure :
  (forall c data_length data_transfer reset_pipe readout w r w1,
     i2c_receive c data_length data_transfer reset_pipe readout w = (Ok r, w1) ->
     read_flag w1 (i2c c) = true)
  /\
  (forall l w,
     read_flag w l = true ->
     (forall c2 data data_length r w',
        i2c_transmit c2 data data_length w = (r, w') -> read_flag w' l = true) /\
     (forall c2 data_length data_transfer reset_pipe readout r w',
        i2c_receive c2 data_length data_transfer reset_pipe readout w = (r, w') ->
        read_flag w' l = true) /\
     (forall c2 r w', reset_device c2 w = (r, w') -> read_flag w' l = true))
  /\
  (forall c W w d bs data data_length r w',
     read_flag w (i2c c) = true ->
     heap w !! i2c c = Some d ->
     configured d bs ->
     wired_tx c W ->
     0 <= data_length <= len data ->
     i2c_transmit c (VInt <$> data) data_length w = (r, w') ->
     exists b0 t',
       bs !! 0%nat = Some b0 /\
       Z.testbit b0 7 = true /\
       trace w' = trace w ++ pulse_event (w_MEMSTART W) :: byte_events W b0 ++ t').
Proof.
  split; [| split].
  - intros c data_length data_transfer reset_pipe readout w r w1.
    apply i2c_receive_sets_flag.
  - intros l w Hflag.
    pose proof (read_flag_emit l) as Hemit.
    pose proof (read_flag_put l) as Hput.
    split; [| split].
    + intros c2 data data_length r w' H.
      exact (pres_i2c_transmit _ Hemit Hput c2 data data_length w r w' Hflag H).
    + intros c2 data_length data_transfer reset_pipe readout r w' H.
      exact (pres_i2c_receive _ Hemit Hput c2 data_length data_transfer reset_pipe readout
               w r w' Hflag H).
    + intros c2 r w' H.
      exact (pres_reset_device _ Hemit c2 w r w' Hflag H).
  - intros c W w d bs data data_length r w' Hflag Hd Hconf Hwired Hdl H.
    unfold read_flag in Hflag. rewrite Hd in Hflag.
    pose proof Hconf as (Hbuf & _ & _).
    unfold flagged in Hflag. rewrite Hbuf in Hflag.
    destruct bs as [| b0 bs]; [done |]. simpl in Hflag.
    rewrite (i2c_transmit_sent c W w d _ data data_length Hd Hconf Hdl Hwired) in H.
    set (t1 := trace w ++ send_events W (<[3%nat := data_length]> (b0 :: bs)
                 ++ take (Z.to_nat data_length) data)) in H.
    assert (Hfrom : trace_from t1 w').
    { refine (pres_transmit_wait (trace_from t1) (trace_from_emit t1) c _ r w' _ H).
      exists []. simpl. by rewrite app_nil_r. }
    destruct Hfrom as [t' Ht'].
    exists b0. eexists. split; [done |]. split; [done |].
    rewrite Ht'. subst t1. unfold send_events. simpl.
    rewrite <- !(assoc_L (++)). simpl. reflexivity.
Qed.

(** ** The theorems at work on the bench *)

Lemma bench_wired_tx f : wired_tx (bench_chip f) bench_wiring.
Proof. repeat split; done. Qed.

Lemma bench_wired_rx f : wired_rx (bench_chip f) bench_wiring.
Proof. repeat split; done. Qed.

Lemma bench_configured : configured bench_dict [2; 0; 4; 0; 160; 16].
Proof. repeat split; done. Qed.

(** [i2c_configure(2, 0, 4, [0xA0, 0x10])] on a fresh chip. *)
Lemma i2c_configure_builds_buffer_witness :
  i2c_configure (bench_chip fpga_never_done) 2 0 4 [VInt 160; VInt 16] class_defined =
  (Ok tt,
   mkWorld (<[default_i2c := mkI2C [VInt 2; VInt 0; VInt 4; VInt 0; VInt 160; VInt 16] 6]>
              (heap class_defined)) []).
Proof.
  assert (H0 : heap class_defined !! i2c (bench_chip fpga_never_done) = Some (mkI2C [] 7))
    by reflexivity.
  assert (H1 : 0 <= 2 <= 7) by lia.
  assert (H2 : len [VInt 160; VInt 16] = 2) by reflexivity.
  exact (proj1 (i2c_configure_builds_buffer (bench_chip fpga_never_done) class_defined
                  (mkI2C [] 7) 2 0 4 [VInt 160; VInt 16] H0 H1 H2)).
Defined.

(** [i2c_configure(8, 0, 0, [1, 2, 3, 4, 5, 6, 7, 8])]: no exception, a
    12-byte buffer. *)
Lemma i2c_configure_too_long_goes_on_witness :
  i2c_configure (bench_chip fpga_never_done) 8 0 0 (VInt <$> [1; 2; 3; 4; 5; 6; 7; 8])
    class_defined =
  (Ok tt,
   mkWorld (<[default_i2c := mkI2C (VInt <$> [8; 0; 0; 0; 1; 2; 3; 4; 5; 6; 7; 8]) 12]>
              (heap class_defined))
           [Print "Preamble data is too long"]).
Proof.
  assert (H0 : heap class_defined !! i2c (bench_chip fpga_never_done) = Some (mkI2C [] 7))
    by reflexivity.
  assert (H1 : 8 > 7) by lia.
  assert (H2 : len (VInt <$> [1; 2; 3; 4; 5; 6; 7; 8]) = 8) by reflexivity.
  exact (i2c_configure_too_long_goes_on (bench_chip fpga_never_done) class_defined
           (mkI2C [] 7) 8 0 0 (VInt <$> [1; 2; 3; 4; 5; 6; 7; 8]) H0 H1 H2).
Defined.

(** [i2c_write_long(0xA0, [0x10], 1, [0x42])]: preamble [0xA0, 0x10], stop
    mask 0x04, and 0x42 after the preamble in the buffer sent. *)
Lemma i2c_write_long_preamble_witness :
  i2c_write_long (bench_chip (fpga_done_at 2)) 160 (Some [VInt 16]) 1 [VInt 66] class_defined =
  (Ok RTrue,
   mkWorld (<[default_i2c := mkI2C (VInt <$> [2; 0; 4; 1; 160; 16; 66]) 6]> (heap class_defined))
           (send_events bench_wiring [2; 0; 4; 1; 160; 16; 66]
            ++ polls_missed bench_wiring 1 2 ++ poll_events bench_wiring)).
Proof.
  pose (c := bench_chip (fpga_done_at 2)).
  pose (t1 := send_events bench_wiring [2; 0; 4; 1; 160; 16; 66]).
  assert (H0 : heap class_defined !! i2c c = Some (mkI2C [] 7)) by reflexivity.
  assert (H1 : 0 <= 1 <= len [66]) by (unfold len; simpl; lia).
  assert (H2 : (2 < 50)%nat) by lia.
  assert (H3 : forall j, (j < 2)%nat -> done_seen (fpga c) bench_wiring 1 t1 j = false)
    by (intros [| [| j]] Hj; [reflexivity | reflexivity | lia]).
  assert (H4 : done_seen (fpga c) bench_wiring 1 t1 2 = true) by reflexivity.
  exact (proj2 (i2c_write_long_preamble c bench_wiring class_defined (mkI2C [] 7)
                  160 [16] [66] 1 2 H0 (bench_wired_tx _) H1 H2 H3 H4)).
Defined.

(** [i2c_read_long(0xA0, None, 1)]: preamble [0xA1], start and stop masks 0;
    [i2c_read_long(0xA0, [0x10], 2)]: preamble [0xA0, 0x10, 0xA1], start mask
    2, stop mask 0. *)
Lemma i2c_read_long_shapes_witness :
  i2c_read_long (bench_chip (fpga_done_at 0)) 160 None 1 "wire" true true class_defined =
    i2c_receive (bench_chip (fpga_done_at 0)) 1 "wire" true true
      (mkWorld (<[default_i2c := mkI2C (VInt <$> [1; 0; 0; 0; 161]) 5]> (heap class_defined)) [])
  /\
  i2c_read_long (bench_chip (fpga_done_at 0)) 160 (Some [VInt 16]) 2 "wire" true true class_defined =
    i2c_receive (bench_chip (fpga_done_at 0)) 2 "wire" true true
      (mkWorld (<[default_i2c := mkI2C (VInt <$> [3; 2; 0; 0; 160; 16; 161]) 7]>
                  (heap class_defined)) []).
Proof.
  assert (H0 : heap class_defined !! i2c (bench_chip (fpga_done_at 0)) = Some (mkI2C [] 7))
    by reflexivity.
  assert (H1 : (None : option (list val)) = None \/ None = Some [VNone]) by (left; reflexivity).
  assert (H2 : [VInt 16] <> [VNone]) by discriminate.
  split.
  - exact (proj1 (i2c_read_long_shapes (bench_chip (fpga_done_at 0)) class_defined (mkI2C [] 7)
                    160 1 "wire" true true H0) None H1).
  - exact (proj2 (i2c_read_long_shapes (bench_chip (fpga_done_at 0)) class_defined (mkI2C [] 7)
                    160 2 "wire" true true H0) [VInt 16] H2).
Defined.

(** [i2c_transmit([0x42, 0x43], 1)] on the configured chip, DONE at the third
    look. *)
Lemma i2c_transmit_streams_buffer_witness :
  i2c_transmit (bench_chip (fpga_done_at 2)) (VInt <$> [66; 67]) 1 bench_world =
  (Ok RTrue,
   mkWorld (<[default_i2c := mkI2C (VInt <$> [2; 0; 4; 1; 160; 16; 66]) 6]> (heap bench_world))
           (send_events bench_wiring [2; 0; 4; 1; 160; 16; 66]
            ++ polls_missed bench_wiring 1 2 ++ poll_events bench_wiring)).
Proof.
  pose (c := bench_chip (fpga_done_at 2)).
  pose (t1 := send_events bench_wiring [2; 0; 4; 1; 160; 16; 66]).
  assert (H0 : heap bench_world !! i2c c = Some bench_dict) by reflexivity.
  assert (H1 : 0 <= 1 <= len [66; 67]) by (unfold len; simpl; lia).
  assert (H2 : (2 < 50)%nat) by lia.
  assert (H3 : forall j, (j < 2)%nat -> done_seen (fpga c) bench_wiring 1 t1 j = false)
    by (intros [| [| j]] Hj; [reflexivity | reflexivity | lia]).
  assert (H4 : done_seen (fpga c) bench_wiring 1 t1 2 = true) by reflexivity.
  exact (proj1 (i2c_transmit_streams_buffer c bench_wiring bench_world bench_dict
                  [2; 0; 4; 0; 160; 16] [66; 67] 1 2
                  H0 bench_configured H1 (bench_wired_tx _) H2 H3 H4)).
Defined.

(** [i2c_receive(2)] on the configured chip, DONE at the second look: the
    bytes 0x11 and 0x22 are taken out of the OUT register. *)
Lemma i2c_receive_wire_reads_witness :
  i2c_receive (bench_chip (fpga_done_at 1)) 2 "WIRE" true true bench_world =
  (Ok (RList [VInt 17; VInt 34]),
   mkWorld (<[default_i2c := mkI2C (VInt <$> [130; 0; 4; 2; 160; 16]) 6]> (heap bench_world))
           (send_events bench_wiring [130; 0; 4; 2; 160; 16]
            ++ polls_missed bench_wiring 10 1 ++ poll_events bench_wiring
            ++ [pulse_event (w_MEMSTART bench_wiring)] ++ reads bench_wiring 2)).
Proof.
  pose (c := bench_chip (fpga_done_at 1)).
  pose (t1 := send_events bench_wiring [130; 0; 4; 2; 160; 16]).
  assert (H0 : heap bench_world !! i2c c = Some bench_dict) by reflexivity.
  assert (H1 : lower "WIRE" = "wire") by reflexivity.
  assert (H2 : 0 <= 2) by lia.
  assert (H3 : (1 < 5)%nat) by lia.
  assert (H4 : forall j, (j < 1)%nat -> done_seen (fpga c) bench_wiring 10 t1 j = false)
    by (intros [| j] Hj; [reflexivity | lia]).
  assert (H5 : done_seen (fpga c) bench_wiring 10 t1 1 = true) by reflexivity.
  refine (eq_trans (proj1 (i2c_receive_wire_reads c bench_wiring bench_world bench_dict
                             2 0 4 0 [160; 16] 2 "WIRE" true 1
                             H0 bench_configured (bench_wired_rx _) H1 H2 H3 H4 H5)) _).
  vm_compute. reflexivity.
Defined.



(** Pipe mode with [reset_pipe=True] and no pipe endpoints: the KeyError, and
    nothing done. *)
Lemma i2c_receive_missing_endpoint_witness :
  i2c_receive (bench_chip (fpga_done_at 0)) 1 "Pipe" true true bench_world =
  (Raise (KeyError missing_endpoints_msg), bench_world).
Proof.
  assert (H0 : lower "Pipe" = "pipe") by reflexivity.
  assert (H1 : endpoints (bench_chip (fpga_done_at 0)) !! "FIFO_RESET" = None \/
               endpoints (bench_chip (fpga_done_at 0)) !! "PIPE_OUT" = None)
    by (left; reflexivity).
  exact (i2c_receive_missing_endpoint (bench_chip (fpga_done_at 0)) 1 "Pipe" true bench_world
           H0 H1).
Defined.

(** Pipe mode with [reset_pipe=False] and no pipe endpoints: the endpoints
    are not looked for.  Without readout the call sends the command, sees DONE
    and returns [None]; with readout it raises the plain KeyError of the dict
    lookup, after the command was sent. *)
Lemma i2c_receive_pipe_without_reset_counterexample :
  let c := bench_chip (fpga_done_at 0) in
  let sent :=
    mkWorld (<[default_i2c := mkI2C (VInt <$> [130; 0; 4; 1; 160; 16]) 6]> (heap bench_world))
            (send_events bench_wiring [130; 0; 4; 1; 160; 16] ++ poll_events bench_wiring) in
  lower "pipe" = "pipe" /\
  endpoints c !! "FIFO_RESET" = None /\
  endpoints c !! "PIPE_OUT" = None /\
  i2c_receive c 1 "pipe" false false bench_world = (Ok RNone, sent) /\
  i2c_receive c 1 "pipe" false true bench_world = (Raise (KeyError "PIPE_OUT"), sent) /\
  trace sent <> trace bench_world.
Proof.
  repeat split; try reflexivity. discriminate.
Qed.

(** Two chips from [create_chips]: configuring the first changes what the
    second holds, from [([], 7)] to the new buffer and data start. *)
Lemma create_chips_share_buffer_witness :
  exists a b w',
    create_chips fpga_never_done [0; 1] bench_endpoints = [a; b] /\
    addr_pins a <> addr_pins b /\
    heap class_defined !! i2c b = Some (mkI2C [] 7) /\
    i2c_configure a 1 0 0 [VInt 160] class_defined = (Ok tt, w') /\
    heap w' !! i2c b = Some (mkI2C (VInt <$> [1; 0; 0; 0; 160]) 5).
Proof.
  pose (a := __init__ fpga_never_done 0 bench_endpoints None).
  pose (b := __init__ fpga_never_done 1 bench_endpoints None).
  assert (Ha : a ∈ create_chips fpga_never_done [0; 1] bench_endpoints)
    by (apply list_elem_of_here).
  assert (Hb : b ∈ create_chips fpga_never_done [0; 1] bench_endpoints)
    by (apply list_elem_of_further, list_elem_of_here).
  assert (H0 : heap class_defined !! i2c a = Some (mkI2C [] 7)) by reflexivity.
  assert (H1 : len [VInt 160] = 1) by reflexivity.
  destruct (create_chips_share_buffer fpga_never_done [0; 1] bench_endpoints a b
              class_defined (mkI2C [] 7) 1 0 0 [VInt 160] Ha Hb H0 H1)
    as (_ & w' & Hcfg & Hread).
  exists a, b, w'. repeat split; try done.
Defined.

(** A receive that times out, then a transmit without configure in between:
    the flag is set, stays set, and the first byte sent is 0x82. *)
Lemma read_flag_stays_until_configure_witness :
  let c := bench_chip fpga_never_done in
  let w1 := snd (i2c_receive c 2 "wire" true true bench_world) in
  let w2 := snd (i2c_transmit c (VInt <$> [66]) 1 w1) in
  read_flag w1 (i2c c) = true /\
  read_flag w2 (i2c c) = true /\
  exists b0 t',
    [130; 0; 4; 2; 160; 16] !! 0%nat = Some b0 /\
    Z.testbit b0 7 = true /\
    trace w2 = trace w1 ++ pulse_event (w_MEMSTART bench_wiring) :: byte_events bench_wiring b0 ++ t'.
Proof.
  intros c w1 w2.
  pose (d1 := mkI2C (VInt <$> [130; 0; 4; 2; 160; 16]) 6).
  assert (Hrx : i2c_receive c 2 "wire" true true bench_world = (Ok RNone, w1))
    by (vm_compute; reflexivity).
  assert (Htx : i2c_transmit c (VInt <$> [66]) 1 w1 = (Ok RNone, w2))
    by (vm_compute; reflexivity).
  assert (Hd : heap w1 !! i2c c = Some d1) by (vm_compute; reflexivity).
  assert (Hconf : configured d1 [130; 0; 4; 2; 160; 16]) by (repeat split; done).
  assert (Hdl : 0 <= 1 <= len [66]) by (unfold len; simpl; lia).
  destruct read_flag_stays_until_configure as (Hset & Hstay & Hsend).
  pose proof (Hset c 2 "wire" true true bench_world RNone w1 Hrx) as Hflag1.
  split; [exact Hflag1 |].
  split.
  - exact (proj1 (Hstay (i2c c) w1 Hflag1) c (VInt <$> [66]) 1 (Ok RNone) w2 Htx).
  - exact (Hsend c bench_wiring w1 d1 [130; 0; 4; 2; 160; 16] [66] 1 (Ok RNone) w2
             Hflag1 Hd Hconf (bench_wired_tx _) Hdl Htx).
Defined.

(** * More about the methods *)

(** ** What a method writes of its dict *)

Section Own.
Variable P : World -> Prop.
Variable c : I2CController.
Variable R : I2CDict -> I2CDict -> Prop.
Hypothesis P_put : forall w d d',
P w -> heap w !! i2c c = Some d -> R d d' ->
P (mkWorld (<[i2c c := d']> (heap w)) (trace w)).
Hypothesis R_setitem : forall d i v l',
i = 0 \/ i = 3 ->
list_setitem (m_pBuf d) i v = Ok l' -> R d (mkI2C l' (m_nDataStart d)).
Hypothesis R_append : forall d v, R d (mkI2C (m_pBuf d ++ [v]) (m_nDataStart d)).
Hypothesis P_emit : forall w e, P w -> P (mkWorld (heap w) (trace w ++ [e])).

Lemma own_buf_setitem i v : i = 0 \/ i = 3 -> preserves P (buf_setitem c i v).
Proof.
intros Hi w r w' HP H. unfold buf_setitem, bind, get_i2c, lift in H.
destruct (heap w !! i2c c) as [d |] eqn:Hd; [| by injection H as <- <-].
destruct (list_setitem (m_pBuf d) i v) as [l' | e] eqn:Hset; [| by injection H as <- <-].
injection H as <- <-. eapply P_put; eauto.
Qed.

Lemma own_buf_append v : preserves P (buf_append c v).
Proof.
intros w r w' HP H. unfold buf_append, bind, get_i2c in H.
destruct (heap w !! i2c c) as [d |] eqn:Hd; [| by injection H as <- <-].
injection H as <- <-. eapply P_put; eauto.
Qed.

Lemma own_buf_getitem i : preserves P (buf_getitem c i).
Proof.
unfold buf_getitem. apply pres_bind; [apply pres_get_i2c | intros d; apply pres_lift].
Qed.

Lemma own_i2c_transmit data data_length : preserves P (i2c_transmit c data data_length).
Proof.
unfold i2c_transmit. fold (transmit_wait c).
apply pres_bind; [apply own_buf_setitem; by right | intros _].
apply pres_bind.
{ apply pres_for. intros i.
  apply pres_bind; [apply pres_lift | intros x; apply own_buf_append]. }
intros _. apply pres_bind; [by apply pres_pulse | intros _].
apply pres_bind.
{ apply pres_bind; [apply pres_get_i2c | intros d].
  apply pres_for. intros i. by apply pres_write_buf_byte. }
intros _. apply pres_bind; [by apply pres_pulse | intros _].
by apply pres_transmit_wait.
Qed.

Lemma own_i2c_receive data_length data_transfer reset_pipe readout :
preserves P (i2c_receive c data_length data_transfer reset_pipe readout).
Proof.
rewrite i2c_receive_tail.
apply pres_bind.
{ destruct (bool_decide (lower data_transfer = "pipe") && reset_pipe); [| apply pres_ret].
  apply pres_bind.
  - apply pres_reraise.
    apply pres_bind; [apply pres_endpoint | intros _].
    apply pres_bind; [apply pres_endpoint | intros _; apply pres_ret].
  - intros _. apply pres_bind; [by apply pres_pulse | intros _; apply pres_ret]. }
intros _. apply pres_bind.
{ apply pres_bind; [apply own_buf_getitem | intros b0].
  apply pres_bind; [apply pres_lift | intros b; apply own_buf_setitem; by left]. }
intros _. apply pres_bind; [apply own_buf_setitem; by right | intros _].
apply pres_bind; [by apply pres_pulse | intros _].
apply pres_bind.
{ apply pres_bind; [apply pres_get_i2c | intros d].
  apply pres_for. intros i. by apply pres_write_buf_byte. }
intros _. apply pres_bind; [by apply pres_pulse | intros _].
by apply pres_receive_wait.
Qed.
End Own.

(** [i2c_configure] after its length check writes the dict and nothing
    else. *)
Section OwnAny.
Variable P : World -> Prop.
Variable c : I2CController.
Hypothesis P_put : forall w d', P w -> P (mkWorld (<[i2c c := d']> (heap w)) (trace w)).

Lemma any_put_i2c d : preserves P (put_i2c c d).
Proof. intros w r w' HP H. injection H as <- <-. by apply P_put. Qed.

Lemma any_buf_setitem i v : preserves P (buf_setitem c i v).
Proof.
unfold buf_setitem.
apply pres_bind; [apply pres_get_i2c | intros d].
apply pres_bind; [apply pres_lift | intros l; apply any_put_i2c].
Qed.

Lemma any_configure_build preamble_length starts stops preamble :
preserves P (configure_build c preamble_length starts stops preamble).
Proof.
unfold configure_build.
apply pres_bind.
{ apply pres_bind; [apply pres_get_i2c | intros d; apply any_put_i2c]. }
intros _. do 4 (apply pres_bind; [apply any_buf_setitem | intros _]).
apply pres_bind.
{ apply pres_for. intros i.
  apply pres_bind; [apply pres_lift | intros x; apply any_buf_setitem]. }
intros _. apply pres_bind; [apply pres_get_i2c | intros d; apply any_put_i2c].
Qed.

End OwnAny.

(** ** [i2c_configure] at its edges *)

Lemma buf_setitem_fail c d h t i v e :
  list_setitem (m_pBuf d) i v = Raise e ->
  buf_setitem c i v (mkWorld (<[i2c c := d]> h) t) = (Raise e, mkWorld (<[i2c c := d]> h) t).
Proof.
  intros Hset. unfold buf_setitem.
  eapply bind_ok; [apply get_i2c_at |].
  apply bind_raise. unfold lift. by rewrite Hset.
Qed.

Lemma list_getitem_end {A} (l : list A) : list_getitem l (len l) = Raise IndexError.
Proof.
  unfold list_getitem, list_index, len.
  rewrite decide_False by lia.
  destruct l as [| x l]; simpl length.
  - by rewrite decide_False by lia.
  - by rewrite decide_False by lia.
Qed.

(** X1.  On a preamble of exactly [preamble_length] entries, [i2c_configure]
    keeps nothing of what the dict held: the world it leaves is the same
    whatever buffer and data start were there, and (up to length 7, where
    nothing is printed) a second call with the same arguments changes
    nothing.  (On a shorter preamble or a negative length the call raises and
    the old data start survives: X2, X3.) *)
Theorem i2c_configure_forgets c w d preamble_length starts stops preamble :
  heap w !! i2c c = Some d ->
  len preamble = preamble_length ->
  (forall d0,
     i2c_configure c preamble_length starts stops preamble
       (mkWorld (<[i2c c := d0]> (heap w)) (trace w)) =
     i2c_configure c preamble_length starts stops preamble w)
  /\
  (preamble_length <= 7 ->
   (i2c_configure c preamble_length starts stops preamble >>
    i2c_configure c preamble_length starts stops preamble) w =
   i2c_configure c preamble_length starts stops preamble w).
Proof.
  intros Hd Hlen. split.
  - intros d0.
    rewrite (i2c_configure_at c w d _ _ _ _ Hd Hlen).
    rewrite (i2c_configure_at c _ d0 _ _ _ _ (lookup_insert_eq _ _ _) Hlen).
    simpl. by rewrite insert_insert_eq.
  - intros Hpl.
    rewrite (i2c_configure_at c w d _ _ _ _ Hd Hlen).
    eapply bind_ok; [by apply (i2c_configure_at c w d) |].
    rewrite (i2c_configure_at c _ _ _ _ _ _ (lookup_insert_eq _ _ _) Hlen).
    simpl. rewrite insert_insert_eq.
    unfold too_long_events. rewrite decide_False by lia. by rewrite !app_nil_r.
Qed.

(** The copy loop on a preamble that ends too early: what is there is
    copied, then the read past the end raises. *)
Lemma configure_copy_short c h t ds hdr (rest : list val) (m : nat) : forall done,
  length hdr = 4%nat ->
  for_ (Z.of_nat <$> seq (length done) (length rest + S m))
    (fun i => let* x := lift (list_getitem (done ++ rest) i) in buf_setitem c (4 + i) x)
    (mkWorld (<[i2c c := mkI2C (hdr ++ done ++ replicate (length rest + S m) VNone) ds]> h) t) =
  (Raise IndexError,
   mkWorld (<[i2c c := mkI2C (hdr ++ done ++ rest ++ replicate (S m) VNone) ds]> h) t).
Proof.
  induction rest as [| x rest IH]; intros done Hhdr.
  - simpl length. rewrite Nat.add_0_l. rewrite app_nil_r.
    change (seq (length done) (S m)) with (length done :: seq (S (length done)) m).
    rewrite fmap_cons. simpl for_.
    apply bind_raise. apply bind_raise.
    pose proof (list_getitem_end done) as Hend. unfold len in Hend.
    unfold lift. rewrite ?app_nil_r. by rewrite Hend.
  - simpl length. simpl seq. rewrite fmap_cons. simpl for_.
    eapply bind_ok.
    + eapply bind_ok.
      * unfold lift. rewrite (list_getitem_ok _ _ x); [done | lia |].
        rewrite Nat2Z.id. by rewrite lookup_app_r, Nat.sub_diag.
      * apply buf_setitem_at. simpl m_pBuf. unfold len.
        rewrite !length_app. simpl length. lia.
    + simpl m_pBuf. simpl m_nDataStart.
      replace (Z.to_nat (4 + Z.of_nat (length done))) with (length hdr + (length done + 0))%nat by lia.
      rewrite insert_app_r, insert_app_r. simpl.
      specialize (IH (done ++ [x])).
      rewrite length_app in IH; simpl in IH.
      replace (length done + 1)%nat with (S (length done)) in IH by lia.
      rewrite <- !(assoc_L (++) done [x]) in IH. simpl in IH.
      by apply IH.
Qed.

(** X2.  A preamble with fewer than [preamble_length] entries: the entries
    there are copied, the read past the end raises IndexError, and the dict is
    left with the new buffer, [None] in the cells not reached, under the data
    start of the transaction before. *)
Theorem i2c_configure_short_preamble c w d preamble_length starts stops preamble :
  heap w !! i2c c = Some d ->
  len preamble < preamble_length ->
  i2c_configure c preamble_length starts stops preamble w =
    (Raise IndexError,
     mkWorld (<[i2c c :=
                mkI2C (command_buffer preamble_length starts stops preamble
                       ++ replicate (Z.to_nat (preamble_length - len preamble)) VNone)
                      (m_nDataStart d)]> (heap w))
             (trace w ++ too_long_events preamble_length)).
Proof.
  intros Hd Hlen.
  rewrite (world_at c d w Hd) at 1.
  unfold i2c_configure.
  eapply bind_ok.
  { instantiate (1 := mkWorld (<[i2c c := d]> (heap w)) (trace w ++ too_long_events preamble_length)).
    instantiate (1 := tt). unfold too_long_events.
    case_decide; [done |]. unfold ret. by rewrite app_nil_r. }
  eapply bind_ok; [eapply bind_ok; [apply get_i2c_at | apply put_i2c_at] |].
  unfold len in Hlen.
  set (m := (Z.to_nat (preamble_length - Z.of_nat (length preamble)) - 1)%nat).
  assert (Hn : Z.to_nat (4 + preamble_length) = (4 + (length preamble + S m))%nat) by lia.
  rewrite Hn. simpl replicate.
  do 4 (eapply bind_ok; [apply buf_setitem_at; simpl; unfold len; simpl; lia |]; simpl).
  apply bind_raise.
  unfold range. replace (Z.to_nat preamble_length) with (length preamble + S m)%nat by lia.
  pose proof (configure_copy_short c (heap w) (trace w ++ too_long_events preamble_length)
                (m_nDataStart d)
                [VInt preamble_length; VInt starts; VInt stops; VInt 0] preamble m []
                eq_refl) as Hcopy.
  simpl in Hcopy. rewrite Hcopy.
  unfold command_buffer, len.
  replace (Z.to_nat (preamble_length - Z.of_nat (length preamble))) with (S m) by lia.
  reflexivity.
Qed.

(** X3.  A negative [preamble_length]: the buffer is made with
    [4 + preamble_length] cells (none below -3), the control bytes that fit
    are written, the first that does not fit raises IndexError, and the data
    start stays as it was. *)
Theorem i2c_configure_negative_length c w d preamble_length starts stops preamble :
  heap w !! i2c c = Some d ->
  preamble_length < 0 ->
  i2c_configure c preamble_length starts stops preamble w =
    (Raise IndexError,
     mkWorld (<[i2c c :=
                mkI2C (take (Z.to_nat (4 + preamble_length))
                         [VInt preamble_length; VInt starts; VInt stops; VInt 0])
                      (m_nDataStart d)]> (heap w))
             (trace w)).
Proof.
  intros Hd Hneg.
  rewrite (world_at c d w Hd) at 1.
  unfold i2c_configure.
  eapply bind_ok; [rewrite decide_False by lia; reflexivity |].
  eapply bind_ok; [eapply bind_ok; [apply get_i2c_at | apply put_i2c_at] |].
  assert (Hcase : (Z.to_nat (4 + preamble_length) = 0 \/ Z.to_nat (4 + preamble_length) = 1 \/
                   Z.to_nat (4 + preamble_length) = 2 \/ Z.to_nat (4 + preamble_length) = 3)%nat)
    by lia.
  destruct Hcase as [-> | [-> | [-> | ->]]]; simpl replicate; simpl take.
  - apply bind_raise. by apply buf_setitem_fail.
  - eapply bind_ok; [by apply buf_setitem_at |]. simpl.
    apply bind_raise. by apply buf_setitem_fail.
  - do 2 (eapply bind_ok; [by apply buf_setitem_at |]; simpl).
    apply bind_raise. by apply buf_setitem_fail.
  - do 3 (eapply bind_ok; [by apply buf_setitem_at |]; simpl).
    apply bind_raise. by apply buf_setitem_fail.
Qed.

(** X4.  Whatever its arguments and however it ends, [i2c_configure] does
    nothing outside the interpreter but print its message past length 7: no
    call on the FPGA, no sleep. *)
Theorem i2c_configure_no_hardware c preamble_length starts stops preamble w r w' :
  i2c_configure c preamble_length starts stops preamble w = (r, w') ->
  trace w' = trace w ++ too_long_events preamble_length.
Proof.
  change (i2c_configure c preamble_length starts stops preamble)
    with ((if decide (preamble_length > 7)
           then emit (Print "Preamble data is too long")
           else ret tt) >> configure_build c preamble_length starts stops preamble).
  intros H. unfold bind in H.
  set (t1 := trace w ++ too_long_events preamble_length).
  assert (Hbuild : forall w1 r1 w2,
            trace w1 = t1 ->
            configure_build c preamble_length starts stops preamble w1 = (r1, w2) ->
            trace w2 = t1).
  { intros w1 r1 w2 Hw1 Hb.
    exact (any_configure_build (fun w => trace w = t1) c (fun _ _ HP => HP)
             preamble_length starts stops preamble w1 r1 w2 Hw1 Hb). }
  subst t1. unfold too_long_events in *.
  case_decide.
  - unfold emit in H. eapply Hbuild; [| exact H]. done.
  - unfold ret in H. eapply Hbuild; [| exact H]. simpl. by rewrite app_nil_r.
Qed.

(** ** [i2c_transmit] at its edges *)

Lemma list_setitem_short {A} (l : list A) i x :
  len l <= i -> list_setitem l i x = Raise IndexError.
Proof.
  intros Hi. unfold list_setitem, list_index, len in *.
  rewrite decide_False by lia. by rewrite decide_False by lia.
Qed.

(** X5.  On a buffer of fewer than four cells, which is what a chip holds
    that was never configured, [i2c_transmit] raises IndexError on its first
    line: nothing is written and nothing sent. *)
Theorem i2c_transmit_unconfigured c w d data data_length :
  heap w !! i2c c = Some d ->
  len (m_pBuf d) < 4 ->
  i2c_transmit c data data_length w = (Raise IndexError, w).
Proof.
  intros Hd Hshort.
  rewrite (world_at c d w Hd) at 1.
  unfold i2c_transmit. apply bind_raise.
  rewrite (buf_setitem_fail c d _ _ 3 _ IndexError).
  - by rewrite <- (world_at c d w Hd).
  - apply list_setitem_short. lia.
Qed.

Lemma bind_assoc_at {A B C} (m : M A) (k : M B) (r : M C) w :
  (m >> k >> r) w = ((m >> k) >> r) w.
Proof. unfold bind. by destruct (m w) as [[a | e] w1]. Qed.

(** The first two steps of [i2c_transmit]: the payload length written, the
    data appended. *)
Lemma i2c_transmit_prepare c d h t (data : list val) data_length :
  4 <= len (m_pBuf d) ->
  0 <= data_length <= len data ->
  (buf_setitem c 3 (VInt data_length) >>
   for_ (range data_length) (fun i =>
     let* x := lift (list_getitem data i) in
     buf_append c x))
    (mkWorld (<[i2c c := d]> h) t) =
  (Ok tt,
   mkWorld (<[i2c c := mkI2C (<[3%nat := VInt data_length]> (m_pBuf d)
                              ++ take (Z.to_nat data_length) data)
                             (m_nDataStart d)]> h) t).
Proof.
  intros H4 Hdl.
  eapply bind_ok; [apply buf_setitem_at; lia |].
  unfold range.
  pose proof (append_data c h t (m_nDataStart d)
    (drop (Z.to_nat data_length) data) (take (Z.to_nat data_length) data) []
    (<[3%nat := VInt data_length]> (m_pBuf d))) as Ha.
  rewrite length_take in Ha. simpl in Ha.
  replace (Z.to_nat data_length `min` length data)%nat with (Z.to_nat data_length) in Ha
    by (unfold len in Hdl; lia).
  rewrite take_drop, app_nil_r in Ha. apply Ha.
Qed.

(** The appending loop on data that ends too early. *)
Lemma append_data_short c h t ds (rest : list val) (m : nat) : forall done buf,
  for_ (Z.of_nat <$> seq (length done) (length rest + S m))
    (fun i => let* x := lift (list_getitem (done ++ rest) i) in buf_append c x)
    (mkWorld (<[i2c c := mkI2C (buf ++ done) ds]> h) t) =
  (Raise IndexError, mkWorld (<[i2c c := mkI2C (buf ++ done ++ rest) ds]> h) t).
Proof.
  induction rest as [| x rest IH]; intros done buf.
  - simpl length. rewrite Nat.add_0_l.
    change (seq (length done) (S m)) with (length done :: seq (S (length done)) m).
    rewrite fmap_cons. simpl for_.
    apply bind_raise. apply bind_raise.
    pose proof (list_getitem_end done) as Hend. unfold len in Hend.
    unfold lift. rewrite ?app_nil_r. by rewrite Hend.
  - simpl length. simpl seq. rewrite fmap_cons. simpl for_.
    eapply bind_ok.
    + eapply bind_ok.
      * unfold lift. rewrite (list_getitem_ok _ _ x); [done | lia |].
        rewrite Nat2Z.id. by rewrite lookup_app_r, Nat.sub_diag.
      * apply buf_append_at.
    + simpl m_pBuf. simpl m_nDataStart.
      specialize (IH (done ++ [x]) buf).
      rewrite length_app in IH; simpl in IH.
      replace (length done + 1)%nat with (S (length done)) in IH by lia.
      rewrite <- !(assoc_L (++)) in IH. simpl in IH.
      rewrite <- !(assoc_L (++)). by apply IH.
Qed.

(** X6.  With fewer data than [data_length], [i2c_transmit] appends all the
    data there is and raises IndexError on the read past the end: nothing is
    sent, and the buffer is left with the new payload length and the data
    appended. *)
Theorem i2c_transmit_short_data c w d data data_length :
  heap w !! i2c c = Some d ->
  4 <= len (m_pBuf d) ->
  len data < data_length ->
  i2c_transmit c data data_length w =
    (Raise IndexError,
     mkWorld (<[i2c c := mkI2C (<[3%nat := VInt data_length]> (m_pBuf d) ++ data)
                               (m_nDataStart d)]> (heap w))
             (trace w)).
Proof.
  intros Hd H4 Hlen.
  rewrite (world_at c d w Hd) at 1.
  unfold i2c_transmit.
  eapply bind_ok; [apply buf_setitem_at; lia |].
  apply bind_raise. unfold range, len in *.
  set (m := (Z.to_nat data_length - length data - 1)%nat).
  replace (Z.to_nat data_length) with (length data + S m)%nat by lia.
  pose proof (append_data_short c (heap w) (trace w) (m_nDataStart d) data m []
                (<[3%nat := VInt data_length]> (m_pBuf d))) as Ha.
  simpl in Ha. rewrite app_nil_r in Ha. exact Ha.
Qed.

(** X7.  Without the MEMSTART endpoint, [i2c_transmit] raises KeyError at its
    first call on the FPGA: nothing is sent, but the payload length and the
    data are in the buffer already. *)
Theorem i2c_transmit_missing_MEMSTART c w d data data_length :
  heap w !! i2c c = Some d ->
  4 <= len (m_pBuf d) ->
  0 <= data_length <= len data ->
  endpoints c !! "MEMSTART" = None ->
  i2c_transmit c data data_length w =
    (Raise (KeyError "MEMSTART"),
     mkWorld (<[i2c c := mkI2C (<[3%nat := VInt data_length]> (m_pBuf d)
                                ++ take (Z.to_nat data_length) data)
                               (m_nDataStart d)]> (heap w))
             (trace w)).
Proof.
  intros Hd H4 Hdl Hms.
  rewrite (world_at c d w Hd) at 1.
  unfold i2c_transmit.
  etrans; [apply bind_assoc_at |].
  eapply bind_ok; [by apply i2c_transmit_prepare |].
  apply bind_raise. apply bind_raise. unfold endpoint. by rewrite Hms.
Qed.

(** [i2c_transmit] up to its wait loop on a buffer that may hold more than
    its data start says: what is sent is the first
    [data_length + m_nDataStart] bytes of the buffer after the append. *)
Lemma i2c_transmit_sent_upto c W w d bs data data_length :
  heap w !! i2c c = Some d ->
  m_pBuf d = VInt <$> bs ->
  4 <= len bs ->
  0 <= m_nDataStart d <= len bs ->
  0 <= data_length <= len data ->
  wired_tx c W ->
  let bs' := <[3%nat := data_length]> bs ++ take (Z.to_nat data_length) data in
  i2c_transmit c (VInt <$> data) data_length w =
  transmit_wait c
    (mkWorld (<[i2c c := mkI2C (VInt <$> bs') (m_nDataStart d)]> (heap w))
             (trace w ++ send_events W (take (Z.to_nat (data_length + m_nDataStart d)) bs'))).
Proof.
  intros Hd Hbuf H4 Hds Hdl (Hms & Hmw & Hin & Hst & Hdone & Hkin & Hkdone) bs'.
  rewrite (world_at c d w Hd) at 1.
  assert (Hdl' : 0 <= data_length <= len (VInt <$> data))
    by (unfold len in *; rewrite length_fmap; lia).
  assert (H4' : 4 <= len (m_pBuf d))
    by (rewrite Hbuf; unfold len in *; rewrite length_fmap; lia).
  pose proof (i2c_transmit_prepare c d (heap w) (trace w) (VInt <$> data) data_length H4' Hdl')
    as Hprep.
  rewrite Hbuf, <- list_fmap_insert, <- fmap_take, <- fmap_app in Hprep. fold bs' in Hprep.
  unfold i2c_transmit. fold (transmit_wait c).
  etrans; [apply bind_assoc_at |].
  eapply bind_ok; [exact Hprep |].
  eapply bind_ok; [by apply pulse_at |].
  eapply bind_ok.
  { eapply bind_ok; [apply get_i2c_at |]. simpl m_nDataStart.
    unfold range.
    set (sent := take (Z.to_nat (data_length + m_nDataStart d)) bs').
    replace (Z.to_nat (data_length + m_nDataStart d)) with (length sent).
    - apply (stream_bytes c W _ _ Hin Hmw Hkin sent 0%nat).
      intros i b Hi. simpl. rewrite list_lookup_fmap.
      apply lookup_take_Some in Hi as [Hi _]. by rewrite Hi.
    - subst sent bs'. rewrite length_take, length_app, length_insert, length_take.
      unfold len in *. lia. }
  eapply bind_ok; [by apply pulse_at |].
  unfold send_events. simpl. by rewrite <- !(assoc_L (++)).
Qed.

(** X8.  A buffer that still holds the payload [old] of an earlier transmit
    (no [i2c_configure] in between): the new data go behind [old], and what is
    sent after the preamble is the first [data_length] bytes of [old] followed
    by the new data.  With [data_length] no more than [len(old)], none of the
    new data is sent. *)
Theorem i2c_transmit_stale_payload c W w d bs old data data_length n :
  heap w !! i2c c = Some d ->
  m_pBuf d = VInt <$> (bs ++ old) ->
  m_nDataStart d = len bs ->
  4 <= len bs ->
  0 <= data_length <= len data ->
  wired_tx c W ->
  let sent := <[3%nat := data_length]> bs ++ take (Z.to_nat data_length) (old ++ data) in
  let kept := <[3%nat := data_length]> bs ++ old ++ take (Z.to_nat data_length) data in
  let t1 := trace w ++ send_events W sent in
  (n < 50)%nat ->
  (forall j, (j < n)%nat -> done_seen (fpga c) W 1 t1 j = false) ->
  done_seen (fpga c) W 1 t1 n = true ->
  i2c_transmit c (VInt <$> data) data_length w =
    (Ok RTrue,
     mkWorld (<[i2c c := mkI2C (VInt <$> kept) (m_nDataStart d)]> (heap w))
             (t1 ++ polls_missed W 1 n ++ poll_events W))
  /\ (data_length <= len old ->
      sent = <[3%nat := data_length]> bs ++ take (Z.to_nat data_length) old).
Proof.
  intros Hd Hbuf Hds H4 Hdl Hwired sent kept t1 Hn Hmiss Hhit.
  assert (Hsent : take (Z.to_nat (data_length + m_nDataStart d))
                    (<[3%nat := data_length]> (bs ++ old) ++ take (Z.to_nat data_length) data)
                  = sent).
  { subst sent. rewrite Hds. unfold len in *.
    rewrite insert_app_l by lia. rewrite <- (assoc_L (++)).
    replace (Z.to_nat (data_length + Z.of_nat (length bs)))
      with (length (<[3%nat := data_length]> bs) + Z.to_nat data_length)%nat
      by (rewrite length_insert; lia).
    rewrite take_app_add. f_equal.
    rewrite !take_app, take_take. f_equal. f_equal. lia. }
  split.
  - rewrite (i2c_transmit_sent_upto c W w d (bs ++ old) data data_length Hd Hbuf).
    + rewrite Hsent.
      unfold len in H4. rewrite insert_app_l by lia. rewrite <- (assoc_L (++)).
      destruct Hwired as (_ & _ & _ & _ & Hdone & _ & Hbit).
      by apply transmit_wait_done.
    + unfold len in *. rewrite length_app. lia.
    + unfold len in *. rewrite Hds, length_app. lia.
    + done.
    + done.
  - intros Hold. subst sent. unfold len in Hold.
    rewrite take_app_le by lia. done.
Qed.

(** ** [i2c_receive] beyond the wire readout *)

(** The first step of [i2c_receive], when the endpoints it asks for are
    there. *)
Lemma fifo_reset_step c data_transfer reset_pipe ev h t :
  fifo_reset_events c data_transfer reset_pipe = Some ev ->
  (if bool_decide (lower data_transfer = "pipe") && reset_pipe
   then
     reraise_KeyError
       (endpoint c "FIFO_RESET" >> endpoint c "PIPE_OUT" >> ret tt)
       missing_endpoints_msg >>
     pulse c "FIFO_RESET" >>
     ret tt
   else ret tt) (mkWorld h t) = (Ok tt, mkWorld h (t ++ ev)).
Proof.
  intros Hpre. unfold fifo_reset_events in Hpre.
  destruct (bool_decide (lower data_transfer = "pipe") && reset_pipe).
  - destruct (endpoints c !! "FIFO_RESET") as [fr |] eqn:Hfr; [| done].
    destruct (endpoints c !! "PIPE_OUT") as [po |] eqn:Hpo; [| done].
    injection Hpre as <-.
    eapply bind_ok.
    + apply reraise_ok.
      eapply bind_ok; [by apply endpoint_ok |].
      eapply bind_ok; [by apply endpoint_ok | reflexivity].
    + eapply bind_ok; [by apply pulse_at | reflexivity].
  - injection Hpre as <-. unfold ret. by rewrite app_nil_r.
Qed.

(** X9.  On an empty buffer, which is what a chip holds that was never
    configured, [i2c_receive] raises IndexError when it goes to set the read
    flag: after the FIFO reset if one was asked for, before anything else is
    sent. *)
Theorem i2c_receive_unconfigured c w d data_length data_transfer reset_pipe readout ev :
  heap w !! i2c c = Some d ->
  m_pBuf d = [] ->
  fifo_reset_events c data_transfer reset_pipe = Some ev ->
  i2c_receive c data_length data_transfer reset_pipe readout w =
    (Raise IndexError, mkWorld (heap w) (trace w ++ ev)).
Proof.
  intros Hd Hbuf Hpre.
  rewrite (world_at c d w Hd) at 1.
  rewrite i2c_receive_tail.
  eapply bind_ok; [by apply fifo_reset_step |].
  apply bind_raise. apply bind_raise.
  unfold buf_getitem.
  eapply bind_ok; [apply get_i2c_at |].
  rewrite Hbuf. unfold lift. simpl. by rewrite insert_id.
Qed.

(** The wait loop when what follows DONE raises. *)
Lemma poll_loop_raise {R A} c W (found : M (option R)) ms h t0 (l : list A) n e w' :
  endpoints c !! "DONE" = Some (w_DONE W) ->
  0 <= bit_index_low (w_DONE W) ->
  (n < length l)%nat ->
  (forall j, (j < n)%nat -> done_seen (fpga c) W ms t0 j = false) ->
  done_seen (fpga c) W ms t0 n = true ->
  found (mkWorld h (t0 ++ polls_missed W ms n ++ poll_events W)) = (Raise e, w') ->
  for_return l (fun _ => poll_body c found ms) (mkWorld h t0) = (Raise e, w').
Proof.
  intros Hdone Hbit Hn Hmiss Hhit Hfound.
  rewrite <- (app_nil_r t0) at 1. change [] with (polls_missed W ms 0).
  assert (Hgen : forall k j0, (j0 + k = n)%nat -> forall l : list A, (k < length l)%nat ->
    for_return l (fun _ => poll_body c found ms) (mkWorld h (t0 ++ polls_missed W ms j0)) =
    (Raise e, w')).
  { induction k as [| k IH]; intros j0 Hk l' Hl'; destruct l' as [| x l']; simpl in *; try lia.
    - assert (j0 = n) as -> by lia.
      unfold bind. by rewrite (poll_hit c W found ms h t0 Hdone Hbit), Hfound.
    - eapply bind_ok; [apply (poll_miss c W found ms h t0 Hdone Hbit), Hmiss; lia |].
      apply IH; lia. }
  by apply (Hgen n 0%nat).
Qed.

(** [receive_wait] when DONE is seen at look [n] of the 5 and what follows
    returns. *)
Lemma receive_wait_found c W h t0 data_length data_transfer readout n v w' :
  endpoints c !! "DONE" = Some (w_DONE W) ->
  0 <= bit_index_low (w_DONE W) ->
  (n < 5)%nat ->
  (forall j, (j < n)%nat -> done_seen (fpga c) W 10 t0 j = false) ->
  done_seen (fpga c) W 10 t0 n = true ->
  receive_found c data_length data_transfer readout
    (mkWorld h (t0 ++ polls_missed W 10 n ++ poll_events W)) = (Ok (Some v), w') ->
  receive_wait c data_length data_transfer readout (mkWorld h t0) = (Ok v, w').
Proof.
  intros Hdone Hbit Hn Hmiss Hhit Hfound. unfold receive_wait.
  eapply bind_ok.
  - rewrite <- (app_nil_r t0) at 1.
    apply (poll_loop_found c W _ 10 h t0 Hdone Hbit _ n); try done.
  - done.
Qed.

(** X10.  Pipe mode with readout, both pipe endpoints there: FIFO_RESET is
    pulsed first when [reset_pipe] is set, the command is sent as for a wire
    read, and at the look that sees DONE the result is what
    [fpga.read_pipe_out(PIPE_OUT.address, data_length)] gives, as it is.  The
    read pointer is not reset and the OUT register is never read. *)
Theorem i2c_receive_pipe_reads c W w d b0 b1 b2 b3 pre data_length data_transfer
    (reset_pipe : bool) fr po n :
  heap w !! i2c c = Some d ->
  configured d (b0 :: b1 :: b2 :: b3 :: pre) ->
  wired_tx c W ->
  endpoints c !! "FIFO_RESET" = Some fr ->
  endpoints c !! "PIPE_OUT" = Some po ->
  lower data_transfer = "pipe" ->
  let bs' := Z.lor b0 128 :: b1 :: b2 :: data_length :: pre in
  let ev : list Event := if reset_pipe then [pulse_event fr] else [] in
  let t1 := trace w ++ ev ++ send_events W bs' in
  (n < 5)%nat ->
  (forall j, (j < n)%nat -> done_seen (fpga c) W 10 t1 j = false) ->
  done_seen (fpga c) W 10 t1 n = true ->
  let t2 := t1 ++ polls_missed W 10 n ++ poll_events W in
  let r := fpga_read_pipe_out (fpga c) t2 (address po) data_length in
  i2c_receive c data_length data_transfer reset_pipe true w =
    (Ok (RPipe (fst r) (snd r)),
     mkWorld (<[i2c c := mkI2C (VInt <$> bs') (m_nDataStart d)]> (heap w))
             (t2 ++ [ReadPipeOut (address po) data_length])).
Proof.
  intros Hd Hconf Hwired Hfr Hpo Hpipe bs' ev t1 Hn Hmiss Hhit t2 r.
  assert (Hpre : fifo_reset_events c data_transfer reset_pipe = Some ev).
  { unfold fifo_reset_events. rewrite Hfr, Hpo, bool_decide_eq_true_2 by done.
    by destruct reset_pipe. }
  rewrite (i2c_receive_sent c W w d b0 b1 b2 b3 pre data_length data_transfer
             reset_pipe true ev Hd Hconf Hwired Hpre).
  destruct Hwired as (_ & _ & _ & _ & Hdone & _ & Hbit).
  apply (receive_wait_found c W _ _ _ _ _ n); try done.
  unfold receive_found. simpl negb. cbv iota.
  rewrite bool_decide_eq_false_2 by (rewrite Hpipe; discriminate).
  rewrite bool_decide_eq_true_2 by done.
  unfold read_pipe.
  eapply bind_ok; [| reflexivity].
  eapply bind_ok; [by apply endpoint_ok |].
  unfold bind, get_trace, emit, ret. simpl.
  subst r t2 t1. by rewrite <- !(assoc_L (++)).
Qed.

(** Counting over the traces the methods leave. *)
Lemma count_event_app f t1 t2 :
  count_event f (t1 ++ t2) = (count_event f t1 + count_event f t2)%nat.
Proof. induction t1 as [| e t1 IH]; simpl; [done |]. rewrite IH. lia. Qed.

Lemma count_event_concat_replicate f n t :
  count_event f t = 0%nat -> count_event f (concat (replicate n t)) = 0%nat.
Proof.
  intros Ht. induction n as [| n IH]; simpl; [done |].
  rewrite count_event_app. lia.
Qed.

Lemma count_reads_send_events f W bs :
  (forall a v m, f (SetWireInValue a v m) = false) ->
  f UpdateWireIns = false ->
  (forall a b, f (ActivateTriggerIn a b) = false) ->
  count_event f (send_events W bs) = 0%nat.
Proof.
  intros Hset Hupd Hact.
  assert (Hp : forall ep, f (pulse_event ep) = false) by (intros ep; apply Hact).
  assert (Hbytes : count_event f (concat (byte_events W <$> bs)) = 0%nat).
  { induction bs as [| b bs IH]; [done |].
    rewrite fmap_cons, concat_cons, count_event_app, IH.
    unfold byte_events. simpl. by rewrite Hset, Hupd, Hp. }
  unfold send_events. simpl. rewrite Hp, count_event_app, Hbytes. simpl. by rewrite Hp.
Qed.

(** X11.  With [readout=False], whatever the mode: the command is sent, and
    at the look that sees DONE the call returns [None].  Nothing it has done
    is a read of the OUT register or a call on the pipe. *)
Theorem i2c_receive_no_readout_returns c W w d b0 b1 b2 b3 pre data_length data_transfer
    reset_pipe ev n :
  heap w !! i2c c = Some d ->
  configured d (b0 :: b1 :: b2 :: b3 :: pre) ->
  wired_tx c W ->
  fifo_reset_events c data_transfer reset_pipe = Some ev ->
  let bs' := Z.lor b0 128 :: b1 :: b2 :: data_length :: pre in
  let t1 := trace w ++ ev ++ send_events W bs' in
  (n < 5)%nat ->
  (forall j, (j < n)%nat -> done_seen (fpga c) W 10 t1 j = false) ->
  done_seen (fpga c) W 10 t1 n = true ->
  let done := ev ++ send_events W bs' ++ polls_missed W 10 n ++ poll_events W in
  i2c_receive c data_length data_transfer reset_pipe false w =
    (Ok RNone,
     mkWorld (<[i2c c := mkI2C (VInt <$> bs') (m_nDataStart d)]> (heap w))
             (trace w ++ done))
  /\ count_event is_GetWireOutValue done = 0%nat
  /\ count_event is_UpdateWireOuts done = 0%nat
  /\ count_event (fun e => match e with ReadPipeOut _ _ => true | _ => false end) done = 0%nat.
Proof.
  intros Hd Hconf Hwired Hpre bs' t1 Hn Hmiss Hhit done.
  assert (Hev : ev = [] \/ exists fr, ev = [pulse_event fr]).
  { unfold fifo_reset_events in Hpre.
    destruct (bool_decide (lower data_transfer = "pipe") && reset_pipe); [| left; congruence].
    destruct (endpoints c !! "FIFO_RESET") as [fr |]; [| done].
    destruct (endpoints c !! "PIPE_OUT"); [| done].
    right. exists fr. congruence. }
  assert (Hcount : forall f,
            (forall a v m, f (SetWireInValue a v m) = false) ->
            f UpdateWireIns = false ->
            (forall a b, f (ActivateTriggerIn a b) = false) ->
            f UpdateTriggerOuts = false ->
            (forall a m, f (IsTriggered a m) = false) ->
            f (Sleep 10) = false ->
            count_event f done = 0%nat).
  { intros f Hset Hupd Hact Hto Htr Hsl. subst done.
    rewrite !count_event_app, count_reads_send_events by done.
    unfold polls_missed. rewrite count_event_concat_replicate
      by (simpl; by rewrite Hto, Htr, Hsl).
    simpl. rewrite Hto, Htr.
    destruct Hev as [-> | [fr ->]]; simpl; [done |].
    change (f (pulse_event fr)) with (f (ActivateTriggerIn (address fr) (bit_index_low fr))).
    by rewrite Hact. }
  split; [| split; [| split]]; try (by apply Hcount).
  rewrite (i2c_receive_sent c W w d b0 b1 b2 b3 pre data_length data_transfer
             reset_pipe false ev Hd Hconf Hwired Hpre).
  destruct Hwired as (_ & _ & _ & _ & Hdone & _ & Hbit).
  apply (receive_wait_found c W _ _ _ _ _ n); try done.
  unfold receive_found, ret. simpl. subst done t1.
  by rewrite <- !(assoc_L (++)).
Qed.

(** One turn of the wait loop when what follows DONE is the sleep: the same
    three events whether DONE was seen or not. *)
Lemma poll_ignored c W ms h t0 j :
  endpoints c !! "DONE" = Some (w_DONE W) ->
  0 <= bit_index_low (w_DONE W) ->
  poll_body c (emit (Sleep ms) >> ret None) ms (mkWorld h (t0 ++ polls_missed W ms j)) =
  (Ok (@None pyret), mkWorld h (t0 ++ polls_missed W ms (S j))).
Proof.
  intros Hdone Hbit.
  destruct (done_seen (fpga c) W ms t0 j) eqn:Hj.
  - rewrite (poll_hit c W _ ms h t0 Hdone Hbit j Hj).
    rewrite polls_missed_S. unfold bind, emit, ret; simpl.
    by rewrite <- !(assoc_L (++)).
  - by apply poll_miss.
Qed.

Lemma poll_loop_ignored {A} c W ms h t0 (l : list A) :
  endpoints c !! "DONE" = Some (w_DONE W) ->
  0 <= bit_index_low (w_DONE W) ->
  forall j0,
  for_return l (fun _ => poll_body c (emit (Sleep ms) >> ret None) ms)
    (mkWorld h (t0 ++ polls_missed W ms j0)) =
  (Ok (@None pyret), mkWorld h (t0 ++ polls_missed W ms (j0 + length l))).
Proof.
  intros Hdone Hbit. induction l as [| x l IH]; intros j0; simpl.
  - by rewrite Nat.add_0_r.
  - eapply bind_ok; [by apply poll_ignored |].
    rewrite IH. by replace (S j0 + length l)%nat with (j0 + S (length l))%nat by lia.
Qed.

Lemma poll_loop_ignored_all {A} c W ms h t0 (l : list A) :
  endpoints c !! "DONE" = Some (w_DONE W) ->
  0 <= bit_index_low (w_DONE W) ->
  for_return l (fun _ => poll_body c (emit (Sleep ms) >> ret None) ms) (mkWorld h t0) =
  (Ok (@None pyret), mkWorld h (t0 ++ polls_missed W ms (length l))).
Proof.
  intros Hdone Hbit.
  pose proof (poll_loop_ignored c W ms h t0 l Hdone Hbit 0%nat) as H.
  change (polls_missed W ms 0) with (@nil Event) in H.
  by rewrite app_nil_r in H.
Qed.

(** X12.  A [data_transfer] that is neither 'wire' nor 'pipe' (whatever the
    case of its letters), with readout: DONE is looked at 5 times, and seen or
    not the call sleeps and looks again; it ends with the timeout message and
    [None], whatever the FPGA answers. *)
Theorem i2c_receive_unknown_mode c W w d b0 b1 b2 b3 pre data_length data_transfer reset_pipe :
  heap w !! i2c c = Some d ->
  configured d (b0 :: b1 :: b2 :: b3 :: pre) ->
  wired_tx c W ->
  lower data_transfer <> "wire" ->
  lower data_transfer <> "pipe" ->
  let bs' := Z.lor b0 128 :: b1 :: b2 :: data_length :: pre in
  i2c_receive c data_length data_transfer reset_pipe true w =
    (Ok RNone,
     mkWorld (<[i2c c := mkI2C (VInt <$> bs') (m_nDataStart d)]> (heap w))
             (trace w ++ send_events W bs' ++ polls_missed W 10 5
              ++ [Print "Timeout Exception in Rx"])).
Proof.
  intros Hd Hconf Hwired Hwire Hpipe bs'.
  assert (Hpre : fifo_reset_events c data_transfer reset_pipe = Some []).
  { unfold fifo_reset_events. by rewrite bool_decide_eq_false_2. }
  rewrite (i2c_receive_sent c W w d b0 b1 b2 b3 pre data_length data_transfer
             reset_pipe true [] Hd Hconf Hwired Hpre).
  destruct Hwired as (_ & _ & _ & _ & Hdone & _ & Hbit).
  unfold receive_wait, receive_found. simpl negb. cbv iota.
  rewrite !bool_decide_eq_false_2 by done.
  rewrite app_nil_l.
  eapply bind_ok.
  - by apply (poll_loop_ignored_all c W).
  - rewrite length_range.
    change (Z.to_nat (I2C_MAX_TIMEOUT_MS / 10)) with 5%nat.
    unfold bind, emit, ret. cbn [heap trace]. by rewrite <- !(assoc_L (++)).
Qed.

(** X13.  Pipe mode with readout and [reset_pipe=False], no PIPE_OUT
    endpoint: nothing is checked beforehand; the command is sent, DONE is
    waited for, and only then the lookup of the endpoint raises its own
    KeyError. *)
Theorem i2c_receive_pipe_out_missing_late c W w d b0 b1 b2 b3 pre data_length data_transfer n :
  heap w !! i2c c = Some d ->
  configured d (b0 :: b1 :: b2 :: b3 :: pre) ->
  wired_tx c W ->
  lower data_transfer = "pipe" ->
  endpoints c !! "PIPE_OUT" = None ->
  let bs' := Z.lor b0 128 :: b1 :: b2 :: data_length :: pre in
  let t1 := trace w ++ send_events W bs' in
  (n < 5)%nat ->
  (forall j, (j < n)%nat -> done_seen (fpga c) W 10 t1 j = false) ->
  done_seen (fpga c) W 10 t1 n = true ->
  i2c_receive c data_length data_transfer false true w =
    (Raise (KeyError "PIPE_OUT"),
     mkWorld (<[i2c c := mkI2C (VInt <$> bs') (m_nDataStart d)]> (heap w))
             (t1 ++ polls_missed W 10 n ++ poll_events W)).
Proof.
  intros Hd Hconf Hwired Hpipe Hpo bs' t1 Hn Hmiss Hhit.
  assert (Hpre : fifo_reset_events c data_transfer false = Some []).
  { unfold fifo_reset_events. by rewrite andb_false_r. }
  rewrite (i2c_receive_sent c W w d b0 b1 b2 b3 pre data_length data_transfer
             false true [] Hd Hconf Hwired Hpre).
  destruct Hwired as (_ & _ & _ & _ & Hdone & _ & Hbit).
  unfold receive_wait. apply bind_raise. rewrite app_nil_l. fold t1.
  apply (poll_loop_raise c W _ 10 _ t1 _ n); try done.
  unfold receive_found. simpl negb. cbv iota.
  rewrite bool_decide_eq_false_2 by (rewrite Hpipe; discriminate).
  rewrite bool_decide_eq_true_2 by done.
  apply bind_raise. unfold read_pipe. apply bind_raise.
  unfold endpoint. by rewrite Hpo.
Qed.

(** ** Across methods and instances *)

Lemma keeps_preamble_refl d : keeps_preamble d d.
Proof. repeat split; done. Qed.

Lemma keeps_preamble_trans d1 d2 d3 :
  keeps_preamble d1 d2 -> keeps_preamble d2 d3 -> keeps_preamble d1 d3.
Proof.
  intros (Hs1 & Hl1 & Hc1) (Hs2 & Hl2 & Hc2). split; [congruence |]. split; [lia |].
  intros i H0 H3 Hi. rewrite Hc2 by (try done; lia). by apply Hc1.
Qed.

Lemma keeps_preamble_setitem d i v l' :
  i = 0 \/ i = 3 ->
  list_setitem (m_pBuf d) i v = Ok l' -> keeps_preamble d (mkI2C l' (m_nDataStart d)).
Proof.
  intros Hi Hset. unfold list_setitem, list_index in Hset.
  repeat case_decide; try done; try lia.
  injection Hset as <-. split; [done |]. simpl. split; [by rewrite length_insert |].
  intros j H0 H3 Hj. apply list_lookup_insert_ne. lia.
Qed.

Lemma keeps_preamble_append d v : keeps_preamble d (mkI2C (m_pBuf d ++ [v]) (m_nDataStart d)).
Proof.
  split; [done |]. simpl. split; [rewrite length_app; lia |].
  intros j _ _ Hj. by apply lookup_app_l.
Qed.

(** X15.  [i2c_transmit] and [i2c_receive], of any controller and however
    they end, change of a dict only cell 0 and cell 3 of the buffer, and its
    length by what they append: the data start, the start and stop masks and
    the preamble stay, and the buffer is never cut. *)
Theorem transmit_receive_keep_preamble l w d :
  heap w !! l = Some d ->
  (forall c data data_length r w',
     i2c_transmit c data data_length w = (r, w') -> kept_at l d w') /\
  (forall c data_length data_transfer reset_pipe readout r w',
     i2c_receive c data_length data_transfer reset_pipe readout w = (r, w') ->
     kept_at l d w').
Proof.
  intros Hd.
  assert (P_put : forall c w1 d1 d',
            kept_at l d w1 -> heap w1 !! i2c c = Some d1 -> keeps_preamble d1 d' ->
            kept_at l d (mkWorld (<[i2c c := d']> (heap w1)) (trace w1))).
  { intros c w1 d1 d' (d2 & Hd2 & Hkeep) Hd1 Hstep. unfold kept_at. simpl.
    destruct (decide (i2c c = l)) as [<- |].
    - rewrite lookup_insert_eq. eexists. split; [done |].
      rewrite Hd1 in Hd2. injection Hd2 as ->.
      by apply (keeps_preamble_trans d d2 d').
    - rewrite lookup_insert_ne by done. eauto. }
  assert (P_emit : forall w1 e, kept_at l d w1 -> kept_at l d (mkWorld (heap w1) (trace w1 ++ [e])))
    by done.
  assert (HP : kept_at l d w) by (exists d; split; [done | apply keeps_preamble_refl]).
  split.
  - intros c data data_length r w' H.
    exact (own_i2c_transmit (kept_at l d) c keeps_preamble (P_put c)
             keeps_preamble_setitem keeps_preamble_append P_emit data data_length
             w r w' HP H).
  - intros c data_length data_transfer reset_pipe readout r w' H.
    exact (own_i2c_receive (kept_at l d) c keeps_preamble (P_put c)
             keeps_preamble_setitem P_emit
             data_length data_transfer reset_pipe readout w r w' HP H).
Qed.

Lemma no_register_absent regAddr :
  regAddr = None \/ regAddr = Some [VNone] -> no_register regAddr = true.
Proof. by intros [-> | ->]. Qed.

(** X16.  [i2c_write_long] without a register address ([None] or [[None]]):
    the preamble is the one byte [devAddr & 0xfe], the stop mask 2, and the
    buffer sent is the four control bytes, that byte and the first
    [data_length] data bytes. *)
Theorem i2c_write_long_no_register c W w d devAddr regAddr data data_length n :
  heap w !! i2c c = Some d ->
  wired_tx c W ->
  regAddr = None \/ regAddr = Some [VNone] ->
  0 <= data_length <= len data ->
  let bs := 1 :: 0 :: 2 :: data_length :: Z.land devAddr 254
            :: take (Z.to_nat data_length) data in
  let t1 := trace w ++ send_events W bs in
  (n < 50)%nat ->
  (forall j, (j < n)%nat -> done_seen (fpga c) W 1 t1 j = false) ->
  done_seen (fpga c) W 1 t1 n = true ->
  i2c_write_long c devAddr regAddr data_length (VInt <$> data) w =
    (Ok RTrue,
     mkWorld (<[i2c c := mkI2C (VInt <$> bs) 5]> (heap w))
             (t1 ++ polls_missed W 1 n ++ poll_events W)).
Proof.
  intros Hd Hwired Hreg Hdl bs t1 Hn Hmiss Hhit.
  unfold i2c_write_long. rewrite (no_register_absent regAddr Hreg).
  eapply bind_ok; [by apply (i2c_configure_at c w d) |].
  set (d1 := mkI2C (command_buffer (len [VInt (Z.land devAddr 254)]) 0
                      (Z.shiftl 1 (len [VInt (Z.land devAddr 254)]))
                      [VInt (Z.land devAddr 254)])
                   (4 + len [VInt (Z.land devAddr 254)])).
  set (w1 := mkWorld (<[i2c c := d1]> (heap w))
                     (trace w ++ too_long_events (len [VInt (Z.land devAddr 254)]))).
  assert (Hd1 : heap w1 !! i2c c = Some d1) by apply lookup_insert_eq.
  assert (Hconf : configured d1 [1; 0; 2; 0; Z.land devAddr 254]) by (repeat split; done).
  rewrite (i2c_transmit_sent c W w1 d1 _ data data_length Hd1 Hconf Hdl Hwired).
  simpl heap. rewrite insert_insert_eq.
  destruct Hwired as (_ & _ & _ & _ & Hdone & _ & Hbit).
  simpl trace. change (too_long_events (len [VInt (Z.land devAddr 254)])) with (@nil Event).
  rewrite app_nil_r.
  by apply transmit_wait_done.
Qed.

(** X17.  [create_chips] gives one chip per address pin, in the order of the
    pins, each with the FPGA and the endpoints given. *)
Theorem create_chips_in_order f pins eps :
  addr_pins <$> create_chips f pins eps = pins /\
  length (create_chips f pins eps) = length pins /\
  Forall (fun c => fpga c = f /\ endpoints c = eps) (create_chips f pins eps).
Proof.
  unfold create_chips. split; [| split].
  - induction pins as [| p pins IH]; [done |].
    rewrite !fmap_cons. by rewrite IH.
  - apply length_fmap.
  - apply Forall_fmap, Forall_forall. intros p _. done.
Qed.

(** X18.  [i2c_read_long] on register bytes [regs], wire mode with readout:
    the buffer sent is the read-flagged preamble length, the start mask
    [1 << len(regs)], stop mask 0, [data_length], then [devAddr & 0xfe],
    [regs] and [devAddr | 1]; at the look that sees DONE the read pointer is
    reset and [data_length] bytes are read and returned. *)
Theorem i2c_read_long_wire_run c W w d devAddr regs data_length data_transfer reset_pipe n :
  heap w !! i2c c = Some d ->
  wired_rx c W ->
  lower data_transfer = "wire" ->
  0 <= data_length ->
  let pl := 2 + len regs in
  let bs := Z.lor pl 128 :: Z.shiftl 1 (len regs) :: 0 :: data_length
            :: Z.land devAddr 254 :: regs ++ [Z.lor devAddr 1] in
  let t1 := trace w ++ too_long_events pl ++ send_events W bs in
  (n < 5)%nat ->
  (forall j, (j < n)%nat -> done_seen (fpga c) W 10 t1 j = false) ->
  done_seen (fpga c) W 10 t1 n = true ->
  let t2 := t1 ++ polls_missed W 10 n ++ poll_events W ++ [pulse_event (w_MEMSTART W)] in
  let data := wire_data (fpga c) W t2 (Z.to_nat data_length) in
  i2c_read_long c devAddr (Some (VInt <$> regs)) data_length data_transfer reset_pipe true w =
    (Ok (RList (VInt <$> data)),
     mkWorld (<[i2c c := mkI2C (VInt <$> bs) (4 + pl)]> (heap w))
             (t2 ++ reads W (Z.to_nat data_length)))
  /\ len data = data_length.
Proof.
  intros Hd Hwired Hwire Hdl pl bs t1 Hn Hmiss Hhit t2 data.
  split; [| subst data; unfold len; rewrite length_wire_data; lia].
  unfold i2c_read_long.
  rewrite no_register_bytes by (destruct regs; done).
  simpl default.
  assert (Hlen : len ([VInt (Z.land devAddr 254)] ++ (VInt <$> regs) ++ [VInt (Z.lor devAddr 1)])
                 = pl).
  { subst pl. unfold len. simpl. rewrite length_app, length_fmap. simpl. lia. }
  rewrite Hlen.
  assert (Hregs : len (VInt <$> regs) = len regs) by (unfold len; by rewrite length_fmap).
  rewrite Hregs.
  eapply bind_ok; [by apply (i2c_configure_at c w d) |].
  eapply bind_ok; [| reflexivity].
  set (pre := Z.land devAddr 254 :: regs ++ [Z.lor devAddr 1]).
  set (d1 := mkI2C (command_buffer pl (Z.shiftl 1 (len regs)) 0
                      ([VInt (Z.land devAddr 254)] ++ (VInt <$> regs) ++ [VInt (Z.lor devAddr 1)]))
                   (4 + pl)).
  set (w1 := mkWorld (<[i2c c := d1]> (heap w)) (trace w ++ too_long_events pl)).
  assert (Hd1 : heap w1 !! i2c c = Some d1) by apply lookup_insert_eq.
  assert (Hconf : configured d1 (pl :: Z.shiftl 1 (len regs) :: 0 :: 0 :: pre)).
  { split.
    - subst d1 pre. unfold command_buffer. simpl. by rewrite fmap_app.
    - subst d1 pre pl. unfold len in *. simpl. rewrite length_app. simpl. split; lia. }
  rewrite (i2c_receive_sent c W w1 d1 _ _ _ _ pre data_length data_transfer
             reset_pipe true [] Hd1 Hconf (proj1 Hwired)).
  - simpl heap. rewrite insert_insert_eq. simpl trace. rewrite app_nil_l.
    rewrite <- (assoc_L (++) (trace w)).
    by apply receive_wait_wire.
  - unfold fifo_reset_events. by rewrite Hwire.
Qed.

(** X19.  The bytes of the wire readout are bits [k .. k + 7] of the OUT
    register, [k] being the bit offset of the OUT endpoint: the value read
    divided by [2^k], modulo 256, whatever the rest of the register holds. *)
Theorem read_wire_takes_eight_bits c W h t0 data_length :
  endpoints c !! "OUT" = Some (w_OUT W) ->
  endpoints c !! "MEMREAD" = Some (w_MEMREAD W) ->
  0 <= bit_index_low (w_OUT W) ->
  read_wire c data_length (mkWorld h t0) =
  (Ok (VInt <$>
        ((fun i => (out_value (fpga c) W t0 i / 2 ^ bit_index_low (w_OUT W)) mod 256)
           <$> seq 0 (Z.to_nat data_length))),
   mkWorld h (t0 ++ reads W (Z.to_nat data_length))).
Proof.
  intros Hout Hmr Hk.
  rewrite (read_wire_at c W h t0 data_length Hout Hmr Hk).
  f_equal. f_equal. f_equal. unfold wire_data.
  apply list_fmap_ext. intros _ i _.
  unfold out_byte.
  set (v := out_value (fpga c) W t0 i). set (k := bit_index_low (w_OUT W)) in *.
  rewrite Z.shiftr_land, Z.shiftr_shiftl_l, Z.sub_diag by lia.
  change (Z.shiftl 255 0) with (Z.ones 8). rewrite Z.land_ones by lia.
  by rewrite Z.shiftr_div_pow2 by lia.
Qed.

(** ** The wait loops, whatever the FPGA answers *)

Lemma first_done_from_Some f W ms t0 budget : forall j n,
  first_done_from f W ms t0 j budget = Some n ->
  (j <= n < j + budget)%nat /\
  (forall i, (j <= i < n)%nat -> done_seen f W ms t0 i = false) /\
  done_seen f W ms t0 n = true.
Proof.
  induction budget as [| b IH]; intros j n H; simpl in H; [done |].
  destruct (done_seen f W ms t0 j) eqn:Hj.
  - injection H as <-. repeat split; [lia | lia | intros i Hi; lia | done].
  - apply IH in H as (Hn & Hmiss & Hhit). repeat split; [lia | lia | | done].
    intros i Hi. destruct (decide (i = j)) as [-> |]; [done |]. apply Hmiss. lia.
Qed.

Lemma first_done_from_None f W ms t0 budget : forall j,
  first_done_from f W ms t0 j budget = None ->
  forall i, (j <= i < j + budget)%nat -> done_seen f W ms t0 i = false.
Proof.
  induction budget as [| b IH]; intros j H i Hi; simpl in H; [lia |].
  destruct (done_seen f W ms t0 j) eqn:Hj; [done |].
  destruct (decide (i = j)) as [-> |]; [done |]. apply (IH (S j)); [done | lia].
Qed.

(** X20.  On a configured buffer, with enough data and the endpoints there,
    [i2c_transmit] raises nothing whatever the FPGA answers: it returns [True]
    at the first of 50 looks that sees DONE, and [None] after 50 looks and the
    timeout message when none does. *)
Theorem i2c_transmit_true_or_timeout c W w d bs data data_length :
  heap w !! i2c c = Some d ->
  configured d bs ->
  0 <= data_length <= len data ->
  wired_tx c W ->
  let bs' := <[3%nat := data_length]> bs ++ take (Z.to_nat data_length) data in
  let t1 := trace w ++ send_events W bs' in
  let h' := <[i2c c := mkI2C (VInt <$> bs') (m_nDataStart d)]> (heap w) in
  i2c_transmit c (VInt <$> data) data_length w =
    match first_done (fpga c) W 1 t1 50 with
    | Some n => (Ok RTrue, mkWorld h' (t1 ++ polls_missed W 1 n ++ poll_events W))
    | None =>
        (Ok RNone,
         mkWorld h' (t1 ++ polls_missed W 1 50 ++ [Print "Timeout error in transmit"]))
    end.
Proof.
  intros Hd Hconf Hdl Hwired bs' t1 h'.
  rewrite (i2c_transmit_sent c W w d bs data data_length Hd Hconf Hdl Hwired).
  destruct Hwired as (_ & _ & _ & _ & Hdone & _ & Hbit).
  fold bs' t1 h'.
  destruct (first_done (fpga c) W 1 t1 50) as [n |] eqn:Hfirst.
  - apply first_done_from_Some in Hfirst as (Hn & Hmiss & Hhit).
    apply transmit_wait_done; try done; [lia |].
    intros j Hj. apply Hmiss. lia.
  - apply transmit_wait_timeout; try done.
    intros j Hj. apply (first_done_from_None _ _ _ _ _ _ Hfirst). lia.
Qed.

(** X21.  The same for [i2c_receive] in wire mode with readout: a list of
    [data_length] bytes at the first of 5 looks that sees DONE, [None] after 5
    looks and the timeout message when none does; never an exception, never a
    shorter list. *)
Theorem i2c_receive_data_or_timeout c W w d b0 b1 b2 b3 pre data_length data_transfer
    reset_pipe :
  heap w !! i2c c = Some d ->
  configured d (b0 :: b1 :: b2 :: b3 :: pre) ->
  wired_rx c W ->
  lower data_transfer = "wire" ->
  let bs' := Z.lor b0 128 :: b1 :: b2 :: data_length :: pre in
  let t1 := trace w ++ send_events W bs' in
  let h' := <[i2c c := mkI2C (VInt <$> bs') (m_nDataStart d)]> (heap w) in
  i2c_receive c data_length data_transfer reset_pipe true w =
    match first_done (fpga c) W 10 t1 5 with
    | Some n =>
        let t2 := t1 ++ polls_missed W 10 n ++ poll_events W ++ [pulse_event (w_MEMSTART W)] in
        (Ok (RList (VInt <$> wire_data (fpga c) W t2 (Z.to_nat data_length))),
         mkWorld h' (t2 ++ reads W (Z.to_nat data_length)))
    | None =>
        (Ok RNone,
         mkWorld h' (t1 ++ polls_missed W 10 5 ++ [Print "Timeout Exception in Rx"]))
    end.
Proof.
  intros Hd Hconf Hwired Hwire bs' t1 h'.
  rewrite (i2c_receive_sent c W w d b0 b1 b2 b3 pre data_length data_transfer
             reset_pipe true [] Hd Hconf (proj1 Hwired))
    by (unfold fifo_reset_events; by rewrite Hwire).
  rewrite app_nil_l. fold bs' t1 h'.
  destruct (first_done (fpga c) W 10 t1 5) as [n |] eqn:Hfirst.
  - apply first_done_from_Some in Hfirst as (Hn & Hmiss & Hhit).
    apply receive_wait_wire; try done; [lia |].
    intros j Hj. apply Hmiss. lia.
  - destruct Hwired as ((_ & _ & _ & _ & Hdone & _ & Hbit) & _).
    apply receive_wait_timeout; try done.
    intros j Hj. apply (first_done_from_None _ _ _ _ _ _ Hfirst). lia.
Qed.

(** ** These theorems at work on the bench *)

Lemma pipe_wired_tx f : wired_tx (pipe_chip f) bench_wiring.
Proof. repeat split; done. Qed.

Lemma i2c_configure_forgets_witness :
  i2c_configure (bench_chip fpga_never_done) 1 0 0 [VInt 161]
    (mkWorld (<[default_i2c := sent_dict]> (heap class_defined)) (trace class_defined)) =
  i2c_configure (bench_chip fpga_never_done) 1 0 0 [VInt 161] class_defined.
Proof.
  assert (H0 : heap class_defined !! i2c (bench_chip fpga_never_done) = Some (mkI2C [] 7))
    by reflexivity.
  assert (H1 : len [VInt 161] = 1) by reflexivity.
  exact (proj1 (i2c_configure_forgets (bench_chip fpga_never_done) class_defined (mkI2C [] 7)
                  1 0 0 [VInt 161] H0 H1) sent_dict).
Defined.

(** [i2c_configure(3, 0, 0, [0xA0])]: one preamble byte for three. *)
Lemma i2c_configure_short_preamble_witness :
  i2c_configure (bench_chip fpga_never_done) 3 0 0 [VInt 160] class_defined =
  (Raise IndexError,
   mkWorld (<[default_i2c := mkI2C [VInt 3; VInt 0; VInt 0; VInt 0; VInt 160; VNone; VNone] 7]>
              (heap class_defined)) []).
Proof.
  assert (H0 : heap class_defined !! i2c (bench_chip fpga_never_done) = Some (mkI2C [] 7))
    by reflexivity.
  assert (H1 : len [VInt 160] < 3) by (unfold len; simpl; lia).
  exact (i2c_configure_short_preamble (bench_chip fpga_never_done) class_defined (mkI2C [] 7)
           3 0 0 [VInt 160] H0 H1).
Defined.

(** [i2c_configure(-2, 5, 6, [])]: two cells, filled, then the IndexError. *)
Lemma i2c_configure_negative_length_witness :
  i2c_configure (bench_chip fpga_never_done) (-2) 5 6 [] bench_world =
  (Raise IndexError,
   mkWorld (<[default_i2c := mkI2C [VInt (-2); VInt 5] 6]> (heap bench_world)) []).
Proof.
  assert (H0 : heap bench_world !! i2c (bench_chip fpga_never_done) = Some bench_dict)
    by reflexivity.
  assert (H1 : -2 < 0) by lia.
  exact (i2c_configure_negative_length (bench_chip fpga_never_done) bench_world bench_dict
           (-2) 5 6 [] H0 H1).
Defined.

Lemma i2c_configure_no_hardware_witness :
  trace (snd (i2c_configure (bench_chip fpga_never_done) 9 0 0 [VInt 160] class_defined)) =
  [Print "Preamble data is too long"].
Proof.
  pose (run := i2c_configure (bench_chip fpga_never_done) 9 0 0 [VInt 160] class_defined).
  assert (H0 : i2c_configure (bench_chip fpga_never_done) 9 0 0 [VInt 160] class_defined
               = (fst run, snd run)) by (vm_compute; reflexivity).
  exact (i2c_configure_no_hardware (bench_chip fpga_never_done) 9 0 0 [VInt 160]
           class_defined (fst run) (snd run) H0).
Defined.

(** [i2c_transmit] on a chip fresh from [create_chips]. *)
Lemma i2c_transmit_unconfigured_witness :
  i2c_transmit (bench_chip (fpga_done_at 0)) [VInt 66] 1 class_defined =
  (Raise IndexError, class_defined).
Proof.
  assert (H0 : heap class_defined !! i2c (bench_chip (fpga_done_at 0)) = Some (mkI2C [] 7))
    by reflexivity.
  assert (H1 : len (m_pBuf (mkI2C [] 7)) < 4) by (unfold len; simpl; lia).
  exact (i2c_transmit_unconfigured (bench_chip (fpga_done_at 0)) class_defined (mkI2C [] 7)
           [VInt 66] 1 H0 H1).
Defined.

(** [i2c_transmit([0x42], 3)]: one data byte for three. *)
Lemma i2c_transmit_short_data_witness :
  i2c_transmit (bench_chip (fpga_done_at 0)) [VInt 66] 3 bench_world =
  (Raise IndexError,
   mkWorld (<[default_i2c := mkI2C (VInt <$> [2; 0; 4; 3; 160; 16; 66]) 6]> (heap bench_world))
           []).
Proof.
  assert (H0 : heap bench_world !! i2c (bench_chip (fpga_done_at 0)) = Some bench_dict)
    by reflexivity.
  assert (H1 : 4 <= len (m_pBuf bench_dict)) by (unfold len; simpl; lia).
  assert (H2 : len [VInt 66] < 3) by (unfold len; simpl; lia).
  exact (i2c_transmit_short_data (bench_chip (fpga_done_at 0)) bench_world bench_dict
           [VInt 66] 3 H0 H1 H2).
Defined.

Lemma i2c_transmit_missing_MEMSTART_witness :
  i2c_transmit (no_memstart_chip (fpga_done_at 0)) [VInt 66] 1 bench_world =
  (Raise (KeyError "MEMSTART"),
   mkWorld (<[default_i2c := mkI2C (VInt <$> [2; 0; 4; 1; 160; 16; 66]) 6]> (heap bench_world))
           []).
Proof.
  assert (H0 : heap bench_world !! i2c (no_memstart_chip (fpga_done_at 0)) = Some bench_dict)
    by reflexivity.
  assert (H1 : 4 <= len (m_pBuf bench_dict)) by (unfold len; simpl; lia).
  assert (H2 : 0 <= 1 <= len [VInt 66]) by (unfold len; simpl; lia).
  assert (H3 : endpoints (no_memstart_chip (fpga_done_at 0)) !! "MEMSTART" = None)
    by reflexivity.
  exact (i2c_transmit_missing_MEMSTART (no_memstart_chip (fpga_done_at 0)) bench_world
           bench_dict [VInt 66] 1 H0 H1 H2 H3).
Defined.

(** A second [i2c_transmit([0x55], 1)] with no configure in between: 0x42 is
    sent again, 0x55 is not. *)
Lemma i2c_transmit_stale_payload_witness :
  i2c_transmit (bench_chip (fpga_done_at 0)) (VInt <$> [85]) 1 sent_world =
  (Ok RTrue,
   mkWorld (<[default_i2c := mkI2C (VInt <$> [2; 0; 4; 1; 160; 16; 66; 85]) 6]>
              (heap sent_world))
           (send_events bench_wiring [2; 0; 4; 1; 160; 16; 66] ++ poll_events bench_wiring)).
Proof.
  pose (c := bench_chip (fpga_done_at 0)).
  pose (t1 := send_events bench_wiring [2; 0; 4; 1; 160; 16; 66]).
  assert (H0 : heap sent_world !! i2c c = Some sent_dict) by reflexivity.
  assert (H1 : m_pBuf sent_dict = VInt <$> ([2; 0; 4; 1; 160; 16] ++ [66])) by reflexivity.
  assert (H2 : m_nDataStart sent_dict = len [2; 0; 4; 1; 160; 16]) by reflexivity.
  assert (H3 : 4 <= len [2; 0; 4; 1; 160; 16]) by (unfold len; simpl; lia).
  assert (H4 : 0 <= 1 <= len [85]) by (unfold len; simpl; lia).
  assert (H5 : (0 < 50)%nat) by lia.
  assert (H6 : forall j, (j < 0)%nat -> done_seen (fpga c) bench_wiring 1 t1 j = false)
    by (intros j Hj; lia).
  assert (H7 : done_seen (fpga c) bench_wiring 1 t1 0 = true) by reflexivity.
  exact (proj1 (i2c_transmit_stale_payload c bench_wiring sent_world sent_dict
                  [2; 0; 4; 1; 160; 16] [66] [85] 1 0
                  H0 H1 H2 H3 H4 (bench_wired_tx _) H5 H6 H7)).
Defined.

(** [i2c_receive] on a chip fresh from [create_chips]. *)
Lemma i2c_receive_unconfigured_witness :
  i2c_receive (bench_chip (fpga_done_at 0)) 1 "wire" true true class_defined =
  (Raise IndexError, class_defined).
Proof.
  assert (H0 : heap class_defined !! i2c (bench_chip (fpga_done_at 0)) = Some (mkI2C [] 7))
    by reflexivity.
  assert (H1 : m_pBuf (mkI2C [] 7) = []) by reflexivity.
  assert (H2 : fifo_reset_events (bench_chip (fpga_done_at 0)) "wire" true = Some [])
    by reflexivity.
  exact (i2c_receive_unconfigured (bench_chip (fpga_done_at 0)) class_defined (mkI2C [] 7)
           1 "wire" true true [] H0 H1 H2).
Defined.

(** [i2c_receive(3, 'pipe')]: the FIFO reset, the command, and the pipe's
    three bytes with its code. *)
Lemma i2c_receive_pipe_reads_witness :
  i2c_receive (pipe_chip (fpga_with_pipe 1)) 3 "pipe" true true bench_world =
  (Ok (RPipe [1; 2; 3] 3),
   mkWorld (<[default_i2c := mkI2C (VInt <$> [130; 0; 4; 3; 160; 16]) 6]> (heap bench_world))
           ([ActivateTriggerIn 64 5] ++ send_events bench_wiring [130; 0; 4; 3; 160; 16]
            ++ polls_missed bench_wiring 10 1 ++ poll_events bench_wiring
            ++ [ReadPipeOut 160 3])).
Proof.
  pose (c := pipe_chip (fpga_with_pipe 1)).
  pose (t1 := [ActivateTriggerIn 64 5] ++ send_events bench_wiring [130; 0; 4; 3; 160; 16]).
  assert (H0 : heap bench_world !! i2c c = Some bench_dict) by reflexivity.
  assert (H1 : endpoints c !! "FIFO_RESET" = Some (mkEndpoint 64 5)) by reflexivity.
  assert (H2 : endpoints c !! "PIPE_OUT" = Some (mkEndpoint 160 0)) by reflexivity.
  assert (H3 : lower "pipe" = "pipe") by reflexivity.
  assert (H4 : (1 < 5)%nat) by lia.
  assert (H5 : forall j, (j < 1)%nat -> done_seen (fpga c) bench_wiring 10 t1 j = false)
    by (intros [| j] Hj; [reflexivity | lia]).
  assert (H6 : done_seen (fpga c) bench_wiring 10 t1 1 = true) by reflexivity.
  refine (eq_trans (i2c_receive_pipe_reads c bench_wiring bench_world bench_dict
                      2 0 4 0 [160; 16] 3 "pipe" true (mkEndpoint 64 5) (mkEndpoint 160 0) 1
                      H0 bench_configured (pipe_wired_tx _) H1 H2 H3 H4 H5 H6) _).
  vm_compute. reflexivity.
Defined.

Lemma i2c_receive_no_readout_returns_witness :
  i2c_receive (bench_chip (fpga_done_at 1)) 2 "wire" true false bench_world =
  (Ok RNone,
   mkWorld (<[default_i2c := mkI2C (VInt <$> [130; 0; 4; 2; 160; 16]) 6]> (heap bench_world))
           (send_events bench_wiring [130; 0; 4; 2; 160; 16]
            ++ polls_missed bench_wiring 10 1 ++ poll_events bench_wiring)).
Proof.
  pose (c := bench_chip (fpga_done_at 1)).
  pose (t1 := send_events bench_wiring [130; 0; 4; 2; 160; 16]).
  assert (H0 : heap bench_world !! i2c c = Some bench_dict) by reflexivity.
  assert (H1 : fifo_reset_events c "wire" true = Some []) by reflexivity.
  assert (H2 : (1 < 5)%nat) by lia.
  assert (H3 : forall j, (j < 1)%nat -> done_seen (fpga c) bench_wiring 10 t1 j = false)
    by (intros [| j] Hj; [reflexivity | lia]).
  assert (H4 : done_seen (fpga c) bench_wiring 10 t1 1 = true) by reflexivity.
  exact (proj1 (i2c_receive_no_readout_returns c bench_wiring bench_world bench_dict
                  2 0 4 0 [160; 16] 2 "wire" true [] 1
                  H0 bench_configured (bench_wired_tx _) H1 H2 H3 H4)).
Defined.

(** [i2c_receive(2, 'spi')] with DONE set from the first look on. *)
Lemma i2c_receive_unknown_mode_witness :
  i2c_receive (bench_chip (fpga_done_at 0)) 2 "spi" true true bench_world =
  (Ok RNone,
   mkWorld (<[default_i2c := mkI2C (VInt <$> [130; 0; 4; 2; 160; 16]) 6]> (heap bench_world))
           (send_events bench_wiring [130; 0; 4; 2; 160; 16]
            ++ polls_missed bench_wiring 10 5 ++ [Print "Timeout Exception in Rx"])).
Proof.
  assert (H0 : heap bench_world !! i2c (bench_chip (fpga_done_at 0)) = Some bench_dict)
    by reflexivity.
  assert (H1 : lower "spi" <> "wire") by discriminate.
  assert (H2 : lower "spi" <> "pipe") by discriminate.
  exact (i2c_receive_unknown_mode (bench_chip (fpga_done_at 0)) bench_wiring bench_world
           bench_dict 2 0 4 0 [160; 16] 2 "spi" true
           H0 bench_configured (bench_wired_tx _) H1 H2).
Defined.

Lemma i2c_receive_pipe_out_missing_late_witness :
  i2c_receive (bench_chip (fpga_done_at 0)) 1 "pipe" false true bench_world =
  (Raise (KeyError "PIPE_OUT"),
   mkWorld (<[default_i2c := mkI2C (VInt <$> [130; 0; 4; 1; 160; 16]) 6]> (heap bench_world))
           (send_events bench_wiring [130; 0; 4; 1; 160; 16] ++ poll_events bench_wiring)).
Proof.
  pose (c := bench_chip (fpga_done_at 0)).
  pose (t1 := send_events bench_wiring [130; 0; 4; 1; 160; 16]).
  assert (H0 : heap bench_world !! i2c c = Some bench_dict) by reflexivity.
  assert (H1 : lower "pipe" = "pipe") by reflexivity.
  assert (H2 : endpoints c !! "PIPE_OUT" = None) by reflexivity.
  assert (H3 : (0 < 5)%nat) by lia.
  assert (H4 : forall j, (j < 0)%nat -> done_seen (fpga c) bench_wiring 10 t1 j = false)
    by (intros j Hj; lia).
  assert (H5 : done_seen (fpga c) bench_wiring 10 t1 0 = true) by reflexivity.
  exact (i2c_receive_pipe_out_missing_late c bench_wiring bench_world bench_dict
           2 0 4 0 [160; 16] 1 "pipe" 0
           H0 bench_configured (bench_wired_tx _) H1 H2 H3 H4 H5).
Defined.

Lemma transmit_receive_keep_preamble_witness :
  kept_at default_i2c bench_dict
    (snd (i2c_receive (bench_chip fpga_never_done) 2 "wire" true true bench_world)).
Proof.
  pose (c := bench_chip fpga_never_done).
  pose (run := i2c_receive c 2 "wire" true true bench_world).
  assert (H0 : heap bench_world !! default_i2c = Some bench_dict) by reflexivity.
  assert (H1 : i2c_receive c 2 "wire" true true bench_world = (fst run, snd run))
    by (vm_compute; reflexivity).
  exact (proj2 (transmit_receive_keep_preamble default_i2c bench_world bench_dict H0)
           c 2 "wire" true true (fst run) (snd run) H1).
Defined.

(** [i2c_write_long(0xA1, None, 1, [0x42])]. *)
Lemma i2c_write_long_no_register_witness :
  i2c_write_long (bench_chip (fpga_done_at 0)) 161 None 1 (VInt <$> [66]) class_defined =
  (Ok RTrue,
   mkWorld (<[default_i2c := mkI2C (VInt <$> [1; 0; 2; 1; 160; 66]) 5]> (heap class_defined))
           (send_events bench_wiring [1; 0; 2; 1; 160; 66] ++ poll_events bench_wiring)).
Proof.
  pose (c := bench_chip (fpga_done_at 0)).
  pose (t1 := send_events bench_wiring [1; 0; 2; 1; 160; 66]).
  assert (H0 : heap class_defined !! i2c c = Some (mkI2C [] 7)) by reflexivity.
  assert (H1 : (None : option (list val)) = None \/ None = Some [VNone]) by (left; reflexivity).
  assert (H2 : 0 <= 1 <= len [66]) by (unfold len; simpl; lia).
  assert (H3 : (0 < 50)%nat) by lia.
  assert (H4 : forall j, (j < 0)%nat -> done_seen (fpga c) bench_wiring 1 t1 j = false)
    by (intros j Hj; lia).
  assert (H5 : done_seen (fpga c) bench_wiring 1 t1 0 = true) by reflexivity.
  exact (i2c_write_long_no_register c bench_wiring class_defined (mkI2C [] 7) 161 None [66] 1 0
           H0 (bench_wired_tx _) H1 H2 H3 H4 H5).
Defined.

(** [i2c_read_long(0xA0, [0x10], 2)] on a fresh chip: preamble
    [0xA0, 0x10, 0xA1], start mask 2, and the bytes 0x11, 0x22 returned. *)
Lemma i2c_read_long_wire_run_witness :
  i2c_read_long (bench_chip (fpga_done_at 0)) 160 (Some [VInt 16]) 2 "wire" true true
    class_defined =
  (Ok (RList [VInt 17; VInt 34]),
   mkWorld (<[default_i2c := mkI2C (VInt <$> [131; 2; 0; 2; 160; 16; 161]) 7]>
              (heap class_defined))
           (send_events bench_wiring [131; 2; 0; 2; 160; 16; 161]
            ++ poll_events bench_wiring
            ++ [pulse_event (w_MEMSTART bench_wiring)] ++ reads bench_wiring 2)).
Proof.
  pose (c := bench_chip (fpga_done_at 0)).
  pose (t1 := send_events bench_wiring [131; 2; 0; 2; 160; 16; 161]).
  assert (H0 : heap class_defined !! i2c c = Some (mkI2C [] 7)) by reflexivity.
  assert (H1 : lower "wire" = "wire") by reflexivity.
  assert (H2 : 0 <= 2) by lia.
  assert (H3 : (0 < 5)%nat) by lia.
  assert (H4 : forall j, (j < 0)%nat -> done_seen (fpga c) bench_wiring 10 t1 j = false)
    by (intros j Hj; lia).
  assert (H5 : done_seen (fpga c) bench_wiring 10 t1 0 = true) by reflexivity.
  refine (eq_trans (proj1 (i2c_read_long_wire_run c bench_wiring class_defined (mkI2C [] 7)
                             160 [16] 2 "wire" true 0
                             H0 (bench_wired_rx _) H1 H2 H3 H4 H5)) _).
  vm_compute. reflexivity.
Defined.

(** Two reads of an OUT register that shows 0x7711AB and 0x7722AB. *)
Lemma read_wire_takes_eight_bits_witness :
  read_wire (bench_chip (fpga_done_at 0)) 2 (mkWorld ∅ []) =
  (Ok [VInt 17; VInt 34], mkWorld ∅ (reads bench_wiring 2)).
Proof.
  assert (H0 : endpoints (bench_chip (fpga_done_at 0)) !! "OUT" = Some (w_OUT bench_wiring))
    by reflexivity.
  assert (H1 : endpoints (bench_chip (fpga_done_at 0)) !! "MEMREAD"
               = Some (w_MEMREAD bench_wiring)) by reflexivity.
  assert (H2 : 0 <= bit_index_low (w_OUT bench_wiring)) by (simpl; lia).
  refine (eq_trans (read_wire_takes_eight_bits (bench_chip (fpga_done_at 0)) bench_wiring
                      ∅ [] 2 H0 H1 H2) _).
  vm_compute. reflexivity.
Defined.

(** DONE at the fourth look of a transmit, at the third of a receive. *)
Lemma i2c_transmit_true_or_timeout_witness :
  i2c_transmit (bench_chip (fpga_done_at 3)) (VInt <$> [66]) 1 bench_world =
  (Ok RTrue,
   mkWorld (<[default_i2c := mkI2C (VInt <$> [2; 0; 4; 1; 160; 16; 66]) 6]> (heap bench_world))
           (send_events bench_wiring [2; 0; 4; 1; 160; 16; 66]
            ++ polls_missed bench_wiring 1 3 ++ poll_events bench_wiring)).
Proof.
  assert (H0 : heap bench_world !! i2c (bench_chip (fpga_done_at 3)) = Some bench_dict)
    by reflexivity.
  assert (H1 : 0 <= 1 <= len [66]) by (unfold len; simpl; lia).
  refine (eq_trans (i2c_transmit_true_or_timeout (bench_chip (fpga_done_at 3)) bench_wiring
                      bench_world bench_dict [2; 0; 4; 0; 160; 16] [66] 1
                      H0 bench_configured H1 (bench_wired_tx _)) _).
  vm_compute. reflexivity.
Defined.

Lemma i2c_receive_data_or_timeout_witness :
  i2c_receive (bench_chip (fpga_done_at 2)) 1 "wire" true true bench_world =
  (Ok (RList [VInt 17]),
   mkWorld (<[default_i2c := mkI2C (VInt <$> [130; 0; 4; 1; 160; 16]) 6]> (heap bench_world))
           (send_events bench_wiring [130; 0; 4; 1; 160; 16]
            ++ polls_missed bench_wiring 10 2 ++ poll_events bench_wiring
            ++ [pulse_event (w_MEMSTART bench_wiring)] ++ reads bench_wiring 1)).
Proof.
  assert (H0 : heap bench_world !! i2c (bench_chip (fpga_done_at 2)) = Some bench_dict)
    by reflexivity.
  assert (H1 : lower "wire" = "wire") by reflexivity.
  refine (eq_trans (i2c_receive_data_or_timeout (bench_chip (fpga_done_at 2)) bench_wiring
                      bench_world bench_dict 2 0 4 0 [160; 16] 1 "wire" true
                      H0 bench_configured (bench_wired_rx _) H1) _).
  vm_compute. reflexivity.
Defined.
